(** * VSGL training loops (train.py): a shallow embedding and its properties

    The development follows [train.py]: the F1 calculator [calculate_f1],
    the WGAN-GP penalty [compute_gradient_penalty], the pretraining loop
    [train_gan], the combined loop [train_combined_cgan] and
    [evaluate_model].

    Numbers.  Integer tensors (predictions, labels) are lists of [Z].
    Floating-point values (coordinates, scores, logits, losses, metrics) are
    real numbers [R]: the arithmetic is exact, rounding, infinities and NaN
    are not modelled, and comparisons go through [Rlt_dec].  Python's own
    division raises [ZeroDivisionError] on a zero divisor, which is kept;
    division of tensors does not raise.

    Tensors are nested lists.  Where torch would reject operands of
    different shapes the elementwise operations below stop at the shorter
    operand; the theorems that depend on shapes state them.

    Collaborators.  The networks, the renderer, the Wasserstein and
    cross-entropy losses, the optimizers, the schedulers and the random
    number generator are external to [train.py]; they are the fields of the
    record [Env] that every loop takes.  An optimizer is given the loss as a
    function of the parameters it owns, which stands for
    [zero_grad(); loss.backward(); step()].

    Effects.  The loops thread the generator state, the network parameters,
    the checkpoint files and the CSV log through explicit states.  Printing,
    timing, moving tensors to the device, the image files written every
    30th or 10th batch and the in-memory [metrics] dictionary have no effect
    on these states and are left out. *)

From Stdlib Require Import List ZArith Lia Bool Arith.
From Stdlib Require String.
From Stdlib Require Import Reals Lra.
Import ListNotations.

(* ================================================================== *)
(** * Part I: the program                                              *)
(* ================================================================== *)

(** ** Python values and exceptions *)

Module Py.
Local Open Scope R_scope.

Inductive exn : Type :=
| ZeroDivisionError
| RuntimeError.

Inductive result (A : Type) : Type :=
| Ok (a : A)
| Raise (e : exn).
Arguments Ok {A} a.
Arguments Raise {A} e.

Definition bind {A B : Type} (m : result A) (k : A -> result B) : result B :=
  match m with
  | Ok a => k a
  | Raise e => Raise e
  end.

(** [x < y] on floats *)
Definition ltb (x y : R) : bool := if Rlt_dec x y then true else false.

(** [x <= y] on floats *)
Definition leb (x y : R) : bool := if Rle_dec x y then true else false.

(** a float that may be [float('inf')] *)
Inductive ext : Type :=
| Fin (x : R)
| Inf.

(** [x < b] for a finite [x] *)
Definition lt_ext (x : R) (b : ext) : bool :=
  match b with
  | Fin y => ltb x y
  | Inf => true
  end.

(** [x / n] for a Python number [x] and a Python int [n] *)
Definition div_int (x : R) (n : nat) : result R :=
  match n with
  | O => Raise ZeroDivisionError
  | S _ => Ok (x / INR n)
  end.

End Py.

Notation "x <- m ;; k" := (Py.bind m (fun x => k))
  (at level 61, m at next level, right associativity).

(** ** Integer tensors (flattened) *)

Module Tensor.

Definition tensor := list Z.

(** [a * b], elementwise on tensors of the same shape (torch broadcasts an
    operand of length 1 and raises on any other mismatch of the lengths) *)
Definition mul (a b : tensor) : tensor :=
  map (fun ab => (fst ab * snd ab)%Z) (combine a b).

(** [c - a] for a Python scalar [c] *)
Definition rsub (c : Z) (a : tensor) : tensor :=
  map (fun x => (c - x)%Z) a.

(** [a.sum()] *)
Definition sum (a : tensor) : Z := fold_right Z.add 0%Z a.

(** [(a == b).sum().item()], on tensors of the same shape *)
Definition count_eq (a b : tensor) : Z :=
  sum (map (fun ab => if (fst ab =? snd ab)%Z then 1%Z else 0%Z) (combine a b)).

(** every entry is 0 or 1 *)
Definition binary (a : tensor) : Prop :=
  Forall (fun x => x = 0%Z \/ x = 1%Z) a.

End Tensor.

(** ** [calculate_f1] *)

Module Metric.
Import Tensor.
Local Open Scope R_scope.

(** the literal [1e-8] *)
Definition eps : R := / 100000000.

(** [.to(torch.float32)] of an integer scalar: exact for the counts of 0/1
    tensors, which stay below 2^24 *)
Definition to_float (z : Z) : R := IZR z.

Definition calculate_f1 (preds labels : tensor) : R * R * R :=
  let tp := to_float (sum (mul preds labels)) in
  let tn := to_float (sum (mul (rsub 1 preds) (rsub 1 labels))) in
  let fp := to_float (sum (mul preds (rsub 1 labels))) in
  let fn := to_float (sum (mul (rsub 1 preds) labels)) in
  let precision := tp / (tp + fp + eps) in
  let recall := tp / (tp + fn + eps) in
  let f1 := 2 * (precision * recall) / (precision + recall + eps) in
  (precision, recall, f1).

Definition f1_of (r : R * R * R) : R := snd r.

(** *** The confusion counts, counted position by position *)

Definition count_where (f : Z -> Z -> bool) (preds labels : tensor) : nat :=
  length (filter (fun pl => f (fst pl) (snd pl)) (combine preds labels)).

Definition count_tp := count_where (fun p l => (p =? 1)%Z && (l =? 1)%Z).
Definition count_fp := count_where (fun p l => (p =? 1)%Z && (l =? 0)%Z).
Definition count_fn := count_where (fun p l => (p =? 0)%Z && (l =? 1)%Z).
Definition count_tn := count_where (fun p l => (p =? 0)%Z && (l =? 0)%Z).

(** the closed form of the F1 score on given counts *)
Definition closed_form (tp fp fn : nat) : R * R * R :=
  let P := INR tp / (INR tp + INR fp + eps) in
  let R := INR tp / (INR tp + INR fn + eps) in
  (P, R, 2 * (P * R) / (P + R + eps)).

End Metric.

(** ** Layouts and the derived node count *)

Module Layout.
Local Open Scope R_scope.

(** the coordinates of one node *)
Definition row := list R.
(** the padded coordinate rows of one graph *)
Definition layout := list row.
(** one adjacency matrix *)
Definition matrix := list (list R).

Definition sum (l : list R) : R := fold_right Rplus 0 l.

(** [x.mean()] *)
Definition mean (l : list R) : R := sum l / INR (length l).

(** [x.norm(2)] of a flat vector *)
Definition norm (v : list R) : R := sqrt (sum (map (fun x => x * x) v)).

(** [x > 0] *)
Definition gt0 (x : R) : bool := Py.ltb 0 x.

(** [m.sum()] of a boolean vector *)
Definition count_true (m : list bool) : nat :=
  fold_right (fun (b : bool) acc => ((if b then 1 else 0) + acc)%nat) 0%nat m.

(** The node count is derived three times, each time as
    [[
    non_zero_nodes_mask = torch.norm(graph_layouts, dim=2) > 0
    num_nodes = non_zero_nodes_mask.sum(dim=1)
    ]] *)

(** train_gan, lines 148-151 *)
Definition num_nodes_train_gan (node_coords : list layout) : list nat :=
  let non_zero_nodes_mask := map (map (fun r => gt0 (norm r))) node_coords in
  map count_true non_zero_nodes_mask.

(** train_combined_cgan, lines 384-387 *)
Definition num_nodes_combined (graph_layouts : list layout) : list nat :=
  let non_zero_nodes_mask := map (map (fun r => gt0 (norm r))) graph_layouts in
  map count_true non_zero_nodes_mask.

(** evaluate_model, lines 691-694 *)
Definition num_nodes_evaluate (graph_layouts : list layout) : list nat :=
  let non_zero_nodes_mask := map (map (fun r => gt0 (norm r))) graph_layouts in
  map count_true non_zero_nodes_mask.

(** *** The specification's count: rows whose norm is not zero *)

Definition nonzero (x : R) : bool := if Req_dec_T x 0 then false else true.

Definition count_nonzero_rows (g : layout) : nat :=
  length (filter (fun r => nonzero (norm r)) g).

End Layout.

(** ** The random number generator

    [torch.rand] and [torch.randn] read a global generator.  Its state is the
    number of scalars drawn so far; a [source] fixes which value each draw
    returns.  Tensors are filled in row-major order. *)

Module Rand.

Record source : Type := {
  uniform : nat -> R;   (* draw number k, asked of torch.rand *)
  normal : nat -> R     (* draw number k, asked of torch.randn *)
}.

Definition rng := nat.

Definition vec (f : nat -> R) (st n : nat) : list R :=
  map f (seq st n).

Definition mat (f : nat -> R) (st rows cols : nat) : list (list R) :=
  map (fun i => vec f (st + i * cols) cols) (seq 0 rows).

Definition cube (f : nat -> R) (st b rows cols : nat) : list (list (list R)) :=
  map (fun k => mat f (st + k * (rows * cols)) rows cols) (seq 0 b).

(** [torch.rand(b, 1, 1)]: one coefficient per graph *)
Definition rand_b11 (src : source) (st : rng) (b : nat) : list R * rng :=
  (vec (uniform src) st b, (st + b)%nat).

(** [torch.rand(b, n, m)] *)
Definition rand_3 (src : source) (st : rng) (b n m : nat)
  : list (list (list R)) * rng :=
  (cube (uniform src) st b n m, (st + b * (n * m))%nat).

(** [torch.randn(b, d)] *)
Definition randn_2 (src : source) (st : rng) (b d : nat)
  : list (list R) * rng :=
  (mat (normal src) st b d, (st + b * d)%nat).

End Rand.

(** ** [compute_gradient_penalty] *)

Module Penalty.
Import Layout Rand.
Local Open Scope R_scope.

(** The critic at its current parameters.  [grad x a] is the tuple that
    [torch.autograd.grad(outputs=score x a, inputs=[x, a],
    grad_outputs=ones)] returns: the gradient of the summed scores with
    respect to the coordinates and with respect to the adjacency.  The call
    is made without [allow_unused], so it returns only for a critic whose
    score uses both inputs and raises [RuntimeError] otherwise; the record
    describes the critics for which it returns (see [uses_both_inputs]). *)
Record critic : Type := {
  score : list layout -> list matrix -> list R;
  grad : list layout -> list matrix -> list layout * list matrix
}.

Definition map2 {A B C : Type} (f : A -> B -> C) (la : list A) (lb : list B)
  : list C :=
  map (fun ab => f (fst ab) (snd ab)) (combine la lb).

Fixpoint map3 {A B C D : Type} (f : A -> B -> C -> D)
  (la : list A) (lb : list B) (lc : list C) : list D :=
  match la, lb, lc with
  | a :: la', b :: lb', c :: lc' => f a b c :: map3 f la' lb' lc'
  | _, _, _ => []
  end.

(** [alpha * real + (1 - alpha) * fake] on one entry *)
Definition lerp (alpha real fake : R) : R := alpha * real + (1 - alpha) * fake.

(** line 58; [alpha_samples] holds one coefficient per graph, expanded over
    the rows and columns of that graph *)
Definition interpolate_samples (alpha_samples : list R)
  (real_samples fake_samples : list layout) : list layout :=
  map3 (fun a => map2 (map2 (lerp a))) alpha_samples real_samples fake_samples.

(** line 59; [alpha_adj] holds one coefficient per matrix entry *)
Definition interpolate_adj (alpha_adj : list matrix)
  (real_adj fake_adj : list matrix) : list matrix :=
  map3 (map3 (map3 lerp)) alpha_adj real_adj fake_adj.

(** the two interpolated inputs of lines 48-59, with the generator state
    after the two draws *)
Definition interpolates (src : source)
  (real_samples fake_samples : list layout) (real_adj fake_adj : list matrix)
  (st : rng) : list layout * list matrix * rng :=
  let batch_size := length real_samples in
  let num_nodes := length (hd [] real_adj) in
  let '(alpha_samples, st1) := rand_b11 src st batch_size in
  let '(alpha_adj, st2) := rand_3 src st1 batch_size num_nodes num_nodes in
  let interpolated_samples :=
    interpolate_samples alpha_samples real_samples fake_samples in
  let interpolated_adj := interpolate_adj alpha_adj real_adj fake_adj in
  (interpolated_samples, interpolated_adj, st2).

Definition compute_gradient_penalty (src : source) (discriminator : critic)
  (real_samples fake_samples : list layout) (real_adj fake_adj : list matrix)
  (lambda_gp : R) (st : rng) : R * rng :=
  let '(interpolated_samples, interpolated_adj, st2) :=
    interpolates src real_samples fake_samples real_adj fake_adj st in
  (* torch.autograd.grad(...)[0] *)
  let gradients := fst (grad discriminator interpolated_samples interpolated_adj) in
  (* gradients.view(batch_size, -1) *)
  let gradients := map (@concat R) gradients in
  let gradient_norm := map norm gradients in
  let gradient_penalty :=
    lambda_gp * mean (map (fun g => (g - 1) ^ 2) gradient_norm) in
  (gradient_penalty, st2).

(** *** The penalty as the specification words it: the norm of the combined
    gradient with respect to both interpolated inputs, flattened per sample *)

Definition joint_gradient_norms (g : list layout * list matrix) : list R :=
  map2 (fun gx ga => norm (concat gx ++ concat ga)) (fst g) (snd g).

Definition joint_gradient_penalty (src : source) (discriminator : critic)
  (real_samples fake_samples : list layout) (real_adj fake_adj : list matrix)
  (lambda_gp : R) (st : rng) : R :=
  let '(interpolated_samples, interpolated_adj, _) :=
    interpolates src real_samples fake_samples real_adj fake_adj st in
  let norms :=
    joint_gradient_norms (grad discriminator interpolated_samples interpolated_adj) in
  lambda_gp * mean (map (fun g => (g - 1) ^ 2) norms).

(** the norms of the gradient with respect to the coordinates alone *)
Definition coordinate_gradient_norms (g : list layout * list matrix) : list R :=
  map (fun gx => norm (concat gx)) (fst g).

(** [alpha] has a coefficient for every entry of [adj] and no more *)
Definition same_shape (alpha adj : list matrix) : Prop :=
  Forall2 (Forall2 (fun a r : list R => length a = length r)) alpha adj.

(** The critic's score uses both inputs at [(x, a)]: each of the two
    gradients has an entry that is not zero.  For such a critic
    [torch.autograd.grad] over [inputs=[x, a]] does not raise. *)
Definition uses_both_inputs (D : critic) (x : list layout) (a : list matrix)
  : Prop :=
  Exists (Exists (Exists (fun v => v <> 0))) (fst (grad D x a))
  /\ Exists (Exists (Exists (fun v => v <> 0))) (snd (grad D x a)).

(** a batch of [b] square matrices of one size *)
Definition square_batch (b : nat) (adj : list matrix) : Prop :=
  length adj = b
  /\ Forall (fun m => length m = length (hd [] adj)
                      /\ Forall (fun r => length r = length (hd [] adj)) m) adj.

End Penalty.

(** ** The external collaborators *)

Module Nets.
Import Tensor Layout Rand Penalty.
Local Open Scope R_scope.

(** [model.train()] or [model.eval()] *)
Inductive mode : Type := Train | Eval.

(** [z]: one row of 128 normal draws per graph *)
Definition noise := list (list R).
(** classifier outputs: one row of logits per graph *)
Definition logits := list (list R).
(** what a loader yields: (layouts, adjacency matrices, labels) *)
Definition batch : Type := list layout * list matrix * tensor.

(** The optimizers are given the loss as a function of the parameters they
    own, which stands for [zero_grad(); loss.backward(); step()]. *)
Record Env : Type := {
  image : Type;
  gparams : Type;     (* generator.state_dict() *)
  dparams : Type;     (* discriminator.state_dict() *)
  cparams : Type;     (* classifier.state_dict() *)
  gopt : Type;        (* optimizer_g.state_dict() *)
  dopt : Type;        (* optimizer_d.state_dict() *)
  copt : Type;        (* optimizer_c.state_dict() *)
  src : source;
  generator :
    mode -> gparams -> noise -> list layout -> list matrix -> list nat ->
    list layout;
  discriminator : mode -> dparams -> critic;
  classifier : mode -> cparams -> list image -> logits;
  visualize_graph_layout : layout -> matrix -> image;
  wasserstein_loss : list R -> list R -> R;
  criterion : logits -> tensor -> R;
  median : list R -> R;
  optimizer_g : gparams * gopt -> (gparams -> R) -> gparams * gopt;
  optimizer_d : dparams * dopt -> (dparams -> R) -> dparams * dopt;
  optimizer_c : cparams * copt -> (cparams -> R) -> cparams * copt;
  scheduler_g : gopt -> gopt;
  scheduler_d : dopt -> dopt;
  scheduler_c : copt -> copt
}.

(** a loader with at least one graph: some batch has a label *)
Definition labelled (loader : list batch) : Prop :=
  Exists (fun b : batch => snd b <> []) loader.

(** a batch as a loader of graphs yields it: at least one graph, and one
    adjacency matrix and one label for each graph *)
Definition holds_graphs (b : batch) : Prop :=
  fst (fst b) <> []
  /\ length (snd (fst b)) = length (fst (fst b))
  /\ length (snd b) = length (fst (fst b)).

(** [for i, x in enumerate(l)] *)
Definition enumerate {A : Type} (l : list A) : list (nat * A) :=
  combine (seq 0 (length l)) l.

(** the rendering loop
    [[
    for i, layout in enumerate(layouts):
        adj_matrix = adj_matrices[i]
        img = visualize_graph_layout(layout[:num_nodes[i]], adj_matrix=adj_matrix)
    images = torch.stack(images)
    ]]
    for a batch that holds a graph; [torch.stack] of no image raises. *)
Definition render_all (E : Env) (layouts : list layout)
  (adj_matrices : list matrix) (num_nodes : list nat) : list (image E) :=
  map (fun il =>
         let adj_matrix := nth (fst il) adj_matrices [] in
         visualize_graph_layout E
           (firstn (nth (fst il) num_nodes 0%nat) (snd il)) adj_matrix)
      (enumerate layouts).

(** index of the first largest entry: [torch.max(row)] *)
Fixpoint argmax_from (best_i : nat) (best : R) (i : nat) (l : list R) : nat :=
  match l with
  | [] => best_i
  | x :: l' =>
      if Py.ltb best x then argmax_from i x (S i) l'
      else argmax_from best_i best (S i) l'
  end.

Definition argmax (row : list R) : Z :=
  match row with
  | [] => 0%Z
  | x :: l => Z.of_nat (argmax_from 0 x 1 l)
  end.

(** [_, predicted = torch.max(outputs, 1)] *)
Definition predict (outputs : logits) : tensor := map argmax outputs.

End Nets.

(** ** [evaluate_model] *)

Module Evaluate.
Import Tensor Layout Rand Penalty Nets Metric.
Local Open Scope R_scope.

(** [torch.zeros(batch_size, 2)] *)
Definition zeros (batch_size classes : nat) : logits :=
  repeat (repeat 0 classes) batch_size.

(** [accum_logits += outputs] *)
Definition add_logits (accum outputs : logits) : logits :=
  map2 (map2 Rplus) accum outputs.

(** one turn of the loop of lines 713-730: draw, generate, render, classify *)
Definition forward_pass (E : Env) (g : gparams E) (c : cparams E)
  (graph_layouts : list layout) (adj_matrices : list matrix)
  (num_nodes : list nat) (st : rng) : logits * rng :=
  let '(z, st1) := randn_2 (src E) st (length graph_layouts) 128 in
  let gen_layouts := generator E Eval g z graph_layouts adj_matrices num_nodes in
  let images := render_all E gen_layouts adj_matrices num_nodes in
  let outputs := classifier E Eval c images in
  (outputs, st1).

(** [for _ in range(num_z_samples): ... accum_logits += outputs] *)
Fixpoint accumulate_logits (E : Env) (g : gparams E) (c : cparams E)
  (num_z_samples : nat) (graph_layouts : list layout)
  (adj_matrices : list matrix) (num_nodes : list nat)
  (accum_logits : logits) (st : rng) : logits * rng :=
  match num_z_samples with
  | O => (accum_logits, st)
  | S n =>
      let '(outputs, st1) :=
        forward_pass E g c graph_layouts adj_matrices num_nodes st in
      accumulate_logits E g c n graph_layouts adj_matrices num_nodes
        (add_logits accum_logits outputs) st1
  end.

(** lines 691-735: the predicted classes of one batch *)
Definition predict_batch (E : Env) (g : gparams E) (c : cparams E)
  (num_z_samples : nat) (graph_layouts : list layout)
  (adj_matrices : list matrix) (st : rng) : tensor * rng :=
  let num_nodes := num_nodes_evaluate graph_layouts in
  let batch_size := length graph_layouts in
  let accum_logits := zeros batch_size 2 in
  let '(accum_logits, st1) :=
    accumulate_logits E g c num_z_samples graph_layouts adj_matrices
      num_nodes accum_logits st in
  (* accum_logits /= float(num_z_samples) *)
  let accum_logits := map (map (fun x => x / INR num_z_samples)) accum_logits in
  (predict accum_logits, st1).

(** the counters [correct], [total], [total_f1] and the generator state *)
Record counters : Type := {
  correct : Z;
  total : nat;
  total_f1 : R;
  rng_state : rng
}.

(** the body of [for graph_layouts, adj_matrices, labels in test_loader] *)
Definition evaluate_batch (E : Env) (g : gparams E) (c : cparams E)
  (num_z_samples : nat) (k : counters) (b : batch) : counters :=
  let '(graph_layouts, adj_matrices, labels) := b in
  let '(predicted, st1) :=
    predict_batch E g c num_z_samples graph_layouts adj_matrices (rng_state k) in
  let '(precision, recall, f1_score) := calculate_f1 predicted labels in
  {| correct := correct k + count_eq predicted labels;
     total := total k + length labels;
     total_f1 := total_f1 k + f1_score;
     rng_state := st1 |}.

Definition evaluate_model (E : Env) (g : gparams E) (c : cparams E)
  (test_loader : list batch) (num_z_samples : nat) (st : rng)
  : Py.result (R * R * rng) :=
  let k :=
    fold_left (evaluate_batch E g c num_z_samples) test_loader
      {| correct := 0; total := 0; total_f1 := 0; rng_state := st |} in
  accuracy <- Py.div_int (IZR (100 * correct k)) (total k) ;;
  avg_f1 <- Py.div_int (total_f1 k) (length test_loader) ;;
  Py.Ok (accuracy, avg_f1, rng_state k).

(** *** The prediction as the specification words it: the logits of the
    [num_z_samples] passes are summed, divided by the sample count, and the
    arg-max of the average is taken *)

Fixpoint sample_outputs (E : Env) (g : gparams E) (c : cparams E)
  (num_z_samples : nat) (graph_layouts : list layout)
  (adj_matrices : list matrix) (num_nodes : list nat) (st : rng)
  : list logits :=
  match num_z_samples with
  | O => []
  | S n =>
      let '(outputs, st1) :=
        forward_pass E g c graph_layouts adj_matrices num_nodes st in
      outputs :: sample_outputs E g c n graph_layouts adj_matrices num_nodes st1
  end.

(** entry (i, j) of the sum of a list of logit tensors *)
Definition logit_sum (samples : list logits) (i j : nat) : R :=
  Layout.sum (map (fun o => nth j (nth i o []) 0) samples).

Definition averaged_logits (samples : list logits) (batch_size classes : nat)
  : logits :=
  map (fun i =>
         map (fun j => logit_sum samples i j / INR (length samples))
             (seq 0 classes))
      (seq 0 batch_size).

(** [o] has one row of [classes] logits for each of [batch_size] graphs *)
Definition logits_shape (batch_size classes : nat) (o : logits) : Prop :=
  length o = batch_size /\ Forall (fun r => length r = classes) o.

(** generator contract: the layouts have the batch size of the conditioning
    layouts *)
Definition generator_keeps_batch (E : Env) (m : mode) (g : gparams E) : Prop :=
  forall z layouts adj num_nodes,
    length z = length layouts ->
    length (generator E m g z layouts adj num_nodes) = length layouts.

(** classifier contract: per-graph logits over 2 classes *)
Definition classifier_two_logits (E : Env) (m : mode) (c : cparams E) : Prop :=
  forall images, logits_shape (length images) 2 (classifier E m c images).

(** a tensor given by its entries *)
Definition tab (b c : nat) (f : nat -> nat -> R) : logits :=
  map (fun i => map (fun j => f i j) (seq 0 c)) (seq 0 b).

Definition entry (o : logits) (i j : nat) : R := nth j (nth i o []) 0.

End Evaluate.

(** ** The CSV logs *)

Module Csv.
Import String.

Inductive cell : Type :=
| Str (s : String.string)
| Int (z : Z)
| Float (x : R)
| NoneCell.

Definition row := list cell.

(** the rows of the file, the header first *)
Definition file := list row.

(** [open(path, 'w')] then one [writerow] *)
Definition create (header : row) : file := [header].

(** [open(path, 'a')] then one [writerow] *)
Definition append (f : file) (r : row) : file := f ++ [r].

Definition data_rows (f : file) : list row := tl f.

Definition float_of (c : cell) : R :=
  match c with
  | Float x => x
  | _ => 0%R
  end.

(** the floats of column [k] of the data rows *)
Definition column (k : nat) (f : file) : list R :=
  map (fun r => float_of (nth k r NoneCell)) (data_rows f).

(** the header row of metrics_gan.csv *)
Definition gan_header : row :=
  map Str ["epoch"; "generator_loss"; "reconstruction_loss";
           "discriminator_loss"; "discriminator_accuracy"]%string.

(** the header row of metrics_combined_train.csv *)
Definition combined_header : row :=
  map Str ["epoch"; "generator_loss"; "discriminator_loss"; "classifier_loss";
           "train_accuracy"; "train_f1"; "val_accuracy"; "val_f1";
           "test_accuracy"; "test_f1"]%string.

End Csv.

(** ** [train_gan] *)

Module Pretrain.
Import Tensor Layout Rand Penalty Nets.
Local Open Scope R_scope.

(** the two networks with their optimizers; [gen_steps] and [disc_steps]
    count the calls of [optimizer_g.step()] and [optimizer_d.step()] *)
Record nets (E : Env) : Type := {
  gen : gparams E;
  gen_opt : gopt E;
  gen_steps : nat;
  disc : dparams E;
  disc_opt : dopt E;
  disc_steps : nat
}.
Arguments gen {E} _.
Arguments gen_opt {E} _.
Arguments gen_steps {E} _.
Arguments disc {E} _.
Arguments disc_opt {E} _.
Arguments disc_steps {E} _.

(** the accumulators of one epoch *)
Record totals : Type := {
  total_g_loss : R;
  total_d_loss : R;
  total_reconstruction_loss : R;
  correct_real : nat;
  correct_fake : nat;
  total_real : nat;
  total_fake : nat
}.

Record batch_state (E : Env) : Type := {
  b_nets : nets E;
  b_totals : totals;
  b_rng : rng
}.
Arguments b_nets {E} _.
Arguments b_totals {E} _.
Arguments b_rng {E} _.

(** [F.mse_loss(a, b)] *)
Definition mse_loss (a b : list layout) : R :=
  mean (map2 (fun x y => (x - y) ^ 2)
          (concat (map (@concat R) a)) (concat (map (@concat R) b))).

(** lines 166-170: [d_loss] as a function of the critic's parameters *)
Definition d_loss_of (E : Env) (lambda_gp : R) (d : dparams E)
  (node_coords generated_coords : list layout) (adj_matrices : list matrix)
  (st : rng) : R * rng :=
  let real_validity := score (discriminator E Train d) node_coords adj_matrices in
  let fake_validity :=
    score (discriminator E Train d) generated_coords adj_matrices in
  let discriminator_loss := wasserstein_loss E real_validity fake_validity in
  let '(gp, st1) :=
    compute_gradient_penalty (src E) (discriminator E Train d)
      node_coords generated_coords adj_matrices adj_matrices lambda_gp st in
  (discriminator_loss + gp, st1).

(** lines 199-206: [(g_loss, reconstruction_loss)] as a function of the
    generator's parameters *)
Definition g_loss_of (E : Env) (lambda_rec : R) (g : gparams E) (d : dparams E)
  (z : noise) (node_coords : list layout) (adj_matrices : list matrix)
  (num_nodes : list nat) : R * R :=
  let generated_coords :=
    generator E Train g z node_coords adj_matrices num_nodes in
  let fake_validity :=
    score (discriminator E Train d) generated_coords adj_matrices in
  let generate_loss := - mean fake_validity in
  let reconstruction_loss := mse_loss generated_coords node_coords in
  (generate_loss + lambda_rec * reconstruction_loss, reconstruction_loss).

(** the body of [for batch_idx, (node_coords, adj_matrices, _) in
    enumerate(data_loader)], lines 141-214 *)
Definition train_gan_batch (E : Env) (lambda_gp lambda_rec : R)
  (stop_training_g stop_training_d : bool)
  (s : batch_state E) (b : batch) : batch_state E :=
  let '(node_coords, adj_matrices, _) := b in
  let n := b_nets s in
  let t := b_totals s in
  let '(z, st1) := randn_2 (src E) (b_rng s) (length node_coords) 128 in
  let num_nodes := num_nodes_train_gan node_coords in
  let generated_coords :=
    generator E Train (gen n) z node_coords adj_matrices num_nodes in
  let real_validity :=
    score (discriminator E Train (disc n)) node_coords adj_matrices in
  let fake_validity :=
    score (discriminator E Train (disc n)) generated_coords adj_matrices in
  (* Train Discriminator if not stopped *)
  let '(d1, dopt1, dsteps1, total_d_loss1, st2) :=
    if negb stop_training_d then
      let '(d_loss, st2) :=
        d_loss_of E lambda_gp (disc n) node_coords generated_coords
          adj_matrices st1 in
      let '(d1, dopt1) :=
        optimizer_d E (disc n, disc_opt n)
          (fun d0 => fst (d_loss_of E lambda_gp d0 node_coords
                            generated_coords adj_matrices st1)) in
      (d1, dopt1, S (disc_steps n), total_d_loss t + d_loss, st2)
    else (disc n, disc_opt n, disc_steps n, total_d_loss t, st1) in
  (* Update Discriminator Accuracy Counters *)
  let all_validity := real_validity ++ fake_validity in
  let threshold := median E all_validity in
  let real_predictions := map (fun v => Py.ltb threshold v) real_validity in
  let fake_predictions := map (fun v => Py.leb v threshold) fake_validity in
  (* Train Generator if not stopped *)
  let '(g1, gopt1, gsteps1, total_g_loss1, total_reconstruction_loss1) :=
    if negb stop_training_g then
      let '(g_loss, reconstruction_loss) :=
        g_loss_of E lambda_rec (gen n) d1 z node_coords adj_matrices
          num_nodes in
      let '(g1, gopt1) :=
        optimizer_g E (gen n, gen_opt n)
          (fun g0 => fst (g_loss_of E lambda_rec g0 d1 z node_coords
                            adj_matrices num_nodes)) in
      (g1, gopt1, S (gen_steps n), total_g_loss t + g_loss,
       total_reconstruction_loss t + reconstruction_loss)
    else (gen n, gen_opt n, gen_steps n, total_g_loss t,
          total_reconstruction_loss t) in
  {| b_nets := {| gen := g1; gen_opt := gopt1; gen_steps := gsteps1;
                  disc := d1; disc_opt := dopt1; disc_steps := dsteps1 |};
     b_totals :=
       {| total_g_loss := total_g_loss1;
          total_d_loss := total_d_loss1;
          total_reconstruction_loss := total_reconstruction_loss1;
          correct_real := correct_real t + count_true real_predictions;
          correct_fake := correct_fake t + count_true fake_predictions;
          total_real := total_real t + length real_predictions;
          total_fake := total_fake t + length fake_predictions |};
     b_rng := st2 |}.

(** the state of the epoch loop.  [save_path_g] and [save_path_d] are the
    two checkpoint files, [log_path] is metrics_gan.csv; [epochs_run] counts
    the loop bodies that were executed (it is not a variable of the
    source). *)
Record state (E : Env) : Type := {
  networks : nets E;
  rng_state : rng;
  best_g_loss : Py.ext;
  best_d_loss : Py.ext;
  g_epochs_without_improvement : nat;
  d_epochs_without_improvement : nat;
  stop_training_g : bool;
  stop_training_d : bool;
  save_path_g : option (gparams E);
  save_path_d : option (dparams E);
  log_path : Csv.file;
  epochs_run : nat
}.
Arguments networks {E} _.
Arguments rng_state {E} _.
Arguments best_g_loss {E} _.
Arguments best_d_loss {E} _.
Arguments g_epochs_without_improvement {E} _.
Arguments d_epochs_without_improvement {E} _.
Arguments stop_training_g {E} _.
Arguments stop_training_d {E} _.
Arguments save_path_g {E} _.
Arguments save_path_d {E} _.
Arguments log_path {E} _.
Arguments epochs_run {E} _.

Definition header : Csv.row := Csv.gan_header.

(** the state before the loop, lines 100-121 *)
Definition initial (E : Env) (n0 : nets E) (st0 : rng) : state E :=
  {| networks := n0;
     rng_state := st0;
     best_g_loss := Py.Inf;
     best_d_loss := Py.Inf;
     g_epochs_without_improvement := 0;
     d_epochs_without_improvement := 0;
     stop_training_g := false;
     stop_training_d := false;
     save_path_g := None;
     save_path_d := None;
     log_path := Csv.create header;
     epochs_run := 0 |}.

(** the loop over the loader in one epoch, lines 129-237: the accumulators
    start at 0 and the flags are those at the start of the epoch *)
Definition batches_of (E : Env) (data_loader : list batch)
  (lambda_gp lambda_rec : R) (s : state E) : batch_state E :=
  fold_left
    (train_gan_batch E lambda_gp lambda_rec
       (stop_training_g s) (stop_training_d s))
    data_loader
    {| b_nets := networks s;
       b_totals := {| total_g_loss := 0; total_d_loss := 0;
                      total_reconstruction_loss := 0;
                      correct_real := 0; correct_fake := 0;
                      total_real := 0; total_fake := 0 |};
       b_rng := rng_state s |}.

(** one body of [for epoch in range(epochs)], after the [break] test:
    lines 128-297 *)
Definition train_gan_epoch (E : Env) (data_loader : list batch)
  (lambda_gp lambda_rec : R) (patience : nat) (epoch : nat) (s : state E)
  : Py.result (state E) :=
  let b := batches_of E data_loader lambda_gp lambda_rec s in
  let t := b_totals b in
  avg_g_loss <- Py.div_int (total_g_loss t) (length data_loader) ;;
  avg_d_loss <- Py.div_int (total_d_loss t) (length data_loader) ;;
  avg_reconstruction_loss <-
    Py.div_int (total_reconstruction_loss t) (length data_loader) ;;
  (* Calculate discriminator accuracy *)
  let discriminator_accuracy :=
    if (0 <? total_real t + total_fake t)%nat then
      let total_correct := (correct_real t + correct_fake t)%nat in
      let total_samples := (total_real t + total_fake t)%nat in
      (INR total_correct / INR total_samples) * 100
    else 0 in
  (* Early stopping for generator *)
  let '(best_g, g_count, stop_g, saved_g) :=
    if Py.lt_ext avg_g_loss (best_g_loss s) then
      (Py.Fin avg_g_loss, 0%nat, stop_training_g s,
       Some (gen (b_nets b)))
    else
      let c := S (g_epochs_without_improvement s) in
      (best_g_loss s, c,
       (if (patience <=? c)%nat then true else stop_training_g s),
       save_path_g s) in
  (* Early stopping for discriminator *)
  let '(best_d, d_count, stop_d, saved_d) :=
    if Py.lt_ext avg_d_loss (best_d_loss s) then
      (Py.Fin avg_d_loss, 0%nat, stop_training_d s,
       Some (disc (b_nets b)))
    else
      let c := S (d_epochs_without_improvement s) in
      (best_d_loss s, c,
       (if (patience <=? c)%nat then true else stop_training_d s),
       save_path_d s) in
  Py.Ok
    {| networks := b_nets b;
       rng_state := b_rng b;
       best_g_loss := best_g;
       best_d_loss := best_d;
       g_epochs_without_improvement := g_count;
       d_epochs_without_improvement := d_count;
       stop_training_g := stop_g;
       stop_training_d := stop_d;
       save_path_g := saved_g;
       save_path_d := saved_d;
       log_path :=
         Csv.append (log_path s)
           [Csv.Int (Z.of_nat epoch + 1); Csv.Float avg_g_loss;
            Csv.Float avg_reconstruction_loss; Csv.Float avg_d_loss;
            Csv.Float discriminator_accuracy];
       epochs_run := S (epochs_run s) |}.

(** [for epoch in range(epochs)] with its [break], lines 123-126 *)
Fixpoint train_gan_loop (E : Env) (data_loader : list batch)
  (lambda_gp lambda_rec : R) (patience : nat) (range : list nat) (s : state E)
  : Py.result (state E) :=
  match range with
  | [] => Py.Ok s
  | epoch :: rest =>
      if stop_training_g s && stop_training_d s then Py.Ok s
      else
        s1 <- train_gan_epoch E data_loader lambda_gp lambda_rec patience
                epoch s ;;
        train_gan_loop E data_loader lambda_gp lambda_rec patience rest s1
  end.

Definition train_gan (E : Env) (n0 : nets E) (data_loader : list batch)
  (epochs : nat) (lambda_gp lambda_rec : R) (patience : nat) (st0 : rng)
  : Py.result (state E) :=
  train_gan_loop E data_loader lambda_gp lambda_rec patience
    (seq 0 epochs) (initial E n0 st0).

(** *** Early stopping of one network, as the specification words it *)

Record tracker : Type := {
  best : Py.ext;
  without_improvement : nat;
  stop : bool
}.

Definition fresh : tracker :=
  {| best := Py.Inf; without_improvement := 0; stop := false |}.

(** a new minimum resets the counter; any other epoch increments it, and
    the flag is raised once the counter reaches [patience] *)
Definition early_stop_update (patience : nat) (t : tracker) (avg_loss : R)
  : tracker :=
  if Py.lt_ext avg_loss (best t) then
    {| best := Py.Fin avg_loss; without_improvement := 0; stop := stop t |}
  else
    {| best := best t;
       without_improvement := S (without_improvement t);
       stop := if (patience <=? S (without_improvement t))%nat then true
               else stop t |}.

(** the tracker after a sequence of epoch-average losses *)
Definition feed (patience : nat) (losses : list R) : tracker :=
  fold_left (early_stop_update patience) losses fresh.

Definition g_tracker {E : Env} (s : state E) : tracker :=
  {| best := best_g_loss s;
     without_improvement := g_epochs_without_improvement s;
     stop := stop_training_g s |}.

Definition d_tracker {E : Env} (s : state E) : tracker :=
  {| best := best_d_loss s;
     without_improvement := d_epochs_without_improvement s;
     stop := stop_training_d s |}.

(** the epoch-average losses, read off the log *)
Definition logged_g_losses {E : Env} (s : state E) : list R :=
  Csv.column 1 (log_path s).

Definition logged_d_losses {E : Env} (s : state E) : list R :=
  Csv.column 3 (log_path s).

(** the epoch numbers 1, 2, ..., n of the first cells of n data rows *)
Definition epoch_cells (first n : nat) : list Csv.cell :=
  map (fun k => Csv.Int (Z.of_nat k + 1)) (seq first n).

(** what holds of the state between two epochs:
    the log has its header, one data row per epoch run, numbered from 1,
    and each network's best loss, counter and flag are those of its logged
    losses *)
Definition consistent {E : Env} (patience : nat) (s : state E) : Prop :=
  log_path s <> []
  /\ map (hd Csv.NoneCell) (Csv.data_rows (log_path s))
     = epoch_cells 0 (epochs_run s)
  /\ g_tracker s = feed patience (logged_g_losses s)
  /\ d_tracker s = feed patience (logged_d_losses s).

Fixpoint strictly_increasing (l : list R) : Prop :=
  match l with
  | x :: (y :: _) as l' => x < y /\ strictly_increasing l'
  | _ => True
  end.

End Pretrain.

(** ** [train_combined_cgan] *)

Module Combined.
Import Tensor Layout Rand Penalty Nets Metric.
Local Open Scope R_scope.

(** the three networks with their optimizers and the counts of optimizer
    steps *)
Record nets (E : Env) : Type := {
  gen : gparams E;
  gen_opt : gopt E;
  gen_steps : nat;
  disc : dparams E;
  disc_opt : dopt E;
  disc_steps : nat;
  clf : cparams E;
  clf_opt : copt E;
  clf_steps : nat
}.
Arguments gen {E} _.
Arguments gen_opt {E} _.
Arguments gen_steps {E} _.
Arguments disc {E} _.
Arguments disc_opt {E} _.
Arguments disc_steps {E} _.
Arguments clf {E} _.
Arguments clf_opt {E} _.
Arguments clf_steps {E} _.

(** the dictionary saved to best_model.pth *)
Record checkpoint (E : Env) : Type := {
  generator_state_dict : gparams E;
  discriminator_state_dict : dparams E;
  classifier_state_dict : cparams E;
  optimizer_g_state_dict : gopt E;
  optimizer_d_state_dict : dopt E;
  optimizer_c_state_dict : copt E;
  saved_epoch : nat;
  saved_val_accuracy : R;
  saved_test_accuracy : R
}.

(** the accumulators of one epoch *)
Record totals : Type := {
  total_g_loss : R;
  total_d_loss : R;
  total_c_loss : R;
  correct_train : Z;
  total_train : nat;
  total_f1_train : R
}.

Record batch_state (E : Env) : Type := {
  b_nets : nets E;
  b_totals : totals;
  b_rng : rng
}.
Arguments b_nets {E} _.
Arguments b_totals {E} _.
Arguments b_rng {E} _.

(** the noise draws of one [for _ in range(num_z_samples)] loop, in the
    order they are drawn *)
Fixpoint draw_noises (src : source) (st : rng) (batch_size : nat)
  (num_z_samples : nat) : list noise * rng :=
  match num_z_samples with
  | O => ([], st)
  | S k =>
      let '(z, st1) := randn_2 src st batch_size 128 in
      let '(zs, st2) := draw_noises src st1 batch_size k in
      (z :: zs, st2)
  end.

(** [torch.stack(l, dim=0).mean(dim=0)] *)
Definition mean_dim0 (l : list (list R)) : list R :=
  map (fun i => mean (map (fun v => nth i v 0) l))
      (seq 0 (length (hd [] l))).

(** lines 396-414: [d_loss] as a function of the critic's parameters.
    [generated] holds the layout generated from each draw of the critic
    step; the variable [generated_layouts] is the last of them. *)
Definition d_loss_of (E : Env) (lambda_gp : R) (d : dparams E)
  (graph_layouts : list layout) (adj_matrices : list matrix)
  (generated : list (list layout)) (st : rng) : R * rng :=
  let real_validity :=
    score (discriminator E Train d) graph_layouts adj_matrices in
  let fake_validities :=
    map (fun generated_layouts =>
           score (discriminator E Train d) generated_layouts adj_matrices)
        generated in
  let fake_validity := mean_dim0 fake_validities in
  let discriminator_loss := wasserstein_loss E real_validity fake_validity in
  let generated_layouts := last generated [] in
  let '(gp, st1) :=
    compute_gradient_penalty (src E) (discriminator E Train d)
      graph_layouts generated_layouts adj_matrices adj_matrices lambda_gp st in
  (discriminator_loss + gp, st1).

(** one turn of the loop of lines 431-455, for the draw [z].
    [generated_layouts] is the variable left by the critic step;
    [gen_layouts] is the layout generated from [z]. *)
Definition generator_step_sample (E : Env)
  (g : gparams E) (d : dparams E) (c : cparams E)
  (graph_layouts : list layout) (adj_matrices : list matrix) (labels : tensor)
  (num_nodes : list nat) (generated_layouts : list layout) (z : noise)
  : R * R * logits :=
  let gen_layouts := generator E Train g z graph_layouts adj_matrices num_nodes in
  let f_validity := score (discriminator E Train d) gen_layouts adj_matrices in
  let adv_loss := - mean f_validity in
  (* for i, layout in enumerate(generated_layouts): ... *)
  let images := render_all E generated_layouts adj_matrices num_nodes in
  let outputs := classifier E Train c images in
  let c_loss := criterion E outputs labels in
  (adv_loss, c_loss, outputs).

(** lines 428-463: [(g_loss, mean_clf_loss, outputs)] as a function of the
    parameters; [zs_d] are the draws of the critic step, [zs_g] those of the
    generator step; [outputs] is that of the last turn *)
Definition generator_losses (E : Env) (alpha : R)
  (g : gparams E) (d : dparams E) (c : cparams E)
  (graph_layouts : list layout) (adj_matrices : list matrix) (labels : tensor)
  (num_nodes : list nat) (zs_d zs_g : list noise) : R * R * logits :=
  let generated_layouts :=
    last (map (fun z => generator E Train g z graph_layouts adj_matrices
                          num_nodes) zs_d) [] in
  let samples :=
    map (generator_step_sample E g d c graph_layouts adj_matrices labels
           num_nodes generated_layouts) zs_g in
  let adv_losses := map (fun s => fst (fst s)) samples in
  let clf_losses := map (fun s => snd (fst s)) samples in
  let mean_adv_loss := mean adv_losses in
  let mean_clf_loss := mean clf_losses in
  let g_loss := mean_adv_loss + alpha * mean_clf_loss in
  (g_loss, mean_clf_loss, last (map snd samples) []).

(** *** The generator step as the specification words it: each turn renders
    and classifies the layout generated from its own draw *)

Definition fresh_step_sample (E : Env)
  (g : gparams E) (d : dparams E) (c : cparams E)
  (graph_layouts : list layout) (adj_matrices : list matrix) (labels : tensor)
  (num_nodes : list nat) (z : noise) : R * R * logits :=
  let gen_layouts := generator E Train g z graph_layouts adj_matrices num_nodes in
  let f_validity := score (discriminator E Train d) gen_layouts adj_matrices in
  let adv_loss := - mean f_validity in
  let images := render_all E gen_layouts adj_matrices num_nodes in
  let outputs := classifier E Train c images in
  let c_loss := criterion E outputs labels in
  (adv_loss, c_loss, outputs).

Definition fresh_mean_clf_loss (E : Env)
  (g : gparams E) (d : dparams E) (c : cparams E)
  (graph_layouts : list layout) (adj_matrices : list matrix) (labels : tensor)
  (num_nodes : list nat) (zs_g : list noise) : R :=
  mean (map (fun z => snd (fst (fresh_step_sample E g d c graph_layouts
                                  adj_matrices labels num_nodes z))) zs_g).

(** the body of [for batch_idx, (graph_layouts, adj_matrices, labels) in
    enumerate(train_loader)], lines 375-519.  With no sample
    [torch.stack] of the empty list raises.  The three [backward()] calls
    are taken to succeed: an error of autograd is not modelled. *)
Definition combined_batch (E : Env) (lambda_gp alpha : R) (num_z_samples : nat)
  (s : batch_state E) (b : batch) : Py.result (batch_state E) :=
  let '(graph_layouts, adj_matrices, labels) := b in
  let n := b_nets s in
  let t := b_totals s in
  let num_nodes := num_nodes_combined graph_layouts in
  match num_z_samples with
  | O => Py.Raise Py.RuntimeError
  | S _ =>
      (* Update Discriminator *)
      let '(zs_d, st1) :=
        draw_noises (src E) (b_rng s) (length graph_layouts) num_z_samples in
      let generated :=
        map (fun z => generator E Train (gen n) z graph_layouts adj_matrices
                        num_nodes) zs_d in
      let '(d_loss, st2) :=
        d_loss_of E lambda_gp (disc n) graph_layouts adj_matrices generated
          st1 in
      let '(d1, dopt1) :=
        optimizer_d E (disc n, disc_opt n)
          (fun d0 => fst (d_loss_of E lambda_gp d0 graph_layouts adj_matrices
                            generated st1)) in
      (* Update Generator with multiple z-samples *)
      let '(zs_g, st3) :=
        draw_noises (src E) st2 (length graph_layouts) num_z_samples in
      let '(g_loss, mean_clf_loss, outputs) :=
        generator_losses E alpha (gen n) d1 (clf n) graph_layouts
          adj_matrices labels num_nodes zs_d zs_g in
      let '(g1, gopt1) :=
        optimizer_g E (gen n, gen_opt n)
          (fun g0 => fst (fst (generator_losses E alpha g0 d1 (clf n)
                                 graph_layouts adj_matrices labels num_nodes
                                 zs_d zs_g))) in
      (* Update Classifier *)
      let c_loss := mean_clf_loss in
      let '(c1, copt1) :=
        optimizer_c E (clf n, clf_opt n)
          (fun c0 => snd (fst (generator_losses E alpha (gen n) d1 c0
                                 graph_layouts adj_matrices labels num_nodes
                                 zs_d zs_g))) in
      (* Calculate training accuracy for this batch *)
      let predicted_train := predict outputs in
      let '(precision, recall, f1_score) :=
        calculate_f1 predicted_train labels in
      Py.Ok
        {| b_nets :=
             {| gen := g1; gen_opt := gopt1; gen_steps := S (gen_steps n);
                disc := d1; disc_opt := dopt1; disc_steps := S (disc_steps n);
                clf := c1; clf_opt := copt1; clf_steps := S (clf_steps n) |};
           b_totals :=
             {| total_g_loss := total_g_loss t + g_loss;
                total_d_loss := total_d_loss t + d_loss;
                total_c_loss := total_c_loss t + c_loss;
                correct_train := correct_train t + count_eq predicted_train labels;
                total_train := total_train t + length labels;
                total_f1_train := total_f1_train t + f1_score |};
           b_rng := st3 |}
  end.

(** the loop over the loader: a batch that raises ends the run *)
Fixpoint combined_batches (E : Env) (lambda_gp alpha : R) (num_z_samples : nat)
  (train_loader : list batch) (s : batch_state E)
  : Py.result (batch_state E) :=
  match train_loader with
  | [] => Py.Ok s
  | b :: rest =>
      s1 <- combined_batch E lambda_gp alpha num_z_samples s b ;;
      combined_batches E lambda_gp alpha num_z_samples rest s1
  end.

(** the state of the epoch loop.  [save_path] is best_model.pth,
    [log_path] is metrics_combined_train.csv; [epochs_run] counts the loop
    bodies that were executed (it is not a variable of the source). *)
Record state (E : Env) : Type := {
  networks : nets E;
  rng_state : rng;
  best_accuracy : R;
  epochs_without_improvement : nat;
  save_path : option (checkpoint E);
  log_path : Csv.file;
  epochs_run : nat
}.
Arguments networks {E} _.
Arguments rng_state {E} _.
Arguments best_accuracy {E} _.
Arguments epochs_without_improvement {E} _.
Arguments save_path {E} _.
Arguments log_path {E} _.
Arguments epochs_run {E} _.

(** [scheduler_g.step(); scheduler_d.step(); scheduler_c.step()] *)
Definition step_schedulers (E : Env) (n : nets E) : nets E :=
  {| gen := gen n; gen_opt := scheduler_g E (gen_opt n);
     gen_steps := gen_steps n;
     disc := disc n; disc_opt := scheduler_d E (disc_opt n);
     disc_steps := disc_steps n;
     clf := clf n; clf_opt := scheduler_c E (clf_opt n);
     clf_steps := clf_steps n |}.

(** the dictionary of lines 596-606 *)
Definition checkpoint_of (E : Env) (n : nets E) (epoch : nat)
  (val_accuracy test_accuracy : R) : checkpoint E :=
  {| generator_state_dict := gen n;
     discriminator_state_dict := disc n;
     classifier_state_dict := clf n;
     optimizer_g_state_dict := gen_opt n;
     optimizer_d_state_dict := disc_opt n;
     optimizer_c_state_dict := clf_opt n;
     saved_epoch := epoch;
     saved_val_accuracy := val_accuracy;
     saved_test_accuracy := test_accuracy |}.

(** [evaluate_model(generator, classifier, loader, device)]: the default
    [num_z_samples=5] *)
Definition evaluate (E : Env) (n : nets E) (loader : list batch) (st : rng)
  : Py.result (R * R * rng) :=
  Evaluate.evaluate_model E (gen n) (clf n) loader 5 st.

(** lines 367-372: the accumulators start at 0 *)
Definition start_of_epoch {E : Env} (s : state E) : batch_state E :=
  {| b_nets := networks s;
     b_totals := {| total_g_loss := 0; total_d_loss := 0;
                    total_c_loss := 0; correct_train := 0;
                    total_train := 0; total_f1_train := 0 |};
     b_rng := rng_state s |}.

(** one body of [for epoch in range(epochs)] up to the early-stopping
    test, lines 362-610 *)
Definition combined_epoch (E : Env)
  (train_loader val_loader test_loader : list batch)
  (patience : nat) (lambda_gp alpha : R) (num_z_samples : nat)
  (epoch : nat) (s : state E) : Py.result (state E) :=
  b <- combined_batches E lambda_gp alpha num_z_samples train_loader
         (start_of_epoch s) ;;
  let t := b_totals b in
  (* Calculate training accuracy and F1 score for this epoch *)
  train_accuracy <-
    Py.div_int (IZR (100 * correct_train t)) (total_train t) ;;
  avg_f1_train <- Py.div_int (total_f1_train t) (length train_loader) ;;
  (* Validation phase *)
  v <- evaluate E (b_nets b) val_loader (b_rng b) ;;
  let '(val_accuracy, val_f1, st1) := v in
  (* Test phase *)
  w <- evaluate E (b_nets b) test_loader st1 ;;
  let '(test_accuracy, test_f1, st2) := w in
  avg_g_loss <- Py.div_int (total_g_loss t) (length train_loader) ;;
  avg_d_loss <- Py.div_int (total_d_loss t) (length train_loader) ;;
  avg_c_loss <- Py.div_int (total_c_loss t) (length train_loader) ;;
  (* Step the schedulers *)
  let n1 := step_schedulers E (b_nets b) in
  (* Append metrics to CSV file *)
  let log1 :=
    Csv.append (log_path s)
      [Csv.Int (Z.of_nat epoch + 1); Csv.Float avg_g_loss;
       Csv.Float avg_d_loss; Csv.Float avg_c_loss;
       Csv.Float train_accuracy; Csv.Float avg_f1_train;
       Csv.Float val_accuracy; Csv.Float val_f1;
       Csv.Float test_accuracy; Csv.Float test_f1] in
  (* Check for improvement in accuracy *)
  if Py.ltb (best_accuracy s) val_accuracy then
    Py.Ok
      {| networks := n1;
         rng_state := st2;
         best_accuracy := val_accuracy;
         epochs_without_improvement := 0;
         save_path := Some (checkpoint_of E n1 epoch val_accuracy test_accuracy);
         log_path := log1;
         epochs_run := S (epochs_run s) |}
  else
    Py.Ok
      {| networks := n1;
         rng_state := st2;
         best_accuracy := best_accuracy s;
         epochs_without_improvement := S (epochs_without_improvement s);
         save_path := save_path s;
         log_path := log1;
         epochs_run := S (epochs_run s) |}.

(** [for epoch in range(epochs)] with the [break] of lines 613-615 *)
Fixpoint combined_loop (E : Env)
  (train_loader val_loader test_loader : list batch)
  (patience : nat) (lambda_gp alpha : R) (num_z_samples : nat)
  (range : list nat) (s : state E) : Py.result (state E) :=
  match range with
  | [] => Py.Ok s
  | epoch :: rest =>
      s1 <- combined_epoch E train_loader val_loader test_loader patience
              lambda_gp alpha num_z_samples epoch s ;;
      if (patience <=? epochs_without_improvement s1)%nat then Py.Ok s1
      else combined_loop E train_loader val_loader test_loader patience
             lambda_gp alpha num_z_samples rest s1
  end.

(** lines 304-358: the header, the three evaluations of the untrained model
    and the epoch-0 row *)
Definition combined_initial (E : Env) (n0 : nets E)
  (train_loader val_loader test_loader : list batch) (st0 : rng)
  : Py.result (state E) :=
  let log0 := Csv.create Csv.combined_header in
  a <- evaluate E n0 train_loader st0 ;;
  let '(train_accuracy, train_f1, st1) := a in
  v <- evaluate E n0 val_loader st1 ;;
  let '(val_accuracy, val_f1, st2) := v in
  w <- evaluate E n0 test_loader st2 ;;
  let '(test_accuracy, test_f1, st3) := w in
  Py.Ok
    {| networks := n0;
       rng_state := st3;
       best_accuracy := 0;
       epochs_without_improvement := 0;
       save_path := None;
       log_path :=
         Csv.append log0
           [Csv.Int 0; Csv.NoneCell; Csv.NoneCell; Csv.NoneCell;
            Csv.Float train_accuracy; Csv.Float train_f1;
            Csv.Float val_accuracy; Csv.Float val_f1;
            Csv.Float test_accuracy; Csv.Float test_f1];
       epochs_run := 0 |}.

(** what holds of the log between two epochs: after the header come the
    epoch-0 row and one row per epoch run, numbered from 1 *)
Definition consistent {E : Env} (s : state E) : Prop :=
  log_path s <> []
  /\ map (hd Csv.NoneCell) (Csv.data_rows (log_path s))
     = Csv.Int 0 :: Pretrain.epoch_cells 0 (epochs_run s).

Definition train_combined_cgan (E : Env) (n0 : nets E)
  (train_loader val_loader test_loader : list batch)
  (epochs patience : nat) (lambda_gp alpha : R) (num_z_samples : nat)
  (st0 : rng) : Py.result (state E) :=
  s0 <- combined_initial E n0 train_loader val_loader test_loader st0 ;;
  combined_loop E train_loader val_loader test_loader patience
    lambda_gp alpha num_z_samples (seq 0 epochs) s0.

End Combined.

(** ** Small concrete collaborators, used to run the definitions *)

Module Fixtures.
Import Layout Rand Penalty.
Local Open Scope R_scope.

(** every uniform draw is 1/2; normal draw number k is k *)
Definition half_source : source :=
  {| uniform := fun _ => / 2; normal := fun k => INR k |}.

(** the linear critic D(x, a) = 3 * (sum of x) + 4 * (sum of a) per graph;
    its gradient is 3 in every coordinate and 4 in every adjacency entry *)
Definition linear_critic : critic :=
  {| score := fun x a =>
       map2 (fun gx ga => 3 * sum (concat gx) + 4 * sum (concat ga)) x a;
     grad := fun x a =>
       (map (map (map (fun _ => 3))) x, map (map (map (fun _ => 4))) a) |}.

(** a critic with the same weight 3 on the coordinates and another weight on
    the adjacency: D(x, a) = 3 * (sum of x) + 12 * (sum of a) *)
Definition steep_critic : critic :=
  {| score := fun x a =>
       map2 (fun gx ga => 3 * sum (concat gx) + 12 * sum (concat ga)) x a;
     grad := fun x a =>
       (map (map (map (fun _ => 3))) x, map (map (map (fun _ => 12))) a) |}.

(** A toy pipeline.  The generator shifts every coordinate of a graph by the
    first noise value of that graph; the renderer returns the rows it is
    given; the classifier returns the logits [0; sum of the pixels]; the
    optimizers and schedulers change nothing. *)
Definition toy_env : Nets.Env :=
  {| Nets.image := layout;
     Nets.gparams := unit;
     Nets.dparams := unit;
     Nets.cparams := unit;
     Nets.gopt := unit;
     Nets.dopt := unit;
     Nets.copt := unit;
     Nets.src := half_source;
     Nets.generator := fun _ _ z layouts _ _ =>
       map2 (fun zi gx => map (map (fun v => v + hd 0 zi)) gx) z layouts;
     Nets.discriminator := fun _ _ => linear_critic;
     Nets.classifier := fun _ _ images =>
       map (fun img => [0; sum (concat img)]) images;
     Nets.visualize_graph_layout := fun l _ => l;
     Nets.wasserstein_loss := fun real fake => mean fake - mean real;
     Nets.criterion := fun outputs _ => sum (map (fun r => nth 1 r 0) outputs);
     Nets.median := fun l => nth (Nat.div2 (length l - 1)) l 0;
     Nets.optimizer_g := fun p _ => p;
     Nets.optimizer_d := fun p _ => p;
     Nets.optimizer_c := fun p _ => p;
     Nets.scheduler_g := fun o => o;
     Nets.scheduler_d := fun o => o;
     Nets.scheduler_c := fun o => o |}.

(** one batch of one graph: two real nodes joined by an edge, one padding
    row; label 1 *)
Definition toy_layouts : list layout := [[[1; 2]; [3; 4]; [0; 0]]].
Definition toy_adj : list matrix := [[[0; 1; 0]; [1; 0; 0]; [0; 0; 0]]].
Definition toy_labels : Tensor.tensor := [1%Z].
Definition toy_batch : Nets.batch := (toy_layouts, toy_adj, toy_labels).

Definition toy_gan_nets : Pretrain.nets toy_env :=
  Pretrain.Build_nets toy_env tt tt 0 tt tt 0.

Definition toy_nets : Combined.nets toy_env :=
  Combined.Build_nets toy_env tt tt 0 tt tt 0 tt tt 0.

(** a state of the combined loop before its first epoch: best accuracy 0,
    the header and the epoch-0 row in the log *)
Definition toy_state : Combined.state toy_env :=
  Combined.Build_state toy_env toy_nets 0%nat 0 0 None
    (Csv.append (Csv.create Csv.combined_header) [Csv.Int 0]) 0.

End Fixtures.

(** ** What [train_gan] keeps between two epochs about its checkpoints *)

Module PretrainInvariant.
Import Nets Pretrain.


End PretrainInvariant.

(** ** What [train_combined_cgan] keeps between two epochs about its
    checkpoint *)

Module CombinedInvariant.
Import Nets Combined.
Local Open Scope R_scope.

(** the validation accuracies logged for the epochs 1, 2, ...: column
    [val_accuracy] without the epoch-0 row *)
Definition logged_val_accuracies {E : Env} (s : state E) : list R :=
  tl (Csv.column 6 (log_path s)).

(** the best accuracy bounds every logged validation accuracy; without a
    checkpoint it is still 0, and a checkpoint holds the best accuracy and
    the 0-based number of the epoch that reached it *)
Definition checkpoint_tracks_best {E : Env} (s : state E) : Prop :=
  log_path s <> []
  /\ length (Csv.column 6 (log_path s)) = S (epochs_run s)
  /\ 0 <= best_accuracy s
  /\ (epochs_without_improvement s <= epochs_run s)%nat
  /\ Forall (fun v => v <= best_accuracy s) (logged_val_accuracies s)
  /\ (save_path s = None -> best_accuracy s = 0)
  /\ (forall ck,
         save_path s = Some ck ->
         saved_val_accuracy E ck = best_accuracy s
         /\ 0 < best_accuracy s
         /\ (saved_epoch E ck < epochs_run s)%nat
         /\ nth (saved_epoch E ck) (logged_val_accuracies s) 0
            = best_accuracy s).

End CombinedInvariant.

(** ** Further states of the toy pipeline *)

Module FixturesExtra.
Import Layout Rand Penalty.
Local Open Scope R_scope.

(** a state of [train_gan] in which the generator is frozen and its best
    loss is 5 *)
Definition frozen_generator_state : Pretrain.state Fixtures.toy_env :=
  Pretrain.Build_state Fixtures.toy_env Fixtures.toy_gan_nets 0%nat
    (Py.Fin 5) (Py.Fin 5) 0 0 true false None None
    (Csv.create Csv.gan_header) 0.

End FixturesExtra.

(* ================================================================== *)
(** * Part II: properties                                              *)
(* ================================================================== *)

(** ** Arithmetic helpers *)

Lemma lt_div_r (a b c : R) : (0 < c -> a * c < b -> a < b / c)%R.
Proof.
  intros Hc H. apply Rmult_lt_reg_r with c; [exact Hc|].
  unfold Rdiv. rewrite Rmult_assoc, Rinv_l, Rmult_1_r by lra. exact H.
Qed.

Lemma div_le_l (a b c : R) : (0 < c -> a <= b * c -> a / c <= b)%R.
Proof.
  intros Hc H. apply Rmult_le_reg_r with c; [exact Hc|].
  unfold Rdiv. rewrite Rmult_assoc, Rinv_l, Rmult_1_r by lra. exact H.
Qed.

Module MetricFacts.
Import Tensor Metric.
Local Open Scope R_scope.

Lemma sum_mul_counts (f : Z -> Z -> Z) (g : Z -> Z -> bool) :
  (forall p l, (p = 0 \/ p = 1)%Z -> (l = 0 \/ l = 1)%Z ->
               f p l = if g p l then 1%Z else 0%Z) ->
  forall preds labels,
    binary preds -> binary labels ->
    sum (map (fun pl => f (fst pl) (snd pl)) (combine preds labels))
    = Z.of_nat (count_where g preds labels).
Proof.
  intros Hfg preds.
  induction preds as [|p ps IH]; intros [|l ls] Hp Hl; try reflexivity.
  inversion Hp as [|? ? Hp0 Hps]; inversion Hl as [|? ? Hl0 Hls]; subst.
  unfold count_where in *. cbn [combine map sum fold_right filter fst snd].
  fold (sum (map (fun pl => f (fst pl) (snd pl)) (combine ps ls))).
  rewrite (IH ls Hps Hls), (Hfg p l Hp0 Hl0).
  destruct (g p l); cbn [length]; lia.
Qed.

Lemma combine_map_both (A B : Type) (f : A -> Z) (g : B -> Z) (h : Z * Z -> Z) :
  forall (a : list A) (b : list B),
    map h (combine (map f a) (map g b))
    = map (fun ab => h (f (fst ab), g (snd ab))) (combine a b).
Proof.
  induction a as [|x a IH]; intros [|y b]; cbn; try reflexivity.
  now rewrite IH.
Qed.

Lemma rsub_as_map c a : rsub c a = map (fun x => (c - x)%Z) a.
Proof. reflexivity. Qed.

Lemma map_id_Z (a : list Z) : map (fun x : Z => x) a = a.
Proof. apply map_id. Qed.

Ltac binary_cases :=
  intros p l [-> | ->] [-> | ->]; reflexivity.

Lemma tp_counts preds labels :
  binary preds -> binary labels ->
  sum (mul preds labels) = Z.of_nat (count_tp preds labels).
Proof.
  intros Hp Hl. unfold mul, count_tp.
  apply (sum_mul_counts (fun p l => (p * l)%Z)); auto. binary_cases.
Qed.

Lemma fp_counts preds labels :
  binary preds -> binary labels ->
  sum (mul preds (rsub 1 labels)) = Z.of_nat (count_fp preds labels).
Proof.
  intros Hp Hl. unfold mul, count_fp. rewrite rsub_as_map.
  rewrite <- (map_id_Z preds) at 1.
  rewrite combine_map_both. cbn [fst snd].
  apply (sum_mul_counts (fun p l => (p * (1 - l))%Z)); auto. binary_cases.
Qed.

Lemma fn_counts preds labels :
  binary preds -> binary labels ->
  sum (mul (rsub 1 preds) labels) = Z.of_nat (count_fn preds labels).
Proof.
  intros Hp Hl. unfold mul, count_fn. rewrite rsub_as_map.
  rewrite <- (map_id_Z labels) at 1.
  rewrite combine_map_both. cbn [fst snd].
  apply (sum_mul_counts (fun p l => ((1 - p) * l)%Z)); auto. binary_cases.
Qed.

Lemma calculate_f1_counts preds labels :
  binary preds -> binary labels ->
  calculate_f1 preds labels
  = closed_form (count_tp preds labels) (count_fp preds labels)
                (count_fn preds labels).
Proof.
  intros Hp Hl. unfold calculate_f1, closed_form, to_float.
  now rewrite tp_counts, fp_counts, fn_counts, <- !INR_IZR_INZ.
Qed.

Lemma count_where_same (f : Z -> Z -> bool) :
  (forall x, f x x = false) ->
  forall a, count_where f a a = 0%nat.
Proof.
  intros Hf a. unfold count_where.
  induction a as [|x a IH]; cbn; [reflexivity|].
  now rewrite Hf.
Qed.

Lemma count_fp_same a : count_fp a a = 0%nat.
Proof.
  apply count_where_same. intros x.
  destruct (Z.eqb_spec x 1); destruct (Z.eqb_spec x 0); cbn; auto; lia.
Qed.

Lemma count_fn_same a : count_fn a a = 0%nat.
Proof.
  apply count_where_same. intros x.
  destruct (Z.eqb_spec x 1); destruct (Z.eqb_spec x 0); cbn; auto; lia.
Qed.

Lemma eps_pos : 0 < eps.
Proof. unfold eps. lra. Qed.

Lemma eps_small : eps < / 4.
Proof. unfold eps. lra. Qed.

(** with no true positive the F1 score is 0 *)
Lemma closed_form_no_tp fp fn : f1_of (closed_form 0 fp fn) = 0.
Proof.
  unfold closed_form, f1_of. cbn [snd INR].
  unfold Rdiv. rewrite !Rmult_0_l. rewrite Rmult_0_r. now rewrite Rmult_0_l.
Qed.

(** precision (= recall) when there is no false positive (negative) *)
Lemma ratio_bounds t :
  1 <= t -> 1 - eps < t / (t + 0 + eps) /\ t / (t + 0 + eps) <= 1.
Proof.
  intros Ht. pose proof eps_pos as He.
  assert (Hd : 0 < t + 0 + eps) by lra.
  split.
  - apply lt_div_r; [exact Hd|]. nra.
  - apply div_le_l; [exact Hd|]. lra.
Qed.

Lemma f1_bounds P :
  1 - eps < P -> P <= 1 ->
  1 - 2 * eps < 2 * (P * P) / (P + P + eps)
  /\ 2 * (P * P) / (P + P + eps) <= 1.
Proof.
  intros Hl Hu. pose proof eps_pos as He. pose proof eps_small as Hs.
  assert (Hd : 0 < P + P + eps) by lra.
  split.
  - apply lt_div_r; [exact Hd|]. nra.
  - apply div_le_l; [exact Hd|]. nra.
Qed.

Lemma all_wrong_no_tp preds labels :
  Forall2 (fun p l => p <> l) preds labels -> count_tp preds labels = 0%nat.
Proof.
  unfold count_tp, count_where.
  induction 1 as [|p l ps ls Hne _ IH]; cbn; [reflexivity|].
  destruct (Z.eqb_spec p 1); destruct (Z.eqb_spec l 1); cbn; auto; congruence.
Qed.

(** C3, amended.  On binary tensors of the same shape [calculate_f1] returns
    the closed form 2PR/(P+R+eps), P = tp/(tp+fp+eps), R = tp/(tp+fn+eps),
    eps = 1e-8, on the confusion counts counted position by position.  With
    no true positive (predictions and labels disjoint, in particular every
    prediction wrong) F1 is 0; this includes identical tensors without a
    positive entry.  When predictions equal labels and some entry is
    positive, F1 is 1 up to the guard: 1 - 2 eps < F1 <= 1. *)
Theorem calculate_f1_closed_form preds labels :
  binary preds -> binary labels -> length preds = length labels ->
  calculate_f1 preds labels
  = closed_form (count_tp preds labels) (count_fp preds labels)
                (count_fn preds labels)
  /\ (count_tp preds labels = 0%nat ->
      f1_of (calculate_f1 preds labels) = 0)
  /\ (Forall2 (fun p l => p <> l) preds labels ->
      f1_of (calculate_f1 preds labels) = 0)
  /\ (preds = labels -> (0 < count_tp preds labels)%nat ->
      1 - 2 * eps < f1_of (calculate_f1 preds labels)
      /\ f1_of (calculate_f1 preds labels) <= 1).
Proof.
  intros Hp Hl _.
  pose proof (calculate_f1_counts preds labels Hp Hl) as Hcf.
  split; [exact Hcf|]. rewrite Hcf.
  split; [|split].
  - intros ->. apply closed_form_no_tp.
  - intros Hw. rewrite (all_wrong_no_tp _ _ Hw). apply closed_form_no_tp.
  - intros -> Hpos. rewrite count_fp_same, count_fn_same.
    unfold closed_form, f1_of. cbn [snd]. change (INR 0) with 0.
    assert (Ht : 1 <= INR (count_tp labels labels)).
    { change 1 with (INR 1). apply le_INR. lia. }
    destruct (ratio_bounds _ Ht) as [Hlo Hhi].
    apply f1_bounds; assumption.
Qed.

Lemma calculate_f1_closed_form_witness :
  let t := [1; 0; 1]%Z in
  1 - 2 * eps < f1_of (calculate_f1 t t) /\ f1_of (calculate_f1 t t) <= 1.
Proof.
  intros t.
  assert (Hb : binary t) by (repeat constructor; auto).
  apply (calculate_f1_closed_form t t Hb Hb eq_refl); [reflexivity|].
  cbv. lia.
Defined.

(** C3 as stated fails: identical tensors without a positive entry have
    tp = 0, so precision, recall and F1 are all 0, not 1. *)
Lemma calculate_f1_identical_negatives :
  binary [0; 0]%Z /\ f1_of (calculate_f1 [0; 0]%Z [0; 0]%Z) <> 1.
Proof.
  split; [repeat constructor; auto|].
  unfold calculate_f1, f1_of, to_float. cbn.
  unfold Rdiv. rewrite !Rmult_0_l. rewrite Rmult_0_r, Rmult_0_l. lra.
Qed.

End MetricFacts.

(** ** The derived node count *)

Module LayoutFacts.
Import Layout.
Local Open Scope R_scope.

Lemma sum_cons x l : sum (x :: l) = x + sum l.
Proof. reflexivity. Qed.

Lemma sum_squares_nonneg v : 0 <= sum (map (fun x => x * x) v).
Proof.
  induction v as [|x v IH]; cbn [map]; [cbn; lra|].
  rewrite sum_cons.
  pose proof (Rle_0_sqr x) as Hx. unfold Rsqr in Hx. lra.
Qed.

Lemma norm_nonneg v : 0 <= norm v.
Proof. apply sqrt_pos. Qed.

Lemma sum_squares_zero v :
  Forall (fun x => x = 0) v -> sum (map (fun x => x * x) v) = 0.
Proof.
  induction 1 as [|x v Hx _ IH]; cbn [map]; [reflexivity|].
  rewrite sum_cons, IH, Hx. lra.
Qed.

Lemma norm_all_zero v : Forall (fun x => x = 0) v -> norm v = 0.
Proof.
  intros H. unfold norm. rewrite (sum_squares_zero v H). apply sqrt_0.
Qed.

(** a norm is positive exactly when it is not zero *)
Lemma gt0_norm v : gt0 (norm v) = nonzero (norm v).
Proof.
  unfold gt0, Py.ltb, nonzero. pose proof (norm_nonneg v).
  destruct (Rlt_dec 0 (norm v)); destruct (Req_dec_T (norm v) 0);
    auto; lra.
Qed.

Lemma count_true_filter (A : Type) (f : A -> bool) (l : list A) :
  count_true (map f l) = length (filter f l).
Proof.
  induction l as [|x l IH]; [reflexivity|].
  cbn [map filter]. change (count_true (f x :: map f l))
    with (((if f x then 1 else 0) + count_true (map f l))%nat).
  rewrite IH. destruct (f x); reflexivity.
Qed.

Lemma mask_sum_counts (g : layout) :
  count_true (map (fun r => gt0 (norm r)) g) = count_nonzero_rows g.
Proof.
  rewrite count_true_filter. unfold count_nonzero_rows.
  f_equal. apply filter_ext. intros r. apply gt0_norm.
Qed.

Lemma count_nonzero_rows_all_zero (g : layout) :
  Forall (Forall (fun x => x = 0)) g -> count_nonzero_rows g = 0%nat.
Proof.
  unfold count_nonzero_rows.
  induction 1 as [|r g Hr _ IH]; cbn; [reflexivity|].
  rewrite (norm_all_zero r Hr). unfold nonzero.
  destruct (Req_dec_T 0 0) as [_|Hne]; [exact IH | now elim Hne].
Qed.

Lemma num_nodes_counts (graph_layouts : list layout) :
  map count_true (map (map (fun r => gt0 (norm r))) graph_layouts)
  = map count_nonzero_rows graph_layouts.
Proof.
  rewrite map_map. apply map_ext. intros g. apply mask_sum_counts.
Qed.

(** C9.  In each of the three loops the derived [num_nodes[i]] is the number
    of coordinate rows of graph [i] whose L2 norm is nonzero; the three
    derivations agree; a graph whose rows are all zero gets 0. *)
Theorem num_nodes_is_nonzero_row_count (graph_layouts : list layout) :
  num_nodes_train_gan graph_layouts = map count_nonzero_rows graph_layouts
  /\ num_nodes_combined graph_layouts = map count_nonzero_rows graph_layouts
  /\ num_nodes_evaluate graph_layouts = map count_nonzero_rows graph_layouts
  /\ (forall i g,
         nth_error graph_layouts i = Some g ->
         Forall (Forall (fun x => x = 0)) g ->
         nth_error (num_nodes_train_gan graph_layouts) i = Some 0%nat
         /\ nth_error (num_nodes_combined graph_layouts) i = Some 0%nat
         /\ nth_error (num_nodes_evaluate graph_layouts) i = Some 0%nat).
Proof.
  unfold num_nodes_train_gan, num_nodes_combined, num_nodes_evaluate.
  rewrite num_nodes_counts.
  do 3 (split; [reflexivity|]).
  intros i g Hi Hz.
  assert (Hn : nth_error (map count_nonzero_rows graph_layouts) i = Some 0%nat).
  { rewrite nth_error_map, Hi. cbn.
    now rewrite (count_nonzero_rows_all_zero g Hz). }
  auto.
Qed.

(** a batch of two graphs padded to three rows: the first has two real
    nodes, the second none *)
Lemma num_nodes_is_nonzero_row_count_witness :
  nth_error (num_nodes_evaluate
               [ [[3; 4]; [0; 0]; [1; 0]]; [[0; 0]; [0; 0]; [0; 0]] ]) 1
  = Some 0%nat.
Proof.
  eapply (num_nodes_is_nonzero_row_count
            [ [[3; 4]; [0; 0]; [1; 0]]; [[0; 0]; [0; 0]; [0; 0]] ]).
  - reflexivity.
  - repeat constructor.
Defined.

End LayoutFacts.

(** ** The gradient penalty *)

Module PenaltyFacts.
Import Layout Rand Penalty.
Local Open Scope R_scope.

Lemma norm_singleton x : 0 <= x -> norm [x] = x.
Proof.
  intros Hx. unfold norm. cbn [map]. rewrite !LayoutFacts.sum_cons.
  change (sum []) with 0. rewrite Rplus_0_r. now apply sqrt_square.
Qed.

Lemma norm_3_4 : norm [3; 4] = 5.
Proof.
  unfold norm. cbn [map]. rewrite !LayoutFacts.sum_cons.
  change (sum []) with 0.
  replace (3 * 3 + (4 * 4 + 0)) with (5 * 5) by lra.
  apply sqrt_square. lra.
Qed.

Lemma penalty_unfold src D real fake ra fa lambda_gp st :
  fst (compute_gradient_penalty src D real fake ra fa lambda_gp st)
  = lambda_gp
    * mean (map (fun g => (g - 1) ^ 2)
              (coordinate_gradient_norms
                 (grad D (fst (fst (interpolates src real fake ra fa st)))
                         (snd (fst (interpolates src real fake ra fa st)))))).
Proof.
  unfold compute_gradient_penalty, coordinate_gradient_norms.
  destruct (interpolates src real fake ra fa st) as [[xs adj] st2].
  cbn [fst snd]. now rewrite !map_map.
Qed.

(** C2, amended.  For a critic that uses both interpolated inputs, the
    per-sample norm that enters the penalty is the L2 norm of element 0 of
    the gradient tuple, the gradient with respect to the interpolated
    coordinates, flattened per sample; the gradient with respect to the
    interpolated adjacency is computed and dropped, so two such critics with
    the same coordinate gradient at the interpolated point get the same
    penalty, whatever their adjacency gradients. *)
Theorem gradient_penalty_uses_coordinate_gradient
  src D real fake ra fa lambda_gp st :
  uses_both_inputs D
    (fst (fst (interpolates src real fake ra fa st)))
    (snd (fst (interpolates src real fake ra fa st))) ->
  fst (compute_gradient_penalty src D real fake ra fa lambda_gp st)
  = lambda_gp
    * mean (map (fun g => (g - 1) ^ 2)
              (coordinate_gradient_norms
                 (grad D (fst (fst (interpolates src real fake ra fa st)))
                         (snd (fst (interpolates src real fake ra fa st))))))
  /\ (forall D',
         uses_both_inputs D'
           (fst (fst (interpolates src real fake ra fa st)))
           (snd (fst (interpolates src real fake ra fa st))) ->
         fst (grad D' (fst (fst (interpolates src real fake ra fa st)))
                      (snd (fst (interpolates src real fake ra fa st))))
         = fst (grad D (fst (fst (interpolates src real fake ra fa st)))
                       (snd (fst (interpolates src real fake ra fa st)))) ->
         compute_gradient_penalty src D' real fake ra fa lambda_gp st
         = compute_gradient_penalty src D real fake ra fa lambda_gp st).
Proof.
  intros _. split; [apply penalty_unfold|].
  intros D' _ Hsame. unfold compute_gradient_penalty.
  destruct (interpolates src real fake ra fa st) as [[xs adj] st2].
  cbn [fst snd] in Hsame. now rewrite Hsame.
Qed.

(** the two linear critics of the fixtures have the coordinate gradient 3
    and the adjacency gradients 4 and 12: both use both inputs, and they get
    the same penalty *)
Lemma gradient_penalty_uses_coordinate_gradient_witness :
  uses_both_inputs Fixtures.linear_critic
    (fst (fst (interpolates Fixtures.half_source
                 [[[0]]] [[[1]]] [[[1]]] [[[1]]] 0%nat)))
    (snd (fst (interpolates Fixtures.half_source
                 [[[0]]] [[[1]]] [[[1]]] [[[1]]] 0%nat)))
  /\ uses_both_inputs Fixtures.steep_critic
       (fst (fst (interpolates Fixtures.half_source
                    [[[0]]] [[[1]]] [[[1]]] [[[1]]] 0%nat)))
       (snd (fst (interpolates Fixtures.half_source
                    [[[0]]] [[[1]]] [[[1]]] [[[1]]] 0%nat)))
  /\ snd (grad Fixtures.steep_critic [[[0]]] [[[1]]])
     <> snd (grad Fixtures.linear_critic [[[0]]] [[[1]]])
  /\ compute_gradient_penalty Fixtures.half_source Fixtures.steep_critic
       [[[0]]] [[[1]]] [[[1]]] [[[1]]] 1 0%nat
     = compute_gradient_penalty Fixtures.half_source Fixtures.linear_critic
         [[[0]]] [[[1]]] [[[1]]] [[[1]]] 1 0%nat.
Proof.
  assert (Hlin : uses_both_inputs Fixtures.linear_critic
                   (fst (fst (interpolates Fixtures.half_source
                                [[[0]]] [[[1]]] [[[1]]] [[[1]]] 0%nat)))
                   (snd (fst (interpolates Fixtures.half_source
                                [[[0]]] [[[1]]] [[[1]]] [[[1]]] 0%nat)))).
  { split; cbn; repeat constructor; lra. }
  assert (Hsteep : uses_both_inputs Fixtures.steep_critic
                     (fst (fst (interpolates Fixtures.half_source
                                  [[[0]]] [[[1]]] [[[1]]] [[[1]]] 0%nat)))
                     (snd (fst (interpolates Fixtures.half_source
                                  [[[0]]] [[[1]]] [[[1]]] [[[1]]] 0%nat)))).
  { split; cbn; repeat constructor; lra. }
  split; [exact Hlin|]. split; [exact Hsteep|]. split.
  - cbn. intros H. injection H as H. lra.
  - apply (proj2 (gradient_penalty_uses_coordinate_gradient
                    Fixtures.half_source Fixtures.linear_critic
                    [[[0]]] [[[1]]] [[[1]]] [[[1]]] 1 0%nat Hlin)
             Fixtures.steep_critic Hsteep).
    reflexivity.
Defined.

(** C2 as stated fails.  For the linear critic with gradient 3 in the
    coordinate and 4 in the adjacency entry of a one-node graph, the code's
    norm is 3 and its penalty (3 - 1)^2 = 4; the norm of the combined gradient
    is 5 and would give (5 - 1)^2 = 16. *)
Lemma gradient_penalty_not_joint :
  fst (compute_gradient_penalty Fixtures.half_source Fixtures.linear_critic
         [[[0]]] [[[1]]] [[[1]]] [[[1]]] 1 0%nat) = 4
  /\ joint_gradient_penalty Fixtures.half_source Fixtures.linear_critic
       [[[0]]] [[[1]]] [[[1]]] [[[1]]] 1 0%nat = 16
  /\ fst (compute_gradient_penalty Fixtures.half_source Fixtures.linear_critic
            [[[0]]] [[[1]]] [[[1]]] [[[1]]] 1 0%nat)
     <> joint_gradient_penalty Fixtures.half_source Fixtures.linear_critic
          [[[0]]] [[[1]]] [[[1]]] [[[1]]] 1 0%nat.
Proof.
  assert (H4 : fst (compute_gradient_penalty Fixtures.half_source
                      Fixtures.linear_critic
                      [[[0]]] [[[1]]] [[[1]]] [[[1]]] 1 0%nat) = 4).
  { unfold compute_gradient_penalty, interpolates, mean.
    cbn [length hd rand_b11 rand_3 interpolate_samples interpolate_adj
         Fixtures.linear_critic grad fst snd map map2 map3 combine concat app
         vec mat cube seq Nat.add Nat.mul].
    rewrite norm_singleton by lra. cbn [map length INR sum fold_right].
    lra. }
  assert (H16 : joint_gradient_penalty Fixtures.half_source
                  Fixtures.linear_critic
                  [[[0]]] [[[1]]] [[[1]]] [[[1]]] 1 0%nat = 16).
  { unfold joint_gradient_penalty, interpolates, joint_gradient_norms, mean.
    cbn [length hd rand_b11 rand_3 interpolate_samples interpolate_adj
         Fixtures.linear_critic grad fst snd map map2 map3 combine concat app
         vec mat cube seq Nat.add Nat.mul].
    rewrite norm_3_4. cbn [map length INR sum fold_right].
    lra. }
  rewrite H4, H16. repeat split. lra.
Qed.

End PenaltyFacts.

(** ** Evaluation *)

Module EvaluateFacts.
Import Tensor Layout Rand Penalty Nets Metric Evaluate.
Local Open Scope R_scope.

(** *** The definitions on small inputs *)

Ltac decide_order :=
  repeat match goal with
         | |- context [Rlt_dec ?x ?y] => destruct (Rlt_dec x y); try lra
         | |- context [Rle_dec ?x ?y] => destruct (Rle_dec x y); try lra
         end.

Example argmax_middle : argmax [1; 3; 2] = 1%Z.
Proof. unfold argmax, argmax_from, Py.ltb. decide_order. reflexivity. Qed.

(** of equal logits the first wins *)
Example argmax_tie : argmax [2; 2] = 0%Z.
Proof. unfold argmax, argmax_from, Py.ltb. decide_order. reflexivity. Qed.

Example predict_two_graphs : predict [[0; 1]; [5; 4]] = [1%Z; 0%Z].
Proof.
  unfold predict, argmax, argmax_from, Py.ltb. cbn [map]. decide_order.
  reflexivity.
Qed.

Example zeros_2_2 : zeros 2 2 = [[0; 0]; [0; 0]].
Proof. reflexivity. Qed.

Lemma length_vec f st n : length (vec f st n) = n.
Proof. unfold vec. now rewrite length_map, length_seq. Qed.

Lemma length_mat f st rows cols : length (mat f st rows cols) = rows.
Proof. unfold mat. now rewrite length_map, length_seq. Qed.

Lemma length_enumerate (A : Type) (l : list A) : length (enumerate l) = length l.
Proof.
  unfold enumerate. rewrite length_combine, length_seq. apply Nat.min_id.
Qed.

Lemma length_render_all E layouts adj num_nodes :
  length (render_all E layouts adj num_nodes) = length layouts.
Proof. unfold render_all. now rewrite length_map, length_enumerate. Qed.

Lemma forward_pass_shape E g c graph_layouts adj num_nodes st :
  generator_keeps_batch E Eval g -> classifier_two_logits E Eval c ->
  logits_shape (length graph_layouts) 2
    (fst (forward_pass E g c graph_layouts adj num_nodes st)).
Proof.
  intros Hg Hc. unfold forward_pass, randn_2. cbn [fst].
  specialize (Hc (render_all E
    (generator E Eval g (mat (normal (src E)) st (length graph_layouts) 128)
       graph_layouts adj num_nodes) adj num_nodes)).
  rewrite length_render_all, Hg in Hc by apply length_mat.
  exact Hc.
Qed.

Lemma snd_forward_pass E g c graph_layouts adj num_nodes st :
  snd (forward_pass E g c graph_layouts adj num_nodes st)
  = (st + length graph_layouts * 128)%nat.
Proof. reflexivity. Qed.

(** *** Tensors by entries *)

Lemma map_nth_seq (A : Type) (d : A) (l : list A) :
  map (fun j => nth j l d) (seq 0 (length l)) = l.
Proof.
  induction l as [|x l IH]; [reflexivity|].
  cbn [length seq map nth]. f_equal.
  rewrite <- seq_shift, map_map. exact IH.
Qed.

Lemma shape_tab b c o : logits_shape b c o -> o = tab b c (entry o).
Proof.
  intros [Hb Hc]. unfold tab, entry. subst b.
  rewrite <- (map_nth_seq _ [] o) at 1.
  apply map_ext_in. intros i Hi. apply in_seq in Hi.
  rewrite Forall_forall in Hc.
  rewrite <- (Hc (nth i o [])) by (apply nth_In; lia).
  symmetry. apply map_nth_seq.
Qed.

Lemma tab_ext b c f g :
  (forall i j, (i < b)%nat -> (j < c)%nat -> f i j = g i j) ->
  tab b c f = tab b c g.
Proof.
  intros H. unfold tab. apply map_ext_in. intros i Hi.
  apply in_seq in Hi. apply map_ext_in. intros j Hj. apply in_seq in Hj.
  apply H; lia.
Qed.

Lemma map2_map (A C D : Type) (h : C -> C -> D) (f g : A -> C) (l : list A) :
  map2 h (map f l) (map g l) = map (fun x => h (f x) (g x)) l.
Proof.
  unfold map2. induction l as [|x l IH]; cbn; [reflexivity|]. now rewrite IH.
Qed.

Lemma add_tab b c f g :
  add_logits (tab b c f) (tab b c g) = tab b c (fun i j => f i j + g i j).
Proof.
  unfold add_logits, tab. rewrite map2_map. apply map_ext. intros i.
  exact (map2_map _ _ _ Rplus (fun j => f i j) (fun j => g i j) (seq 0 c)).
Qed.

Lemma zeros_tab b c : zeros b c = tab b c (fun _ _ => 0).
Proof.
  unfold zeros, tab.
  assert (Hrow : forall n st, repeat 0 n = map (fun _ : nat => 0) (seq st n)).
  { induction n as [|n IH]; intros st; cbn; [reflexivity|]. now rewrite <- IH. }
  rewrite <- (Hrow c 0%nat).
  generalize 0%nat. induction b as [|b IH]; intros st; cbn; [reflexivity|].
  now rewrite <- IH.
Qed.

Lemma map_tab (h : R -> R) b c f :
  map (map h) (tab b c f) = tab b c (fun i j => h (f i j)).
Proof.
  unfold tab. rewrite map_map. apply map_ext. intros i. now rewrite map_map.
Qed.

(** the loop adds the sum of the sampled logits to the accumulator *)
Lemma accumulate_logits_sum E g c graph_layouts adj num_nodes :
  generator_keeps_batch E Eval g -> classifier_two_logits E Eval c ->
  forall K f st,
    fst (accumulate_logits E g c K graph_layouts adj num_nodes
           (tab (length graph_layouts) 2 f) st)
    = tab (length graph_layouts) 2
        (fun i j =>
           f i j
           + logit_sum (sample_outputs E g c K graph_layouts adj num_nodes st)
               i j).
Proof.
  intros Hg Hc. induction K as [|K IH]; intros f st.
  - cbn [accumulate_logits sample_outputs fst]. apply tab_ext. intros.
    unfold logit_sum. cbn. lra.
  - cbn [accumulate_logits sample_outputs].
    pose proof (forward_pass_shape E g c graph_layouts adj num_nodes st Hg Hc) as Hs.
    destruct (forward_pass E g c graph_layouts adj num_nodes st)
      as [outputs st1]. cbn [fst] in Hs.
    rewrite (shape_tab _ _ _ Hs) at 1. rewrite add_tab, IH.
    apply tab_ext. intros i j _ _. unfold logit_sum, entry.
    cbn [map]. rewrite LayoutFacts.sum_cons. lra.
Qed.

Lemma length_sample_outputs E g c K graph_layouts adj num_nodes st :
  length (sample_outputs E g c K graph_layouts adj num_nodes st) = K.
Proof.
  revert st. induction K as [|K IH]; intros st; [reflexivity|].
  cbn [sample_outputs].
  destruct (forward_pass E g c graph_layouts adj num_nodes st) as [o st1].
  cbn [length]. now rewrite IH.
Qed.

Lemma predict_batch_average E g c K graph_layouts adj st :
  generator_keeps_batch E Eval g -> classifier_two_logits E Eval c ->
  fst (predict_batch E g c K graph_layouts adj st)
  = predict
      (averaged_logits
         (sample_outputs E g c K graph_layouts adj
            (num_nodes_evaluate graph_layouts) st)
         (length graph_layouts) 2).
Proof.
  intros Hg Hc. unfold predict_batch.
  pose proof (accumulate_logits_sum E g c graph_layouts adj
                (num_nodes_evaluate graph_layouts) Hg Hc K (fun _ _ => 0) st)
    as Hacc.
  rewrite <- zeros_tab in Hacc.
  destruct (accumulate_logits E g c K graph_layouts adj
              (num_nodes_evaluate graph_layouts)
              (zeros (length graph_layouts) 2) st) as [accum st1].
  cbn [fst] in *. subst accum. rewrite map_tab. f_equal.
  unfold averaged_logits. rewrite length_sample_outputs.
  apply tab_ext. intros i j _ _. now rewrite Rplus_0_l.
Qed.

Lemma averaged_single b (o : logits) :
  logits_shape b 2 o -> averaged_logits [o] b 2 = o.
Proof.
  intros Hs. rewrite (shape_tab _ _ _ Hs) at 2. unfold averaged_logits.
  apply tab_ext. intros i j _ _. unfold logit_sum, entry.
  cbn [map length INR]. rewrite LayoutFacts.sum_cons.
  change (Layout.sum []) with 0. field.
Qed.

(** C7.  For every batch, with at least one sample and collaborators that
    keep the batch size and return two logits per graph, the predicted
    classes are the arg-max of the summed logits of the [num_z_samples]
    passes divided by [num_z_samples]; with [num_z_samples = 1] they are the
    arg-max of the single generate-render-classify pass on the one draw. *)
Theorem evaluate_argmax_of_averaged_logits E g c K graph_layouts adj st :
  (1 <= K)%nat ->
  generator_keeps_batch E Eval g -> classifier_two_logits E Eval c ->
  fst (predict_batch E g c K graph_layouts adj st)
  = predict
      (averaged_logits
         (sample_outputs E g c K graph_layouts adj
            (num_nodes_evaluate graph_layouts) st)
         (length graph_layouts) 2)
  /\ fst (predict_batch E g c 1 graph_layouts adj st)
     = predict
         (fst (forward_pass E g c graph_layouts adj
                 (num_nodes_evaluate graph_layouts) st)).
Proof.
  intros _ Hg Hc. split; [now apply predict_batch_average|].
  rewrite predict_batch_average by assumption.
  cbn [sample_outputs].
  pose proof (forward_pass_shape E g c graph_layouts adj
                (num_nodes_evaluate graph_layouts) st Hg Hc) as Hs.
  destruct (forward_pass E g c graph_layouts adj
              (num_nodes_evaluate graph_layouts) st) as [o st1].
  cbn [fst] in *. now rewrite averaged_single.
Qed.

Lemma toy_generator_keeps_batch m :
  generator_keeps_batch Fixtures.toy_env m tt.
Proof.
  intros z layouts adj num_nodes Hlen. cbn. unfold map2.
  rewrite length_map, length_combine, Hlen. apply Nat.min_id.
Qed.

Lemma toy_classifier_two_logits m :
  classifier_two_logits Fixtures.toy_env m tt.
Proof.
  intros images. cbn. split; [apply length_map|].
  apply Forall_forall. intros r Hr. apply in_map_iff in Hr.
  destruct Hr as [img [<- _]]. reflexivity.
Qed.

Lemma evaluate_argmax_of_averaged_logits_witness :
  fst (predict_batch Fixtures.toy_env tt tt 1 [[[1; 2]; [0; 0]]] [[[0]]] 0%nat)
  = predict
      (fst (forward_pass Fixtures.toy_env tt tt [[[1; 2]; [0; 0]]] [[[0]]]
              (num_nodes_evaluate [[[1; 2]; [0; 0]]]) 0%nat)).
Proof.
  apply (evaluate_argmax_of_averaged_logits
           Fixtures.toy_env tt tt 1 [[[1; 2]; [0; 0]]] [[[0]]] 0%nat).
  - lia.
  - apply toy_generator_keeps_batch.
  - apply toy_classifier_two_logits.
Defined.

(** *** [evaluate_model] returns on a loader with at least one graph *)

Lemma total_evaluate_batch E g c K k b :
  total (evaluate_batch E g c K k b) = (total k + length (snd b))%nat.
Proof.
  destruct b as [[graph_layouts adj] labels]. unfold evaluate_batch.
  destruct (predict_batch _ _ _ _ _ _ _) as [predicted st1].
  destruct (calculate_f1 _ _) as [[precision recall] f1]. reflexivity.
Qed.

Lemma total_fold E g c K :
  forall loader k,
    (total k <= total (fold_left (evaluate_batch E g c K) loader k))%nat
    /\ (labelled loader ->
        (0 < total (fold_left (evaluate_batch E g c K) loader k))%nat).
Proof.
  induction loader as [|b loader IH]; intros k; cbn [fold_left].
  - split; [lia|]. intros H. inversion H.
  - destruct (IH (evaluate_batch E g c K k b)) as [Hle Hpos].
    rewrite total_evaluate_batch in Hle. split; [lia|].
    intros H. inversion H as [? ? Hb | ? ? Hrest]; subst.
    + destruct (snd b) as [|l ls] eqn:Hl; [congruence|].
      cbn [length] in Hle. lia.
    + now apply Hpos.
Qed.

Lemma evaluate_model_returns E g c loader K st :
  labelled loader ->
  exists accuracy avg_f1 st1,
    evaluate_model E g c loader K st = Py.Ok (accuracy, avg_f1, st1).
Proof.
  intros Hl. unfold evaluate_model.
  destruct (total_fold E g c K loader
              {| correct := 0; total := 0; total_f1 := 0; rng_state := st |})
    as [_ Hpos].
  specialize (Hpos Hl).
  destruct (total _) as [|n]; [lia|].
  destruct loader as [|b loader]; [inversion Hl|].
  cbn [Py.div_int Py.bind length]. eauto.
Qed.

Lemma holds_graphs_labelled (loader : list batch) :
  loader <> [] -> Forall holds_graphs loader -> labelled loader.
Proof.
  intros Hne Hall. destruct loader as [|b loader]; [congruence|].
  inversion Hall as [|b' l' (Hg & _ & Hl) _]; subst.
  left. intros Hnil. rewrite Hnil in Hl. cbn in Hl.
  destruct (fst (fst b)); [congruence|discriminate].
Qed.

(** C6 fails on the code.  With an empty loader both counters stay 0 and
    [accuracy = 100 * correct / total] divides by zero: nothing is returned.
    Among the loaders whose batches hold graphs, one label per graph, the
    empty loader is the only one on which a division of [evaluate_model]
    raises [ZeroDivisionError]. *)
Theorem evaluate_model_empty_loader_raises E g c num_z_samples st :
  evaluate_model E g c [] num_z_samples st = Py.Raise Py.ZeroDivisionError
  /\ (forall loader,
         Forall holds_graphs loader ->
         (evaluate_model E g c loader num_z_samples st
          = Py.Raise Py.ZeroDivisionError
          <-> loader = [])).
Proof.
  split; [reflexivity|]. intros loader Hall. split.
  - intros Hraise. destruct loader as [|b loader]; [reflexivity|]. exfalso.
    assert (Hne : b :: loader <> []) by discriminate.
    destruct (evaluate_model_returns E g c (b :: loader) num_z_samples st
                (holds_graphs_labelled _ Hne Hall))
      as (accuracy & avg_f1 & st1 & Hok).
    rewrite Hok in Hraise. discriminate.
  - intros ->. reflexivity.
Qed.

End EvaluateFacts.

(** ** The pretraining loop *)

Module PretrainFacts.
Import Tensor Layout Rand Penalty Nets Pretrain.
Local Open Scope R_scope.

(** *** One network's early stopping, on a fed sequence of losses *)

Ltac decide_loss_order :=
  unfold Py.lt_ext, Py.ltb;
  repeat match goal with
         | |- context [Rlt_dec ?x ?y] => destruct (Rlt_dec x y); try lra
         end.

(** losses 3, 1, 2, 4 with patience 2: the minimum 1 is found at epoch 2
    and the flag is raised two epochs later *)
Example feed_3_1_2_4 :
  feed 2 [3; 1; 2]
  = {| best := Py.Fin 1; without_improvement := 1; stop := false |}
  /\ feed 2 [3; 1; 2; 4]
     = {| best := Py.Fin 1; without_improvement := 2; stop := true |}.
Proof.
  unfold feed. cbn [fold_left]. unfold early_stop_update, fresh.
  cbn [best without_improvement stop]. split.
  - decide_loss_order. cbn [best without_improvement stop].
    decide_loss_order. cbn [best without_improvement stop].
    decide_loss_order. reflexivity.
  - decide_loss_order. cbn [best without_improvement stop].
    decide_loss_order. cbn [best without_improvement stop].
    decide_loss_order. cbn [best without_improvement stop].
    decide_loss_order. reflexivity.
Qed.

Lemma feed_snoc patience losses l :
  feed patience (losses ++ [l])
  = early_stop_update patience (feed patience losses) l.
Proof. unfold feed. now rewrite fold_left_app. Qed.

Lemma update_improving patience t l :
  Py.lt_ext l (best t) = true ->
  early_stop_update patience t l
  = {| best := Py.Fin l; without_improvement := 0; stop := stop t |}.
Proof. intros H. unfold early_stop_update. now rewrite H. Qed.

Lemma update_keeps_stop patience t l :
  stop t = true -> stop (early_stop_update patience t l) = true.
Proof.
  intros H. unfold early_stop_update.
  destruct (Py.lt_ext l (best t)); cbn [stop]; [exact H|].
  rewrite H. now destruct (patience <=? S (without_improvement t))%nat.
Qed.

Lemma ltb_false_of_lt x y : x < y -> Py.ltb y x = false.
Proof.
  intros H. unfold Py.ltb. destruct (Rlt_dec y x); [lra|reflexivity].
Qed.

(** losses above the current minimum only advance the counter *)
Lemma feed_above_minimum patience m :
  forall rest t,
    best t = Py.Fin m ->
    (forall z, In z rest -> m < z) ->
    let t' := fold_left (early_stop_update patience) rest t in
    best t' = Py.Fin m
    /\ without_improvement t' = (without_improvement t + length rest)%nat
    /\ stop t'
       = (stop t
          || (negb (length rest =? 0)%nat
              && (patience <=? without_improvement t + length rest)%nat)).
Proof.
  induction rest as [|y rest IH]; intros t Hb Habove; cbn [fold_left length].
  - rewrite Nat.add_0_r. cbn. rewrite orb_false_r. auto.
  - assert (Hy : Py.lt_ext y (best t) = false).
    { rewrite Hb. cbn. apply ltb_false_of_lt. apply Habove. now left. }
    assert (Hupd : early_stop_update patience t y
                   = {| best := best t;
                        without_improvement := S (without_improvement t);
                        stop := if (patience <=? S (without_improvement t))%nat
                                then true else stop t |}).
    { unfold early_stop_update. now rewrite Hy. }
    rewrite Hupd.
    destruct (IH {| best := best t;
                    without_improvement := S (without_improvement t);
                    stop := if (patience <=? S (without_improvement t))%nat
                            then true else stop t |}
                 Hb (fun z Hz => Habove z (or_intror Hz)))
      as (IHb & IHc & IHs).
    cbn [best without_improvement stop] in IHc, IHs.
    repeat split.
    + exact IHb.
    + rewrite IHc. lia.
    + rewrite IHs. cbn [Nat.eqb negb andb].
      replace (S (without_improvement t) + length rest)%nat
        with (without_improvement t + S (length rest))%nat by lia.
      destruct (stop t); cbn [orb].
      * now destruct (patience <=? S (without_improvement t))%nat.
      * destruct (Nat.leb_spec patience (S (without_improvement t)));
          destruct (Nat.leb_spec patience
                      (without_improvement t + S (length rest)));
          destruct (length rest =? 0)%nat eqn:Hl; cbn; try reflexivity;
          try lia.
        apply Nat.eqb_eq in Hl. lia.
Qed.

Lemma increasing_above_head x rest :
  strictly_increasing (x :: rest) -> forall z, In z rest -> x < z.
Proof.
  revert x. induction rest as [|y rest IH]; intros x Hinc z Hz; [easy|].
  destruct Hinc as [Hxy Hrest]. destruct Hz as [<- | Hz]; [exact Hxy|].
  specialize (IH y Hrest z Hz). lra.
Qed.

(** the flag after a strictly increasing sequence: it is raised at epoch
    [patience + 1], but never at the first epoch *)
Lemma feed_increasing patience losses :
  strictly_increasing losses ->
  stop (feed patience losses)
  = ((2 <=? length losses)%nat && (patience + 1 <=? length losses)%nat).
Proof.
  destruct losses as [|x rest]; intros Hinc; [reflexivity|].
  unfold feed. cbn [fold_left].
  assert (Hx : early_stop_update patience fresh x
               = {| best := Py.Fin x; without_improvement := 0;
                    stop := false |}) by reflexivity.
  rewrite Hx.
  destruct (feed_above_minimum patience x rest
              {| best := Py.Fin x; without_improvement := 0; stop := false |}
              eq_refl (increasing_above_head x rest Hinc)) as (_ & _ & Hs).
  rewrite Hs. cbn [stop without_improvement orb length Nat.add].
  destruct (length rest) as [|n]; cbn [Nat.eqb negb andb Nat.leb];
    [reflexivity|].
  replace (patience + 1)%nat with (S patience) by lia. reflexivity.
Qed.

Lemma increasing_firstn k losses :
  strictly_increasing losses -> strictly_increasing (firstn k losses).
Proof.
  revert losses. induction k as [|k IH]; intros losses Hinc; [exact I|].
  destruct losses as [|x [|y rest]]; [exact I | |].
  - destruct k; exact I.
  - destruct Hinc as [Hxy Hrest]. specialize (IH (y :: rest) Hrest).
    destruct k as [|k]; [exact I|].
    cbn [firstn] in *. split; assumption.
Qed.

(** feeding [patience + 1] strictly increasing losses, [patience >= 1] *)
Lemma feed_stops_at_patience_plus_1 patience losses :
  (1 <= patience)%nat ->
  length losses = (patience + 1)%nat ->
  strictly_increasing losses ->
  (forall k, (k <= patience)%nat ->
             stop (feed patience (firstn k losses)) = false)
  /\ stop (feed patience losses) = true.
Proof.
  intros Hp Hlen Hinc. split.
  - intros k Hk. rewrite feed_increasing by now apply increasing_firstn.
    rewrite length_firstn, Hlen.
    replace (Nat.min k (patience + 1)) with k by lia.
    destruct (Nat.leb_spec (patience + 1) k); [lia|].
    apply andb_false_r.
  - rewrite feed_increasing by assumption. rewrite Hlen.
    rewrite Nat.leb_refl, andb_true_r. apply Nat.leb_le. lia.
Qed.

(** *** The epoch loop *)

Lemma column_append k (f : Csv.file) (r : Csv.row) :
  f <> [] ->
  Csv.column k (Csv.append f r)
  = Csv.column k f ++ [Csv.float_of (nth k r Csv.NoneCell)].
Proof.
  intros Hf. destruct f as [|h f]; [congruence|].
  unfold Csv.column, Csv.append, Csv.data_rows. cbn [app tl].
  now rewrite map_app.
Qed.

Lemma data_rows_append (f : Csv.file) (r : Csv.row) :
  f <> [] -> Csv.data_rows (Csv.append f r) = Csv.data_rows f ++ [r].
Proof. intros Hf. destruct f; [congruence|reflexivity]. Qed.

Lemma append_nonempty (f : Csv.file) (r : Csv.row) : Csv.append f r <> [].
Proof. unfold Csv.append. destruct f; discriminate. Qed.

(** what one epoch does to the log, the counters, the flags and the
    networks *)
Lemma train_gan_epoch_unfold E dl lambda_gp lambda_rec patience epoch s s' :
  train_gan_epoch E dl lambda_gp lambda_rec patience epoch s = Py.Ok s' ->
  exists avg_rec acc,
    let b := batches_of E dl lambda_gp lambda_rec s in
    let avg_g := total_g_loss (b_totals b) / INR (length dl) in
    let avg_d := total_d_loss (b_totals b) / INR (length dl) in
    log_path s'
    = Csv.append (log_path s)
        [Csv.Int (Z.of_nat epoch + 1); Csv.Float avg_g; Csv.Float avg_rec;
         Csv.Float avg_d; Csv.Float acc]
    /\ g_tracker s' = early_stop_update patience (g_tracker s) avg_g
    /\ d_tracker s' = early_stop_update patience (d_tracker s) avg_d
    /\ epochs_run s' = S (epochs_run s)
    /\ networks s' = b_nets b.
Proof.
  intros H. unfold train_gan_epoch in H.
  destruct (length dl) as [|n]; [discriminate|].
  cbn [Py.div_int Py.bind] in H.
  match type of H with
  | context [cons (Csv.Float _)
               (cons (Csv.Float ?r) (cons (Csv.Float _) (cons (Csv.Float ?a) nil)))] =>
      exists r, a
  end.
  cbn zeta. unfold g_tracker, d_tracker, early_stop_update.
  set (avg_g := total_g_loss _ / _) in *.
  set (avg_d := total_d_loss _ / _) in *.
  destruct (Py.lt_ext avg_g (best_g_loss s)) eqn:Hg;
    destruct (Py.lt_ext avg_d (best_d_loss s)) eqn:Hd;
    injection H as <-;
    cbn [log_path epochs_run best_g_loss best_d_loss networks
      g_epochs_without_improvement d_epochs_without_improvement
      stop_training_g stop_training_d best without_improvement stop];
    rewrite ?Hg, ?Hd; repeat split; reflexivity.
Qed.

Lemma train_gan_epoch_step E dl lambda_gp lambda_rec patience epoch s s' :
  log_path s <> [] ->
  train_gan_epoch E dl lambda_gp lambda_rec patience epoch s = Py.Ok s' ->
  exists avg_g avg_rec avg_d acc,
    Csv.data_rows (log_path s')
    = Csv.data_rows (log_path s)
      ++ [[Csv.Int (Z.of_nat epoch + 1); Csv.Float avg_g; Csv.Float avg_rec;
           Csv.Float avg_d; Csv.Float acc]]
    /\ logged_g_losses s' = logged_g_losses s ++ [avg_g]
    /\ logged_d_losses s' = logged_d_losses s ++ [avg_d]
    /\ g_tracker s' = early_stop_update patience (g_tracker s) avg_g
    /\ d_tracker s' = early_stop_update patience (d_tracker s) avg_d
    /\ epochs_run s' = S (epochs_run s)
    /\ log_path s' <> [].
Proof.
  intros Hlog H.
  destruct (train_gan_epoch_unfold _ _ _ _ _ _ _ _ H)
    as (avg_rec & acc & Hl & Htg & Htd & Hrun & _).
  eexists _, avg_rec, _, acc.
  unfold logged_g_losses, logged_d_losses. rewrite Hl.
  rewrite !column_append, data_rows_append by exact Hlog.
  repeat split; try eassumption; try reflexivity. apply append_nonempty.
Qed.

Lemma train_gan_epoch_returns E dl lambda_gp lambda_rec patience epoch s :
  dl <> [] ->
  exists s', train_gan_epoch E dl lambda_gp lambda_rec patience epoch s
             = Py.Ok s'.
Proof.
  intros Hdl. unfold train_gan_epoch.
  destruct dl as [|b dl]; [congruence|]. cbn [length Py.div_int Py.bind].
  repeat match goal with
         | |- context [if ?c then _ else _] => destruct c
         end; eexists; reflexivity.
Qed.

Lemma consistent_initial E patience n0 st0 :
  consistent patience (initial E n0 st0).
Proof. repeat split. discriminate. Qed.

Lemma epoch_cells_snoc n :
  epoch_cells 0 (S n) = epoch_cells 0 n ++ [Csv.Int (Z.of_nat n + 1)].
Proof. unfold epoch_cells. now rewrite seq_S, map_app. Qed.

Lemma consistent_epoch E dl lambda_gp lambda_rec patience s s' :
  consistent patience s ->
  train_gan_epoch E dl lambda_gp lambda_rec patience (epochs_run s) s
  = Py.Ok s' ->
  consistent patience s' /\ epochs_run s' = S (epochs_run s).
Proof.
  intros (Hlog & Hrows & Hg & Hd) H.
  destruct (train_gan_epoch_step _ _ _ _ _ _ _ _ Hlog H)
    as (avg_g & avg_rec & avg_d & acc & Hr & Hlg & Hld & Htg & Htd & Hrun & Hne).
  split; [|exact Hrun]. repeat split.
  - exact Hne.
  - rewrite Hr, Hrun, map_app, epoch_cells_snoc. f_equal. exact Hrows.
  - rewrite Htg, Hlg, feed_snoc, Hg. reflexivity.
  - rewrite Htd, Hld, feed_snoc, Hd. reflexivity.
Qed.

(** the loop keeps the state consistent; it runs every epoch of its range
    unless both flags are raised *)
Lemma train_gan_loop_consistent E dl lambda_gp lambda_rec patience :
  forall n s s',
    consistent patience s ->
    train_gan_loop E dl lambda_gp lambda_rec patience
      (seq (epochs_run s) n) s = Py.Ok s' ->
    consistent patience s'
    /\ (epochs_run s <= epochs_run s' <= epochs_run s + n)%nat
    /\ (epochs_run s' = (epochs_run s + n)%nat
        \/ (stop_training_g s' = true /\ stop_training_d s' = true)).
Proof.
  induction n as [|n IH]; intros s s' Hc H; cbn [seq train_gan_loop] in H.
  - injection H as <-. split; [exact Hc|]. split; [lia|]. left. lia.
  - destruct (stop_training_g s && stop_training_d s) eqn:Hstop.
    + injection H as <-. apply andb_true_iff in Hstop.
      split; [exact Hc|]. split; [lia|]. right. exact Hstop.
    + destruct (train_gan_epoch E dl lambda_gp lambda_rec patience
                  (epochs_run s) s) as [s1|e] eqn:Hep; [|discriminate].
      cbn [Py.bind] in H.
      destruct (consistent_epoch _ _ _ _ _ _ _ Hc Hep) as [Hc1 Hrun].
      rewrite <- Hrun in H.
      destruct (IH s1 s' Hc1 H) as (Hc' & Hle & Hend).
      split; [exact Hc'|]. split; [lia|].
      destruct Hend as [Hend|Hend]; [left; lia | right; exact Hend].
Qed.

Lemma train_gan_loop_returns E dl lambda_gp lambda_rec patience :
  dl <> [] ->
  forall range s,
    exists s', train_gan_loop E dl lambda_gp lambda_rec patience range s
               = Py.Ok s'.
Proof.
  intros Hdl. induction range as [|epoch range IH]; intros s;
    cbn [train_gan_loop]; [now exists s|].
  destruct (stop_training_g s && stop_training_d s); [now exists s|].
  destruct (train_gan_epoch_returns E dl lambda_gp lambda_rec patience
              epoch s Hdl) as [s1 ->].
  cbn [Py.bind]. apply IH.
Qed.

(** [train_gan] returns on every non-empty loader *)
Lemma train_gan_returns E n0 dl epochs lambda_gp lambda_rec patience st0 :
  dl <> [] ->
  exists s, train_gan E n0 dl epochs lambda_gp lambda_rec patience st0
            = Py.Ok s.
Proof. intros Hdl. now apply train_gan_loop_returns. Qed.

Lemma train_gan_consistent E n0 dl epochs lambda_gp lambda_rec patience st0 s :
  train_gan E n0 dl epochs lambda_gp lambda_rec patience st0 = Py.Ok s ->
  consistent patience s
  /\ (epochs_run s <= epochs)%nat
  /\ (epochs_run s = epochs
      \/ (stop_training_g s = true /\ stop_training_d s = true)).
Proof.
  intros H.
  destruct (train_gan_loop_consistent E dl lambda_gp lambda_rec patience
              epochs (initial E n0 st0) s
              (consistent_initial E patience n0 st0) H)
    as (Hc & Hle & Hend).
  cbn [initial epochs_run Nat.add] in Hle, Hend.
  split; [exact Hc|]. split; [lia|]. exact Hend.
Qed.

(** once both flags are raised the loop body is never entered again *)
Lemma train_gan_loop_break E dl lambda_gp lambda_rec patience range s :
  stop_training_g s = true -> stop_training_d s = true ->
  train_gan_loop E dl lambda_gp lambda_rec patience range s = Py.Ok s.
Proof.
  intros Hg Hd. destruct range; cbn [train_gan_loop]; [reflexivity|].
  now rewrite Hg, Hd.
Qed.

(** *** A frozen network is not stepped *)

Lemma train_gan_batch_frozen_g E lambda_gp lambda_rec stop_d s b :
  let s' := train_gan_batch E lambda_gp lambda_rec true stop_d s b in
  gen (b_nets s') = gen (b_nets s)
  /\ gen_opt (b_nets s') = gen_opt (b_nets s)
  /\ gen_steps (b_nets s') = gen_steps (b_nets s)
  /\ total_g_loss (b_totals s') = total_g_loss (b_totals s).
Proof.
  destruct b as [[node_coords adj_matrices] labels].
  unfold train_gan_batch. cbn [negb randn_2].
  destruct stop_d; cbn [negb].
  - cbn. auto.
  - destruct (d_loss_of _ _ _ _ _ _ _) as [d_loss st2].
    destruct (optimizer_d _ _ _) as [d1 dopt1]. cbn. auto.
Qed.

Lemma train_gan_batch_frozen_d E lambda_gp lambda_rec stop_g s b :
  let s' := train_gan_batch E lambda_gp lambda_rec stop_g true s b in
  disc (b_nets s') = disc (b_nets s)
  /\ disc_opt (b_nets s') = disc_opt (b_nets s)
  /\ disc_steps (b_nets s') = disc_steps (b_nets s)
  /\ total_d_loss (b_totals s') = total_d_loss (b_totals s).
Proof.
  destruct b as [[node_coords adj_matrices] labels].
  unfold train_gan_batch. cbn [negb randn_2].
  destruct stop_g; cbn [negb].
  - cbn. auto.
  - destruct (g_loss_of _ _ _ _ _ _ _ _) as [g_loss rec_loss].
    destruct (optimizer_g _ _ _) as [g1 gopt1]. cbn. auto.
Qed.

Lemma fold_frozen_g E lambda_gp lambda_rec stop_d :
  forall dl b0,
    let b := fold_left (train_gan_batch E lambda_gp lambda_rec true stop_d)
               dl b0 in
    gen (b_nets b) = gen (b_nets b0)
    /\ gen_opt (b_nets b) = gen_opt (b_nets b0)
    /\ gen_steps (b_nets b) = gen_steps (b_nets b0)
    /\ total_g_loss (b_totals b) = total_g_loss (b_totals b0).
Proof.
  induction dl as [|b dl IH]; intros b0; cbn [fold_left]; [auto|].
  destruct (IH (train_gan_batch E lambda_gp lambda_rec true stop_d b0 b))
    as (H1 & H2 & H3 & H4).
  destruct (train_gan_batch_frozen_g E lambda_gp lambda_rec stop_d b0 b)
    as (K1 & K2 & K3 & K4).
  cbn zeta. rewrite H1, H2, H3, H4. auto.
Qed.

Lemma fold_frozen_d E lambda_gp lambda_rec stop_g :
  forall dl b0,
    let b := fold_left (train_gan_batch E lambda_gp lambda_rec stop_g true)
               dl b0 in
    disc (b_nets b) = disc (b_nets b0)
    /\ disc_opt (b_nets b) = disc_opt (b_nets b0)
    /\ disc_steps (b_nets b) = disc_steps (b_nets b0)
    /\ total_d_loss (b_totals b) = total_d_loss (b_totals b0).
Proof.
  induction dl as [|b dl IH]; intros b0; cbn [fold_left]; [auto|].
  destruct (IH (train_gan_batch E lambda_gp lambda_rec stop_g true b0 b))
    as (H1 & H2 & H3 & H4).
  destruct (train_gan_batch_frozen_d E lambda_gp lambda_rec stop_g b0 b)
    as (K1 & K2 & K3 & K4).
  cbn zeta. rewrite H1, H2, H3, H4. auto.
Qed.

Lemma batches_frozen_g E dl lambda_gp lambda_rec s :
  stop_training_g s = true ->
  let b := batches_of E dl lambda_gp lambda_rec s in
  gen (b_nets b) = gen (networks s)
  /\ gen_opt (b_nets b) = gen_opt (networks s)
  /\ gen_steps (b_nets b) = gen_steps (networks s)
  /\ total_g_loss (b_totals b) = 0.
Proof.
  intros Hstop. unfold batches_of. rewrite Hstop.
  apply (fold_frozen_g E lambda_gp lambda_rec (stop_training_d s) dl).
Qed.

Lemma batches_frozen_d E dl lambda_gp lambda_rec s :
  stop_training_d s = true ->
  let b := batches_of E dl lambda_gp lambda_rec s in
  disc (b_nets b) = disc (networks s)
  /\ disc_opt (b_nets b) = disc_opt (networks s)
  /\ disc_steps (b_nets b) = disc_steps (networks s)
  /\ total_d_loss (b_totals b) = 0.
Proof.
  intros Hstop. unfold batches_of. rewrite Hstop.
  apply (fold_frozen_d E lambda_gp lambda_rec (stop_training_g s) dl).
Qed.

(** *** A shorter run is the beginning of a longer one *)

Lemma train_gan_loop_app E dl lambda_gp lambda_rec patience :
  forall r1 r2 s,
    train_gan_loop E dl lambda_gp lambda_rec patience (r1 ++ r2) s
    = (s1 <- train_gan_loop E dl lambda_gp lambda_rec patience r1 s ;;
       train_gan_loop E dl lambda_gp lambda_rec patience r2 s1).
Proof.
  induction r1 as [|epoch r1 IH]; intros r2 s; [reflexivity|].
  cbn [app train_gan_loop].
  destruct (stop_training_g s && stop_training_d s) eqn:Hstop.
  - apply andb_true_iff in Hstop. destruct Hstop as [Hg Hd].
    cbn [Py.bind]. now rewrite train_gan_loop_break.
  - destruct (train_gan_epoch E dl lambda_gp lambda_rec patience epoch s)
      as [s1|e]; cbn [Py.bind]; [apply IH | reflexivity].
Qed.

(** the log only grows *)
Lemma train_gan_loop_log E dl lambda_gp lambda_rec patience :
  forall range s s',
    log_path s <> [] ->
    train_gan_loop E dl lambda_gp lambda_rec patience range s = Py.Ok s' ->
    exists new_g new_d,
      logged_g_losses s' = logged_g_losses s ++ new_g
      /\ logged_d_losses s' = logged_d_losses s ++ new_d.
Proof.
  induction range as [|epoch range IH]; intros s s' Hlog H;
    cbn [train_gan_loop] in H.
  - injection H as <-. exists [], []. now rewrite !app_nil_r.
  - destruct (stop_training_g s && stop_training_d s).
    + injection H as <-. exists [], []. now rewrite !app_nil_r.
    + destruct (train_gan_epoch E dl lambda_gp lambda_rec patience epoch s)
        as [s1|e] eqn:Hep; [|discriminate].
      cbn [Py.bind] in H.
      destruct (train_gan_epoch_step _ _ _ _ _ _ _ _ Hlog Hep)
        as (avg_g & avg_rec & avg_d & acc & _ & Hlg & Hld & _ & _ & _ & Hne).
      destruct (IH s1 s' Hne H) as (new_g & new_d & Hg & Hd).
      exists (avg_g :: new_g), (avg_d :: new_d).
      rewrite Hg, Hd, Hlg, Hld, <- !app_assoc. split; reflexivity.
Qed.

Lemma firstn_length_app (A : Type) (l l' : list A) :
  firstn (length l) (l ++ l') = l.
Proof.
  rewrite firstn_app, Nat.sub_diag, firstn_all. cbn. apply app_nil_r.
Qed.

Lemma length_logged E patience (s : state E) :
  consistent patience s ->
  length (logged_g_losses s) = epochs_run s
  /\ length (logged_d_losses s) = epochs_run s.
Proof.
  intros (_ & Hrows & _ & _).
  apply (f_equal (@length _)) in Hrows.
  unfold epoch_cells in Hrows. rewrite !length_map, length_seq in Hrows.
  unfold logged_g_losses, logged_d_losses, Csv.column.
  now rewrite !length_map.
Qed.

(** the run of [k] epochs is the beginning of the run of [k + m] epochs *)
Lemma train_gan_prefix E n0 dl k m lambda_gp lambda_rec patience st0 s :
  train_gan E n0 dl (k + m) lambda_gp lambda_rec patience st0 = Py.Ok s ->
  exists s_k,
    train_gan E n0 dl k lambda_gp lambda_rec patience st0 = Py.Ok s_k
    /\ (epochs_run s_k <= k)%nat
    /\ logged_g_losses s_k = firstn (epochs_run s_k) (logged_g_losses s)
    /\ logged_d_losses s_k = firstn (epochs_run s_k) (logged_d_losses s).
Proof.
  intros H. unfold train_gan in H.
  rewrite seq_app, train_gan_loop_app in H.
  destruct (train_gan_loop E dl lambda_gp lambda_rec patience (seq 0 k)
              (initial E n0 st0)) as [s_k|e] eqn:Hk; [|discriminate].
  cbn [Py.bind] in H. exists s_k. split; [exact Hk|].
  destruct (train_gan_consistent _ _ _ _ _ _ _ _ _ Hk) as (Hc & Hle & _).
  destruct (length_logged _ _ _ Hc) as [Hlg Hld].
  destruct Hc as (Hlog & _).
  destruct (train_gan_loop_log _ _ _ _ _ _ _ _ Hlog H)
    as (new_g & new_d & Hg & Hd).
  split; [exact Hle|].
  rewrite Hg, Hd, <- Hlg at 1. rewrite firstn_length_app.
  rewrite <- Hld. now rewrite firstn_length_app.
Qed.

Lemma stop_of_increasing patience losses :
  (1 <= patience)%nat -> strictly_increasing losses ->
  stop (feed patience losses) = (patience + 1 <=? length losses)%nat.
Proof.
  intros Hp Hinc. rewrite feed_increasing by exact Hinc.
  destruct (Nat.leb_spec (patience + 1) (length losses)) as [H|H].
  - rewrite andb_true_r. apply Nat.leb_le. lia.
  - apply andb_false_r.
Qed.

(** a run of [patience + 1] epochs whose generator losses are strictly
    increasing *)
Lemma train_gan_generator_flag E n0 dl lambda_gp lambda_rec patience st0 s :
  (1 <= patience)%nat ->
  train_gan E n0 dl (patience + 1) lambda_gp lambda_rec patience st0
  = Py.Ok s ->
  strictly_increasing (logged_g_losses s) ->
  epochs_run s = (patience + 1)%nat
  /\ stop_training_g s = true
  /\ (forall k, (k <= patience)%nat ->
        exists s_k,
          train_gan E n0 dl k lambda_gp lambda_rec patience st0 = Py.Ok s_k
          /\ epochs_run s_k = k
          /\ stop_training_g s_k = false).
Proof.
  intros Hp H Hinc.
  destruct (train_gan_consistent _ _ _ _ _ _ _ _ _ H) as (Hc & Hle & Hend).
  destruct (length_logged _ _ _ Hc) as [Hlg _].
  assert (Hflag : stop_training_g s = (patience + 1 <=? epochs_run s)%nat).
  { destruct Hc as (_ & _ & Hg & _).
    change (stop_training_g s) with (stop (g_tracker s)).
    rewrite Hg, <- Hlg. now apply stop_of_increasing. }
  assert (Hrun : epochs_run s = (patience + 1)%nat).
  { destruct Hend as [Hend | [Hg _]]; [exact Hend|].
    rewrite Hflag in Hg. apply Nat.leb_le in Hg. lia. }
  split; [exact Hrun|]. split.
  - rewrite Hflag, Hrun. apply Nat.leb_refl.
  - intros k Hk.
    replace (patience + 1)%nat with (k + (patience + 1 - k))%nat in H by lia.
    destruct (train_gan_prefix _ _ _ _ _ _ _ _ _ _ H)
      as (s_k & Hs_k & Hlek & Hpre & _).
    exists s_k. split; [exact Hs_k|].
    destruct (train_gan_consistent _ _ _ _ _ _ _ _ _ Hs_k)
      as (Hck & _ & Hendk).
    destruct (length_logged _ _ _ Hck) as [Hlgk _].
    assert (Hflagk : stop_training_g s_k = false).
    { destruct Hck as (_ & _ & Hgk & _).
      change (stop_training_g s_k) with (stop (g_tracker s_k)).
      rewrite Hgk, stop_of_increasing; [|exact Hp|].
      - rewrite Hlgk. apply Nat.leb_gt. lia.
      - rewrite Hpre. now apply increasing_firstn. }
    split; [|exact Hflagk].
    destruct Hendk as [Hendk | [Hg _]]; [exact Hendk | congruence].
Qed.

(** the same for the discriminator *)
Lemma train_gan_discriminator_flag
  E n0 dl lambda_gp lambda_rec patience st0 s :
  (1 <= patience)%nat ->
  train_gan E n0 dl (patience + 1) lambda_gp lambda_rec patience st0
  = Py.Ok s ->
  strictly_increasing (logged_d_losses s) ->
  epochs_run s = (patience + 1)%nat
  /\ stop_training_d s = true
  /\ (forall k, (k <= patience)%nat ->
        exists s_k,
          train_gan E n0 dl k lambda_gp lambda_rec patience st0 = Py.Ok s_k
          /\ epochs_run s_k = k
          /\ stop_training_d s_k = false).
Proof.
  intros Hp H Hinc.
  destruct (train_gan_consistent _ _ _ _ _ _ _ _ _ H) as (Hc & Hle & Hend).
  destruct (length_logged _ _ _ Hc) as [_ Hld].
  assert (Hflag : stop_training_d s = (patience + 1 <=? epochs_run s)%nat).
  { destruct Hc as (_ & _ & _ & Hd).
    change (stop_training_d s) with (stop (d_tracker s)).
    rewrite Hd, <- Hld. now apply stop_of_increasing. }
  assert (Hrun : epochs_run s = (patience + 1)%nat).
  { destruct Hend as [Hend | [_ Hd]]; [exact Hend|].
    rewrite Hflag in Hd. apply Nat.leb_le in Hd. lia. }
  split; [exact Hrun|]. split.
  - rewrite Hflag, Hrun. apply Nat.leb_refl.
  - intros k Hk.
    replace (patience + 1)%nat with (k + (patience + 1 - k))%nat in H by lia.
    destruct (train_gan_prefix _ _ _ _ _ _ _ _ _ _ H)
      as (s_k & Hs_k & Hlek & _ & Hpre).
    exists s_k. split; [exact Hs_k|].
    destruct (train_gan_consistent _ _ _ _ _ _ _ _ _ Hs_k)
      as (Hck & _ & Hendk).
    destruct (length_logged _ _ _ Hck) as [_ Hldk].
    assert (Hflagk : stop_training_d s_k = false).
    { destruct Hck as (_ & _ & _ & Hdk).
      change (stop_training_d s_k) with (stop (d_tracker s_k)).
      rewrite Hdk, stop_of_increasing; [|exact Hp|].
      - rewrite Hldk. apply Nat.leb_gt. lia.
      - rewrite Hpre. now apply increasing_firstn. }
    split; [|exact Hflagk].
    destruct Hendk as [Hendk | [_ Hd]]; [exact Hendk | congruence].
Qed.

(** C4, amended.  Each network of [train_gan] has its own best loss,
    counter and flag.
    (a) For [patience >= 1], feeding [patience + 1] strictly increasing
        epoch-average losses leaves the flag down after each of the first
        [patience] epochs and raises it at epoch [patience + 1].
    (b) After every run the best loss, counter and flag of each network are
        those obtained by feeding the losses of its column of the log.
    (c) For [patience >= 1], when a run of [patience + 1] epochs logs
        strictly increasing losses for a network, all its epochs were run,
        the network's flag is down after each of the first [patience]
        epochs and raised after epoch [patience + 1].
    (d) In each epoch a loss strictly below the best so far resets the
        counter to 0 and becomes the best; a raised flag stays raised, and
        the frozen network's optimizer is not stepped.
    (e) Once both flags are raised the loop is left. *)
Theorem train_gan_early_stopping E dl lambda_gp lambda_rec patience :
  (forall losses,
      (1 <= patience)%nat ->
      length losses = (patience + 1)%nat ->
      strictly_increasing losses ->
      (forall k, (k <= patience)%nat ->
                 stop (feed patience (firstn k losses)) = false)
      /\ stop (feed patience losses) = true)
  /\ (forall n0 epochs st0 s,
         train_gan E n0 dl epochs lambda_gp lambda_rec patience st0 = Py.Ok s ->
         g_tracker s = feed patience (logged_g_losses s)
         /\ d_tracker s = feed patience (logged_d_losses s)
         /\ length (logged_g_losses s) = epochs_run s
         /\ length (logged_d_losses s) = epochs_run s)
  /\ (forall n0 st0 s,
         (1 <= patience)%nat ->
         train_gan E n0 dl (patience + 1) lambda_gp lambda_rec patience st0
         = Py.Ok s ->
         (strictly_increasing (logged_g_losses s) ->
          epochs_run s = (patience + 1)%nat
          /\ stop_training_g s = true
          /\ (forall k, (k <= patience)%nat ->
                exists s_k,
                  train_gan E n0 dl k lambda_gp lambda_rec patience st0
                  = Py.Ok s_k
                  /\ epochs_run s_k = k
                  /\ stop_training_g s_k = false))
         /\ (strictly_increasing (logged_d_losses s) ->
             epochs_run s = (patience + 1)%nat
             /\ stop_training_d s = true
             /\ (forall k, (k <= patience)%nat ->
                   exists s_k,
                     train_gan E n0 dl k lambda_gp lambda_rec patience st0
                     = Py.Ok s_k
                     /\ epochs_run s_k = k
                     /\ stop_training_d s_k = false)))
  /\ (forall epoch s s',
         train_gan_epoch E dl lambda_gp lambda_rec patience epoch s = Py.Ok s' ->
         let b := batches_of E dl lambda_gp lambda_rec s in
         let avg_g := total_g_loss (b_totals b) / INR (length dl) in
         let avg_d := total_d_loss (b_totals b) / INR (length dl) in
         (Py.lt_ext avg_g (best_g_loss s) = true ->
          g_epochs_without_improvement s' = 0%nat
          /\ best_g_loss s' = Py.Fin avg_g)
         /\ (Py.lt_ext avg_d (best_d_loss s) = true ->
             d_epochs_without_improvement s' = 0%nat
             /\ best_d_loss s' = Py.Fin avg_d)
         /\ (stop_training_g s = true ->
             stop_training_g s' = true
             /\ gen (networks s') = gen (networks s)
             /\ gen_steps (networks s') = gen_steps (networks s))
         /\ (stop_training_d s = true ->
             stop_training_d s' = true
             /\ disc (networks s') = disc (networks s)
             /\ disc_steps (networks s') = disc_steps (networks s)))
  /\ (forall range s,
         stop_training_g s = true -> stop_training_d s = true ->
         train_gan_loop E dl lambda_gp lambda_rec patience range s = Py.Ok s).
Proof.
  split; [|split; [|split; [|split]]].
  - intros losses. apply feed_stops_at_patience_plus_1.
  - intros n0 epochs st0 s H.
    destruct (train_gan_consistent _ _ _ _ _ _ _ _ _ H) as (Hc & _ & _).
    destruct (length_logged _ _ _ Hc) as [Hlg Hld].
    destruct Hc as (_ & _ & Hg & Hd).
    repeat split; assumption.
  - intros n0 st0 s Hp H. split; intros Hinc.
    + now apply train_gan_generator_flag.
    + now apply train_gan_discriminator_flag.
  - intros epoch s s' H.
    destruct (train_gan_epoch_unfold _ _ _ _ _ _ _ _ H)
      as (avg_rec & acc & _ & Htg & Htd & _ & Hnet).
    cbn zeta in *. repeat split.
    + change (g_epochs_without_improvement s')
        with (without_improvement (g_tracker s')).
      rewrite Htg, update_improving by assumption. reflexivity.
    + change (best_g_loss s') with (best (g_tracker s')).
      rewrite Htg, update_improving by assumption. reflexivity.
    + change (d_epochs_without_improvement s')
        with (without_improvement (d_tracker s')).
      rewrite Htd, update_improving by assumption. reflexivity.
    + change (best_d_loss s') with (best (d_tracker s')).
      rewrite Htd, update_improving by assumption. reflexivity.
    + change (stop_training_g s') with (stop (g_tracker s')).
      rewrite Htg. now apply update_keeps_stop.
    + rewrite Hnet. now apply batches_frozen_g.
    + rewrite Hnet. now apply batches_frozen_g.
    + change (stop_training_d s') with (stop (d_tracker s')).
      rewrite Htd. now apply update_keeps_stop.
    + rewrite Hnet. now apply batches_frozen_d.
    + rewrite Hnet. now apply batches_frozen_d.
  - intros range s. apply train_gan_loop_break.
Qed.

(** patience 2, the losses 1 < 2 < 3: the flag is raised at epoch 3 *)
Lemma train_gan_early_stopping_witness :
  (forall k, (k <= 2)%nat -> stop (feed 2 (firstn k [1; 2; 3])) = false)
  /\ stop (feed 2 [1; 2; 3]) = true.
Proof.
  destruct (train_gan_early_stopping Fixtures.toy_env [Fixtures.toy_batch]
              1 1 2) as [Hfeed _].
  apply Hfeed.
  - lia.
  - reflexivity.
  - cbn. lra.
Defined.

(** C4 as stated fails for [patience = 0]: the first epoch always improves
    on the initial best loss [inf], and the flag is only tested in the
    branch without improvement.  After [patience + 1 = 1] epoch the flag
    is still down. *)
Lemma train_gan_patience_0_first_epoch :
  exists s,
    train_gan Fixtures.toy_env Fixtures.toy_gan_nets [Fixtures.toy_batch]
      1 1 1 0 0%nat = Py.Ok s
    /\ epochs_run s = 1%nat
    /\ length (logged_g_losses s) = 1%nat
    /\ strictly_increasing (logged_g_losses s)
    /\ stop_training_g s = false
    /\ stop_training_d s = false.
Proof.
  assert (Hdl : [Fixtures.toy_batch] <> []) by discriminate.
  destruct (train_gan_returns Fixtures.toy_env Fixtures.toy_gan_nets
              [Fixtures.toy_batch] 1 1 1 0 0%nat Hdl) as [s Hs].
  exists s. split; [exact Hs|].
  unfold train_gan in Hs. cbn [seq train_gan_loop] in Hs.
  cbn [initial stop_training_g stop_training_d andb] in Hs.
  destruct (train_gan_epoch _ _ _ _ _ _ _) as [s1|e] eqn:Hep; [|discriminate].
  cbn [Py.bind] in Hs. injection Hs as <-.
  assert (Hlog : log_path (initial Fixtures.toy_env Fixtures.toy_gan_nets
                             0%nat) <> []) by discriminate.
  destruct (train_gan_epoch_step _ _ _ _ _ _ _ _ Hlog Hep)
    as (avg_g & avg_rec & avg_d & acc & _ & Hlg & _ & Htg & Htd & Hrun & _).
  rewrite Hlg. cbn [initial] in *.
  repeat split.
  - exact Hrun.
  - change (stop_training_g s1) with (stop (g_tracker s1)). now rewrite Htg.
  - change (stop_training_d s1) with (stop (d_tracker s1)). now rewrite Htd.
Qed.

End PretrainFacts.

(** ** The combined loop *)

Module CombinedFacts.
Import Tensor Layout Rand Penalty Nets Metric Combined.
Local Open Scope R_scope.

(** a computation that returned went through its first step *)
Ltac bind_ok H x Hx :=
  match type of H with
  | Py.bind ?m _ = Py.Ok _ =>
      destruct m as [x|] eqn:Hx; [cbn [Py.bind] in H | discriminate H]
  end.

(** what one epoch does *)
Lemma combined_epoch_unfold E tl vl tel patience lambda_gp alpha K epoch s s1 :
  combined_epoch E tl vl tel patience lambda_gp alpha K epoch s = Py.Ok s1 ->
  exists b val val_f1 st1 test test_f1 st2 row,
    combined_batches E lambda_gp alpha K tl (start_of_epoch s) = Py.Ok b
    /\ evaluate E (b_nets b) vl (b_rng b) = Py.Ok (val, val_f1, st1)
    /\ evaluate E (b_nets b) tel st1 = Py.Ok (test, test_f1, st2)
    /\ networks s1 = step_schedulers E (b_nets b)
    /\ log_path s1 = Csv.append (log_path s) (Csv.Int (Z.of_nat epoch + 1) :: row)
    /\ epochs_run s1 = S (epochs_run s)
    /\ (best_accuracy s < val ->
        save_path s1 = Some (checkpoint_of E (networks s1) epoch val test)
        /\ best_accuracy s1 = val
        /\ epochs_without_improvement s1 = 0%nat)
    /\ (~ best_accuracy s < val ->
        save_path s1 = save_path s
        /\ best_accuracy s1 = best_accuracy s
        /\ epochs_without_improvement s1 = S (epochs_without_improvement s)).
Proof.
  intros H. unfold combined_epoch in H.
  bind_ok H b Hb. bind_ok H train_accuracy Hta. bind_ok H avg_f1 Hf1.
  bind_ok H v Hv. destruct v as [[val val_f1] st1].
  bind_ok H w Hw. destruct w as [[test test_f1] st2].
  bind_ok H avg_g Hg. bind_ok H avg_d Hd. bind_ok H avg_c Hc.
  exists b, val, val_f1, st1, test, test_f1, st2.
  eexists. split; [reflexivity|]. split; [exact Hv|]. split; [exact Hw|].
  unfold Py.ltb in H.
  destruct (Rlt_dec (best_accuracy s) val) as [Hlt|Hge];
    injection H as <-; cbn [networks log_path epochs_run save_path
                              best_accuracy epochs_without_improvement];
    (split; [reflexivity|]); (split; [reflexivity|]);
    (split; [reflexivity|]); split; intros Hcase;
    try contradiction; repeat split.
Qed.

(** *** The loop returns *)

Lemma combined_batch_returns E lambda_gp alpha K s b :
  (1 <= K)%nat ->
  exists s1,
    combined_batch E lambda_gp alpha K s b = Py.Ok s1
    /\ total_train (b_totals s1)
       = (total_train (b_totals s) + length (snd b))%nat.
Proof.
  intros HK. destruct b as [[graph_layouts adj] labels].
  unfold combined_batch. destruct K as [|K]; [lia|].
  destruct (draw_noises _ _ _ _) as [zs_d st1].
  destruct (d_loss_of _ _ _ _ _ _ _) as [d_loss st2].
  destruct (optimizer_d _ _ _) as [d1 dopt1].
  destruct (draw_noises _ _ _ _) as [zs_g st3].
  destruct (generator_losses _ _ _ _ _ _ _ _ _ _ _) as [[g_loss clf_loss] outputs].
  destruct (optimizer_g _ _ _) as [g1 gopt1].
  destruct (optimizer_c _ _ _) as [c1 copt1].
  destruct (calculate_f1 _ _) as [[precision recall] f1].
  eexists. split; reflexivity.
Qed.

Lemma combined_batches_return E lambda_gp alpha K :
  (1 <= K)%nat ->
  forall tl s,
    exists b,
      combined_batches E lambda_gp alpha K tl s = Py.Ok b
      /\ (total_train (b_totals s) <= total_train (b_totals b))%nat
      /\ (labelled tl -> (0 < total_train (b_totals b))%nat).
Proof.
  intros HK. induction tl as [|b0 tl IH]; intros s; cbn [combined_batches].
  - exists s. repeat split; [lia|]. intros H. inversion H.
  - destruct (combined_batch_returns E lambda_gp alpha K s b0 HK)
      as (s1 & -> & Ht).
    cbn [Py.bind]. destruct (IH s1) as (b & Hb & Hle & Hpos).
    exists b. split; [exact Hb|]. split; [lia|].
    intros H. inversion H as [? ? Hb0 | ? ? Hrest]; subst.
    + destruct (snd b0) as [|l ls]; [congruence|]. cbn [length] in Ht. lia.
    + now apply Hpos.
Qed.

Lemma combined_epoch_returns E tl vl tel patience lambda_gp alpha K epoch s :
  (1 <= K)%nat -> labelled tl -> labelled vl -> labelled tel ->
  exists s1,
    combined_epoch E tl vl tel patience lambda_gp alpha K epoch s = Py.Ok s1.
Proof.
  intros HK Htl Hvl Htel. unfold combined_epoch.
  destruct (combined_batches_return E lambda_gp alpha K HK tl
              (start_of_epoch s)) as (b & -> & _ & Hpos).
  specialize (Hpos Htl). cbn [Py.bind].
  destruct (total_train (b_totals b)) as [|n]; [lia|].
  destruct tl as [|b0 tl]; [inversion Htl|].
  cbn [Py.div_int Py.bind length].
  destruct (EvaluateFacts.evaluate_model_returns E (gen (b_nets b))
              (clf (b_nets b)) vl 5 (b_rng b) Hvl) as (va & vf & st1 & Hv).
  unfold evaluate. rewrite Hv. cbn [Py.bind].
  destruct (EvaluateFacts.evaluate_model_returns E (gen (b_nets b))
              (clf (b_nets b)) tel 5 st1 Htel) as (ta & tf & st2 & Hw).
  rewrite Hw. cbn [Py.bind].
  destruct (Py.ltb (best_accuracy s) va); eexists; reflexivity.
Qed.

Lemma combined_loop_returns E tl vl tel patience lambda_gp alpha K :
  (1 <= K)%nat -> labelled tl -> labelled vl -> labelled tel ->
  forall range s,
    exists s1,
      combined_loop E tl vl tel patience lambda_gp alpha K range s = Py.Ok s1.
Proof.
  intros HK Htl Hvl Htel. induction range as [|epoch range IH]; intros s;
    cbn [combined_loop]; [now exists s|].
  destruct (combined_epoch_returns E tl vl tel patience lambda_gp alpha K
              epoch s HK Htl Hvl Htel) as [s1 ->].
  cbn [Py.bind].
  destruct (patience <=? epochs_without_improvement s1)%nat;
    [now exists s1 | apply IH].
Qed.

Lemma combined_initial_returns E n0 tl vl tel st0 :
  labelled tl -> labelled vl -> labelled tel ->
  exists s0, combined_initial E n0 tl vl tel st0 = Py.Ok s0.
Proof.
  intros Htl Hvl Htel. unfold combined_initial, evaluate.
  destruct (EvaluateFacts.evaluate_model_returns E (gen n0) (clf n0) tl 5
              st0 Htl) as (a1 & f1 & st1 & ->). cbn [Py.bind].
  destruct (EvaluateFacts.evaluate_model_returns E (gen n0) (clf n0) vl 5
              st1 Hvl) as (a2 & f2 & st2 & ->). cbn [Py.bind].
  destruct (EvaluateFacts.evaluate_model_returns E (gen n0) (clf n0) tel 5
              st2 Htel) as (a3 & f3 & st3 & ->). cbn [Py.bind].
  eexists. reflexivity.
Qed.

(** [train_combined_cgan] returns when every loader has a graph and at
    least one noise sample is asked for *)
Lemma train_combined_cgan_returns
  E n0 tl vl tel epochs patience lambda_gp alpha K st0 :
  (1 <= K)%nat -> labelled tl -> labelled vl -> labelled tel ->
  exists s,
    train_combined_cgan E n0 tl vl tel epochs patience lambda_gp alpha K st0
    = Py.Ok s.
Proof.
  intros HK Htl Hvl Htel. unfold train_combined_cgan.
  destruct (combined_initial_returns E n0 tl vl tel st0 Htl Hvl Htel)
    as [s0 ->].
  cbn [Py.bind]. now apply combined_loop_returns.
Qed.

(** *** The log *)

Lemma combined_consistent_initial E n0 tl vl tel st0 s0 :
  combined_initial E n0 tl vl tel st0 = Py.Ok s0 ->
  consistent s0 /\ epochs_run s0 = 0%nat
  /\ best_accuracy s0 = 0 /\ epochs_without_improvement s0 = 0%nat
  /\ save_path s0 = None.
Proof.
  intros H. unfold combined_initial in H.
  bind_ok H a Ha. destruct a as [[a1 f1] st1].
  bind_ok H v Hv. destruct v as [[a2 f2] st2].
  bind_ok H w Hw. destruct w as [[a3 f3] st3].
  injection H as <-. repeat split. discriminate.
Qed.

Lemma combined_consistent_epoch E tl vl tel patience lambda_gp alpha K s s1 :
  consistent s ->
  combined_epoch E tl vl tel patience lambda_gp alpha K (epochs_run s) s
  = Py.Ok s1 ->
  consistent s1 /\ epochs_run s1 = S (epochs_run s).
Proof.
  intros [Hlog Hrows] H.
  destruct (combined_epoch_unfold _ _ _ _ _ _ _ _ _ _ _ H)
    as (b & val & val_f1 & st1 & test & test_f1 & st2 & row
        & _ & _ & _ & _ & Hl & Hrun & _).
  split; [|exact Hrun]. split.
  - rewrite Hl. apply PretrainFacts.append_nonempty.
  - rewrite Hl, Hrun, PretrainFacts.data_rows_append by exact Hlog.
    rewrite map_app, PretrainFacts.epoch_cells_snoc.
    cbn [map hd]. rewrite app_comm_cons. f_equal. exact Hrows.
Qed.

(** the loop keeps the log consistent; it runs every epoch of its range
    unless the counter reaches [patience] *)
Lemma combined_loop_consistent E tl vl tel patience lambda_gp alpha K :
  forall n s s',
    consistent s ->
    combined_loop E tl vl tel patience lambda_gp alpha K
      (seq (epochs_run s) n) s = Py.Ok s' ->
    consistent s'
    /\ (epochs_run s <= epochs_run s' <= epochs_run s + n)%nat
    /\ (epochs_run s' = (epochs_run s + n)%nat
        \/ (patience <= epochs_without_improvement s')%nat).
Proof.
  induction n as [|n IH]; intros s s' Hc H; cbn [seq combined_loop] in H.
  - injection H as <-. split; [exact Hc|]. split; [lia|]. left. lia.
  - bind_ok H s1 Hep.
    destruct (combined_consistent_epoch _ _ _ _ _ _ _ _ _ _ Hc Hep) as [Hc1 Hrun].
    destruct (Nat.leb_spec patience (epochs_without_improvement s1)) as [Hp|Hp].
    + injection H as <-. split; [exact Hc1|]. split; [lia|]. right. exact Hp.
    + rewrite <- Hrun in H.
      destruct (IH s1 s' Hc1 H) as (Hc' & Hle & Hend).
      split; [exact Hc'|]. split; [lia|].
      destruct Hend as [Hend|Hend]; [left; lia | right; exact Hend].
Qed.

Lemma train_combined_cgan_consistent
  E n0 tl vl tel epochs patience lambda_gp alpha K st0 s :
  train_combined_cgan E n0 tl vl tel epochs patience lambda_gp alpha K st0
  = Py.Ok s ->
  consistent s
  /\ (epochs_run s <= epochs)%nat
  /\ (epochs_run s = epochs
      \/ (patience <= epochs_without_improvement s)%nat).
Proof.
  intros H. unfold train_combined_cgan in H. bind_ok H s0 H0.
  destruct (combined_consistent_initial _ _ _ _ _ _ _ H0) as (Hc0 & Hrun0 & _).
  rewrite <- Hrun0 in H.
  destruct (combined_loop_consistent E tl vl tel patience lambda_gp alpha K
              epochs s0 s Hc0 H) as (Hc & Hle & Hend).
  rewrite Hrun0 in Hle, Hend. cbn [Nat.add] in Hle, Hend.
  split; [exact Hc|]. split; [lia|]. exact Hend.
Qed.

Lemma length_data_rows E (s : state E) :
  consistent s -> length (Csv.data_rows (log_path s)) = S (epochs_run s).
Proof.
  intros [_ Hrows]. apply (f_equal (@length _)) in Hrows.
  unfold Pretrain.epoch_cells in Hrows.
  cbn [length] in Hrows. now rewrite !length_map, length_seq in Hrows.
Qed.

(** C5.  At the end of every epoch of the combined loop: when the
    validation accuracy of the epoch strictly exceeds the best so far, the
    checkpoint with the three networks, the three optimizers, the epoch and
    the two accuracies is written, the best accuracy becomes that accuracy
    and the shared counter is reset to 0; otherwise the checkpoint file and
    the best accuracy are unchanged and the counter goes up by 1.  When the
    counter has reached [patience] the whole loop is left, otherwise it goes
    on with the next epoch. *)
Theorem combined_checkpoint_on_improvement
  E tl vl tel patience lambda_gp alpha K :
  (forall epoch s s1,
      combined_epoch E tl vl tel patience lambda_gp alpha K epoch s
      = Py.Ok s1 ->
      exists b val val_f1 st1 test test_f1 st2,
        combined_batches E lambda_gp alpha K tl (start_of_epoch s) = Py.Ok b
        /\ evaluate E (b_nets b) vl (b_rng b) = Py.Ok (val, val_f1, st1)
        /\ evaluate E (b_nets b) tel st1 = Py.Ok (test, test_f1, st2)
        /\ (best_accuracy s < val ->
            save_path s1
            = Some {| generator_state_dict := gen (networks s1);
                      discriminator_state_dict := disc (networks s1);
                      classifier_state_dict := clf (networks s1);
                      optimizer_g_state_dict := gen_opt (networks s1);
                      optimizer_d_state_dict := disc_opt (networks s1);
                      optimizer_c_state_dict := clf_opt (networks s1);
                      saved_epoch := epoch;
                      saved_val_accuracy := val;
                      saved_test_accuracy := test |}
            /\ best_accuracy s1 = val
            /\ epochs_without_improvement s1 = 0%nat)
        /\ (~ best_accuracy s < val ->
            save_path s1 = save_path s
            /\ best_accuracy s1 = best_accuracy s
            /\ epochs_without_improvement s1
               = S (epochs_without_improvement s)))
  /\ (forall epoch rest s s1,
         combined_epoch E tl vl tel patience lambda_gp alpha K epoch s
         = Py.Ok s1 ->
         ((patience <= epochs_without_improvement s1)%nat ->
          combined_loop E tl vl tel patience lambda_gp alpha K
            (epoch :: rest) s = Py.Ok s1)
         /\ ((epochs_without_improvement s1 < patience)%nat ->
             combined_loop E tl vl tel patience lambda_gp alpha K
               (epoch :: rest) s
             = combined_loop E tl vl tel patience lambda_gp alpha K rest s1)).
Proof.
  split.
  - intros epoch s s1 H.
    destruct (combined_epoch_unfold _ _ _ _ _ _ _ _ _ _ _ H)
      as (b & val & val_f1 & st1 & test & test_f1 & st2 & row
          & Hb & Hv & Hw & _ & _ & _ & Hup & Hno).
    exists b, val, val_f1, st1, test, test_f1, st2.
    split; [exact Hb|]. split; [exact Hv|]. split; [exact Hw|].
    split; [exact Hup | exact Hno].
  - intros epoch rest s s1 H. cbn [combined_loop]. rewrite H. cbn [Py.bind].
    split; intros Hp.
    + apply Nat.leb_le in Hp. now rewrite Hp.
    + apply Nat.leb_gt in Hp. now rewrite Hp.
Qed.

(** *** The generator step *)

(** in every turn the classifier sees the rendering of [generated_layouts],
    whatever the draw *)
Lemma generator_step_sample_clf
  E g d c graph_layouts adj labels nn generated_layouts z :
  snd (generator_step_sample E g d c graph_layouts adj labels nn
         generated_layouts z)
  = classifier E Train c (render_all E generated_layouts adj nn)
  /\ snd (fst (generator_step_sample E g d c graph_layouts adj labels nn
                 generated_layouts z))
     = criterion E
         (classifier E Train c (render_all E generated_layouts adj nn))
         labels.
Proof. split; reflexivity. Qed.

Lemma generator_losses_clf E alpha g d c graph_layouts adj labels nn zs_d zs_g :
  snd (fst (generator_losses E alpha g d c graph_layouts adj labels nn
              zs_d zs_g))
  = mean (map (fun _ : noise =>
                 criterion E
                   (classifier E Train c
                      (render_all E
                         (last (map (fun z => generator E Train g z
                                               graph_layouts adj nn) zs_d) [])
                         adj nn))
                   labels) zs_g).
Proof.
  unfold generator_losses. cbn [fst snd]. now rewrite !map_map.
Qed.

Lemma hd_vec f st n : hd 0 (vec f st (S n)) = f st.
Proof. reflexivity. Qed.

Lemma toy_generator m z0 g1 adj nn :
  generator Fixtures.toy_env m tt [z0] [g1] adj nn
  = [map (map (fun v => v + hd 0 z0)) g1].
Proof. reflexivity. Qed.

Lemma draw_two src st b :
  draw_noises src st b 2
  = ([mat (normal src) st b 128; mat (normal src) (st + b * 128) b 128],
     (st + b * 128 + b * 128)%nat).
Proof. reflexivity. Qed.

Lemma mat_one f st cols : mat f st 1 cols = [vec f (st + 0 * cols) cols].
Proof. reflexivity. Qed.

Lemma INR_const n z : Z.of_nat n = z -> INR n = IZR z.
Proof. intros <-. apply INR_IZR_INZ. Qed.

Lemma norm_pos x v : x <> 0 -> In x v -> 0 < norm v.
Proof.
  intros Hx Hin. unfold norm. apply sqrt_lt_R0.
  induction v as [|y v IH]; [destruct Hin|].
  cbn [map]. rewrite LayoutFacts.sum_cons.
  pose proof (LayoutFacts.sum_squares_nonneg v) as Hv.
  destruct Hin as [-> | Hin].
  - assert (0 < x * x) by (apply Rsqr_pos_lt in Hx; exact Hx). lra.
  - specialize (IH Hin). pose proof (Rle_0_sqr y) as Hy. unfold Rsqr in Hy.
    lra.
Qed.

Lemma toy_num_nodes : num_nodes_combined Fixtures.toy_layouts = [2%nat].
Proof.
  unfold num_nodes_combined, Fixtures.toy_layouts. cbn [map].
  assert (H1 : gt0 (norm [1; 2]) = true).
  { unfold gt0, Py.ltb. destruct (Rlt_dec 0 (norm [1; 2])) as [_|Hn]; auto.
    elim Hn. apply (norm_pos 1); [lra | now left]. }
  assert (H2 : gt0 (norm [3; 4]) = true).
  { unfold gt0, Py.ltb. destruct (Rlt_dec 0 (norm [3; 4])) as [_|Hn]; auto.
    elim Hn. apply (norm_pos 3); [lra | now left]. }
  assert (H3 : gt0 (norm [0; 0]) = false).
  { rewrite LayoutFacts.norm_all_zero by (repeat constructor).
    unfold gt0, Py.ltb. destruct (Rlt_dec 0 0); [lra | reflexivity]. }
  rewrite H1, H2, H3. reflexivity.
Qed.

(** the layout left by the critic step of the toy batch: the second draw
    starts at draw number 128 *)
Lemma toy_critic_layout :
  last (map (fun z => generator Fixtures.toy_env Train tt z
                        Fixtures.toy_layouts Fixtures.toy_adj [2%nat])
          [mat (normal (src Fixtures.toy_env)) 0 1 128;
           mat (normal (src Fixtures.toy_env)) 128 1 128]) []
  = [[[129; 130]; [131; 132]; [128; 128]]].
Proof.
  cbn [map last]. unfold Fixtures.toy_layouts.
  rewrite !mat_one, !toy_generator, !hd_vec.
  cbn [map Fixtures.toy_env src Fixtures.half_source normal Nat.add Nat.mul].
  rewrite (INR_const 128 128 eq_refl).
  repeat (f_equal; try lra).
Qed.

(** the classification loss of the toy batch on that layout *)
Lemma toy_critic_layout_loss :
  criterion Fixtures.toy_env
    (classifier Fixtures.toy_env Train tt
       (render_all Fixtures.toy_env [[[129; 130]; [131; 132]; [128; 128]]]
          Fixtures.toy_adj [2%nat]))
    Fixtures.toy_labels
  = 522.
Proof.
  cbn [render_all enumerate length seq combine map fst snd nth firstn
       Fixtures.toy_env visualize_graph_layout classifier criterion concat app].
  unfold Layout.sum. cbn [fold_right]. lra.
Qed.

Lemma mean_two x : mean [x; x] = x.
Proof. unfold mean, Layout.sum. cbn [fold_right length INR]. field. Qed.

Lemma map_const (A B : Type) (c : B) (l : list A) :
  map (fun _ => c) l = repeat c (length l).
Proof. induction l as [|x l IH]; cbn; [reflexivity | now rewrite IH]. Qed.

(** the classification loss of a fresh layout of the toy batch, for the
    draw that starts at draw number [st] *)
Lemma toy_fresh_loss st :
  snd (fst (fresh_step_sample Fixtures.toy_env tt tt tt Fixtures.toy_layouts
              Fixtures.toy_adj Fixtures.toy_labels [2%nat]
              (mat (normal (src Fixtures.toy_env)) st 1 128)))
  = 10 + 4 * INR st.
Proof.
  unfold fresh_step_sample. cbn [fst snd]. unfold Fixtures.toy_layouts.
  rewrite mat_one, toy_generator, hd_vec.
  cbn [render_all enumerate length seq combine map fst snd nth firstn
       Fixtures.toy_env visualize_graph_layout classifier criterion concat app
       src Fixtures.half_source normal Nat.add Nat.mul].
  rewrite Nat.add_0_r. unfold Layout.sum. cbn [fold_right]. lra.
Qed.

(** C1 fails on the code.  In every turn of the generator step the images
    are rendered from [generated_layouts], the layout left by the last turn
    of the critic step, not from [gen_layouts]; the mean classifier loss
    therefore does not depend on the draws of the generator step.  On the
    toy batch with two samples the critic step leaves the layout shifted by
    128, whose loss is 522, and the generator step draws from draw number
    266 on: the code's mean classifier loss is 522, the loss of the freshly
    generated layouts is (1074 + 1586) / 2 = 1330. *)
Theorem generator_step_classifies_critic_layout :
  (forall E alpha g d c graph_layouts adj labels nn zs_d zs_g zs_g',
      length zs_g = length zs_g' ->
      snd (fst (generator_losses E alpha g d c graph_layouts adj labels nn
                  zs_d zs_g))
      = snd (fst (generator_losses E alpha g d c graph_layouts adj labels nn
                    zs_d zs_g')))
  /\ exists s1,
       combined_batch Fixtures.toy_env 5 30 2
         (start_of_epoch Fixtures.toy_state) Fixtures.toy_batch = Py.Ok s1
       /\ b_rng s1 = snd (draw_noises (src Fixtures.toy_env) 266%nat 1 2)
       /\ total_c_loss (b_totals s1) = 522
       /\ fresh_mean_clf_loss Fixtures.toy_env tt tt tt Fixtures.toy_layouts
            Fixtures.toy_adj Fixtures.toy_labels
            (num_nodes_combined Fixtures.toy_layouts)
            (fst (draw_noises (src Fixtures.toy_env) 266%nat 1 2))
          = 1330.
Proof.
  split.
  - intros E alpha g d c graph_layouts adj labels nn zs_d zs_g zs_g' Hlen.
    rewrite !generator_losses_clf, !map_const, Hlen. reflexivity.
  - unfold combined_batch, Fixtures.toy_batch.
    rewrite toy_num_nodes, draw_two.
    cbn [start_of_epoch b_rng Fixtures.toy_state rng_state b_nets networks
         b_totals total_c_loss].
    destruct (d_loss_of _ _ _ _ _ _ _) as [d_loss st2] eqn:Hd.
    assert (Hst : st2 = 266%nat).
    { apply (f_equal snd) in Hd. cbn [snd] in Hd. rewrite <- Hd. reflexivity. }
    subst st2.
    destruct (optimizer_d _ _ _) as [d1 dopt1].
    rewrite draw_two.
    destruct (generator_losses _ _ _ _ _ _ _ _ _ _ _)
      as [[g_loss mean_clf_loss] outputs] eqn:Hg.
    assert (Hclf : mean_clf_loss = 522).
    { apply (f_equal (fun x => snd (fst x))) in Hg. cbn [fst snd] in Hg.
      rewrite <- Hg, generator_losses_clf.
      change (length Fixtures.toy_layouts) with 1%nat.
      change (0 + 1 * 128)%nat with 128%nat.
      cbn [gen Fixtures.toy_nets clf].
      rewrite toy_critic_layout, toy_critic_layout_loss.
      cbn [map]. apply mean_two. }
    destruct (optimizer_g _ _ _) as [g1 gopt1].
    destruct (optimizer_c _ _ _) as [c1 copt1].
    destruct (calculate_f1 _ _) as [[precision recall] f1].
    eexists. split; [reflexivity|]. cbn [b_rng b_totals total_c_loss].
    split; [reflexivity|]. split; [rewrite Hclf; lra|].
    unfold fresh_mean_clf_loss. rewrite draw_two. cbn [fst map].
    change (266 + 1 * 128)%nat with 394%nat.
    rewrite !toy_fresh_loss.
    rewrite (INR_const 266 266 eq_refl), (INR_const 394 394 eq_refl).
    unfold mean, Layout.sum. cbn [fold_right length INR]. lra.
Qed.

Lemma toy_loader_labelled : labelled [Fixtures.toy_batch].
Proof. constructor. discriminate. Qed.

(** *** The toy pipeline classifies its batch correctly *)

Lemma toy_forward_pass st :
  Evaluate.forward_pass Fixtures.toy_env tt tt Fixtures.toy_layouts
    Fixtures.toy_adj [2%nat] st
  = ([[0; 10 + 4 * INR st]], (st + 1 * 128)%nat).
Proof.
  unfold Evaluate.forward_pass, randn_2, Fixtures.toy_layouts.
  cbn [length]. rewrite mat_one, toy_generator, hd_vec.
  cbn [render_all enumerate length seq combine map fst snd nth firstn
       Fixtures.toy_env visualize_graph_layout classifier concat app
       src Fixtures.half_source normal Nat.add Nat.mul].
  rewrite Nat.add_0_r. unfold Layout.sum. cbn [fold_right].
  replace (1 + INR st + (2 + INR st + (3 + INR st + (4 + INR st + 0))))
    with (10 + 4 * INR st) by lra.
  reflexivity.
Qed.

Lemma toy_sample_outputs K :
  forall st,
    Forall (fun o : logits => exists p, 0 < p /\ o = [[0; p]])
      (Evaluate.sample_outputs Fixtures.toy_env tt tt K Fixtures.toy_layouts
         Fixtures.toy_adj [2%nat] st).
Proof.
  induction K as [|K IH]; intros st; cbn [Evaluate.sample_outputs];
    [constructor|].
  rewrite toy_forward_pass. constructor; [|apply IH].
  exists (10 + 4 * INR st). split; [|reflexivity].
  pose proof (pos_INR st). lra.
Qed.

Lemma logit_sums_of_positive (samples : list logits) :
  Forall (fun o : logits => exists p, 0 < p /\ o = [[0; p]]) samples ->
  Evaluate.logit_sum samples 0 0 = 0
  /\ 0 <= Evaluate.logit_sum samples 0 1
  /\ (samples <> [] -> 0 < Evaluate.logit_sum samples 0 1).
Proof.
  unfold Evaluate.logit_sum.
  induction 1 as [|o samples (p & Hp & ->) _ (I0 & I1 & _)];
    cbn [map nth Layout.sum fold_right].
  - split; [reflexivity|]. split; [lra|congruence].
  - unfold Layout.sum in I0, I1. rewrite I0.
    split; [lra|]. split; [lra|]. intros _. lra.
Qed.

Lemma toy_predict_batch K st :
  (1 <= K)%nat ->
  fst (Evaluate.predict_batch Fixtures.toy_env tt tt K Fixtures.toy_layouts
         Fixtures.toy_adj st) = [1%Z].
Proof.
  intros HK.
  rewrite (EvaluateFacts.predict_batch_average Fixtures.toy_env tt tt K
             Fixtures.toy_layouts Fixtures.toy_adj st
             (EvaluateFacts.toy_generator_keeps_batch Eval)
             (EvaluateFacts.toy_classifier_two_logits Eval)).
  change (num_nodes_evaluate Fixtures.toy_layouts)
    with (num_nodes_combined Fixtures.toy_layouts).
  rewrite toy_num_nodes.
  set (samples := Evaluate.sample_outputs _ _ _ _ _ _ _ _).
  assert (Hlen : length samples = K)
    by apply EvaluateFacts.length_sample_outputs.
  destruct (logit_sums_of_positive samples (toy_sample_outputs K st))
    as (H0 & _ & H1).
  assert (Hne : samples <> [])
    by (intros Hnil; rewrite Hnil in Hlen; cbn in Hlen; lia).
  specialize (H1 Hne).
  unfold Evaluate.averaged_logits, Fixtures.toy_layouts.
  cbn [length seq map predict argmax argmax_from]. rewrite H0, Hlen.
  assert (HK' : 0 < INR K) by (apply lt_0_INR; lia).
  assert (Hlt : 0 / INR K < Evaluate.logit_sum samples 0 1 / INR K).
  { unfold Rdiv. rewrite Rmult_0_l. apply Rmult_lt_0_compat; [exact H1|].
    now apply Rinv_0_lt_compat. }
  unfold Py.ltb. destruct (Rlt_dec _ _); [reflexivity|contradiction].
Qed.

Lemma toy_evaluate_accuracy (n : nets Fixtures.toy_env) st accuracy f1 st1 :
  evaluate Fixtures.toy_env n [Fixtures.toy_batch] st
  = Py.Ok (accuracy, f1, st1) ->
  accuracy = 100.
Proof.
  unfold evaluate, Evaluate.evaluate_model. cbn [fold_left].
  unfold Evaluate.evaluate_batch, Fixtures.toy_batch.
  destruct (gen n), (clf n).
  pose proof (toy_predict_batch 5 st (le_n_S _ _ (Nat.le_0_l 4))) as Hp.
  cbn [Evaluate.rng_state].
  destruct (Evaluate.predict_batch _ _ _ _ _ _ _) as [predicted st'].
  cbn [fst] in Hp. subst predicted.
  destruct (Metric.calculate_f1 _ _) as [[precision recall] f1_score].
  cbn. intros H. injection H as <- _ _. lra.
Qed.

(** two epochs of the toy pipeline with [patience = 1]: the first one
    reaches validation accuracy 100 and writes the checkpoint, the second
    one does not improve on it and the loop is left *)
Lemma combined_checkpoint_on_improvement_witness :
  exists s1 s2,
    combined_epoch Fixtures.toy_env [Fixtures.toy_batch] [Fixtures.toy_batch]
      [Fixtures.toy_batch] 1 5 30 2 0 Fixtures.toy_state = Py.Ok s1
    /\ save_path s1
       = Some (checkpoint_of Fixtures.toy_env (networks s1) 0 100 100)
    /\ best_accuracy s1 = 100
    /\ epochs_without_improvement s1 = 0%nat
    /\ combined_epoch Fixtures.toy_env [Fixtures.toy_batch]
         [Fixtures.toy_batch] [Fixtures.toy_batch] 1 5 30 2 1 s1 = Py.Ok s2
    /\ save_path s2 = save_path s1
    /\ best_accuracy s2 = 100
    /\ epochs_without_improvement s2 = 1%nat
    /\ combined_loop Fixtures.toy_env [Fixtures.toy_batch]
         [Fixtures.toy_batch] [Fixtures.toy_batch] 1 5 30 2 [0; 1; 2]%nat
         Fixtures.toy_state = Py.Ok s2.
Proof.
  destruct (combined_checkpoint_on_improvement Fixtures.toy_env
              [Fixtures.toy_batch] [Fixtures.toy_batch] [Fixtures.toy_batch]
              1 5 30 2) as [Hepoch Hloop].
  destruct (combined_epoch_returns Fixtures.toy_env [Fixtures.toy_batch]
              [Fixtures.toy_batch] [Fixtures.toy_batch] 1 5 30 2 0
              Fixtures.toy_state (Nat.le_succ_diag_r 1) toy_loader_labelled
              toy_loader_labelled toy_loader_labelled) as [s1 Hs1].
  destruct (combined_epoch_returns Fixtures.toy_env [Fixtures.toy_batch]
              [Fixtures.toy_batch] [Fixtures.toy_batch] 1 5 30 2 1
              s1 (Nat.le_succ_diag_r 1) toy_loader_labelled
              toy_loader_labelled toy_loader_labelled) as [s2 Hs2].
  exists s1, s2.
  destruct (Hepoch _ _ _ Hs1)
    as (b1 & val1 & vf1 & st1 & test1 & tf1 & st1' & _ & Hv1 & Ht1 & Hup1 & _).
  apply toy_evaluate_accuracy in Hv1, Ht1. subst val1 test1.
  destruct Hup1 as (Hsave1 & Hbest1 & Hcount1);
    [change (best_accuracy Fixtures.toy_state) with 0; lra|].
  destruct (Hepoch _ _ _ Hs2)
    as (b2 & val2 & vf2 & st2 & test2 & tf2 & st2' & _ & Hv2 & _ & _ & Hno2).
  apply toy_evaluate_accuracy in Hv2. subst val2.
  destruct Hno2 as (Hsave2 & Hbest2 & Hcount2); [rewrite Hbest1; lra|].
  destruct (Hloop 0%nat [1; 2]%nat _ _ Hs1) as [_ Hgo].
  destruct (Hloop 1%nat [2]%nat _ _ Hs2) as [Hstop _].
  split; [exact Hs1|]. split; [exact Hsave1|]. split; [exact Hbest1|].
  split; [exact Hcount1|]. split; [exact Hs2|]. split; [exact Hsave2|].
  split; [now rewrite Hbest2|]. split; [now rewrite Hcount2, Hcount1|].
  rewrite Hgo by (rewrite Hcount1; lia).
  apply Hstop. rewrite Hcount2, Hcount1. lia.
Defined.

End CombinedFacts.

(** ** The CSV logs of the two loops *)

Module LogFacts.
Import Nets.
Local Open Scope nat_scope.

(** C8.  When [train_combined_cgan] returns, its log holds after the header
    the epoch-0 row and one row per epoch run, numbered 1, 2, ...: with
    [N] epochs run, [N + 1] data rows.  When [train_gan] returns, its log
    holds after the header exactly one row per epoch run, numbered from 1,
    and no epoch-0 row.  Each loop runs all its [epochs] unless it stops
    early (the shared counter reached [patience]; both flags raised). *)
Theorem csv_log_row_counts :
  (forall E n0 tl vl tel epochs patience lambda_gp alpha K st0 s,
      Combined.train_combined_cgan E n0 tl vl tel epochs patience
        lambda_gp alpha K st0 = Py.Ok s ->
      map (hd Csv.NoneCell) (Csv.data_rows (Combined.log_path s))
      = Csv.Int 0 :: Pretrain.epoch_cells 0 (Combined.epochs_run s)
      /\ length (Csv.data_rows (Combined.log_path s))
         = Combined.epochs_run s + 1
      /\ (Combined.epochs_run s = epochs
          \/ patience <= Combined.epochs_without_improvement s)
      /\ (Combined.epochs_run s = epochs ->
          length (Csv.data_rows (Combined.log_path s)) = epochs + 1))
  /\ (forall E n0 dl epochs lambda_gp lambda_rec patience st0 s,
         Pretrain.train_gan E n0 dl epochs lambda_gp lambda_rec patience st0
         = Py.Ok s ->
         map (hd Csv.NoneCell) (Csv.data_rows (Pretrain.log_path s))
         = Pretrain.epoch_cells 0 (Pretrain.epochs_run s)
         /\ length (Csv.data_rows (Pretrain.log_path s))
            = Pretrain.epochs_run s
         /\ (Pretrain.epochs_run s = epochs
             \/ (Pretrain.stop_training_g s = true
                 /\ Pretrain.stop_training_d s = true))
         /\ (Pretrain.epochs_run s = epochs ->
             length (Csv.data_rows (Pretrain.log_path s)) = epochs)).
Proof.
  split.
  - intros E n0 tl vl tel epochs patience lambda_gp alpha K st0 s H.
    destruct (CombinedFacts.train_combined_cgan_consistent
                _ _ _ _ _ _ _ _ _ _ _ _ H) as (Hc & _ & Hend).
    pose proof (CombinedFacts.length_data_rows _ _ Hc) as Hlen.
    destruct Hc as [_ Hrows].
    split; [exact Hrows|]. split; [lia|]. split; [exact Hend|]. lia.
  - intros E n0 dl epochs lambda_gp lambda_rec patience st0 s H.
    destruct (PretrainFacts.train_gan_consistent _ _ _ _ _ _ _ _ _ H)
      as (Hc & _ & Hend).
    destruct Hc as (_ & Hrows & _ & _).
    assert (Hlen : length (Csv.data_rows (Pretrain.log_path s))
                   = Pretrain.epochs_run s).
    { apply (f_equal (@length _)) in Hrows.
      unfold Pretrain.epoch_cells in Hrows.
      now rewrite !length_map, length_seq in Hrows. }
    split; [exact Hrows|]. split; [exact Hlen|]. split; [exact Hend|]. lia.
Qed.

(** three epochs of the toy pipeline in each loop *)
Lemma csv_log_row_counts_witness :
  (exists s,
      Combined.train_combined_cgan Fixtures.toy_env Fixtures.toy_nets
        [Fixtures.toy_batch] [Fixtures.toy_batch] [Fixtures.toy_batch]
        3 10 5 30 2 0 = Py.Ok s
      /\ length (Csv.data_rows (Combined.log_path s))
         = Combined.epochs_run s + 1)
  /\ (exists s,
         Pretrain.train_gan Fixtures.toy_env Fixtures.toy_gan_nets
           [Fixtures.toy_batch] 3 1 100 20 0 = Py.Ok s
         /\ length (Csv.data_rows (Pretrain.log_path s))
            = Pretrain.epochs_run s).
Proof.
  destruct csv_log_row_counts as [Hcombined Hgan].
  split.
  - destruct (CombinedFacts.train_combined_cgan_returns Fixtures.toy_env
                Fixtures.toy_nets [Fixtures.toy_batch] [Fixtures.toy_batch]
                [Fixtures.toy_batch] 3 10 5 30 2 0
                (Nat.le_succ_diag_r 1) CombinedFacts.toy_loader_labelled
                CombinedFacts.toy_loader_labelled
                CombinedFacts.toy_loader_labelled) as [s Hs].
    exists s. split; [exact Hs|]. now apply Hcombined in Hs.
  - assert (Hdl : [Fixtures.toy_batch] <> []) by discriminate.
    destruct (PretrainFacts.train_gan_returns Fixtures.toy_env
                Fixtures.toy_gan_nets [Fixtures.toy_batch] 3 1 100 20 0 Hdl)
      as [s Hs].
    exists s. split; [exact Hs|]. now apply Hgan in Hs.
Defined.

End LogFacts.

(** ** The call sites of the gradient penalty *)

Module CallSiteFacts.
Import Layout Rand Penalty Nets.
Local Open Scope R_scope.

Lemma lerp_same alpha x : lerp alpha x x = x.
Proof. unfold lerp. ring. Qed.

Lemma map3_lerp_same :
  forall alpha row, length alpha = length row -> map3 lerp alpha row row = row.
Proof.
  induction alpha as [|a alpha IH]; intros [|x row] Hlen;
    try discriminate; [reflexivity|].
  cbn [map3]. rewrite lerp_same, IH; [reflexivity|]. now injection Hlen.
Qed.

Lemma interpolate_matrix_same :
  forall (alpha m : matrix),
    Forall2 (fun a r : list R => length a = length r) alpha m ->
    map3 (map3 lerp) alpha m m = m.
Proof.
  induction 1 as [|a r alpha m Hlen _ IH]; [reflexivity|].
  cbn [map3]. now rewrite map3_lerp_same, IH.
Qed.

Lemma interpolate_adj_same alpha adj :
  same_shape alpha adj -> interpolate_adj alpha adj adj = adj.
Proof.
  unfold interpolate_adj.
  induction 1 as [|a m alpha adj Hm _ IH]; [reflexivity|].
  cbn [map3]. now rewrite interpolate_matrix_same, IH.
Qed.

Lemma Forall2_map_seq (A B : Type) (P : A -> B -> Prop) (g : nat -> A) :
  forall (l : list B) (a : nat),
    (forall k x, In x l -> P (g k) x) ->
    Forall2 P (map g (seq a (length l))) l.
Proof.
  induction l as [|x l IH]; intros a H; cbn [length seq map]; constructor.
  - apply H. now left.
  - apply IH. intros k y Hy. apply H. now right.
Qed.

(** the coefficients drawn for the adjacency have the shape of the batch *)
Lemma cube_same_shape f st adj :
  square_batch (length adj) adj ->
  same_shape
    (cube f st (length adj) (length (hd [] adj)) (length (hd [] adj))) adj.
Proof.
  intros [_ Hsq]. unfold same_shape, cube.
  apply Forall2_map_seq. intros k m Hm.
  rewrite Forall_forall in Hsq. destruct (Hsq m Hm) as [Hrows Hcols].
  unfold mat. rewrite <- Hrows.
  apply Forall2_map_seq. intros i r Hr.
  rewrite Forall_forall in Hcols. rewrite (Hcols r Hr).
  unfold vec. now rewrite length_map, length_seq.
Qed.

Lemma interpolates_adjacency src real fake adj st :
  square_batch (length real) adj ->
  interpolates src real fake adj adj st
  = (interpolate_samples (vec (uniform src) st (length real)) real fake,
     adj,
     (st + length real
      + length real * (length (hd [] adj) * length (hd [] adj)))%nat).
Proof.
  intros Hsq. unfold interpolates, rand_b11, rand_3.
  destruct Hsq as [Hb Hsq]. rewrite <- Hb.
  rewrite interpolate_adj_same; [reflexivity|].
  apply cube_same_shape. split; [reflexivity | exact Hsq].
Qed.

Lemma penalty_at_call_site src D real fake adj lambda_gp st :
  square_batch (length real) adj ->
  fst (compute_gradient_penalty src D real fake adj adj lambda_gp st)
  = lambda_gp
    * mean (map (fun g => (g - 1) ^ 2)
              (coordinate_gradient_norms
                 (grad D
                    (interpolate_samples (vec (uniform src) st (length real))
                       real fake)
                    adj))).
Proof.
  intros Hsq. rewrite PenaltyFacts.penalty_unfold.
  now rewrite interpolates_adjacency.
Qed.

(** C10.  Both call sites of [compute_gradient_penalty] pass the batch's
    adjacency as [real_adj] and as [fake_adj].  Interpolating between equal
    endpoints is the identity, for every coefficient; so on a batch with one
    square matrix per graph the adjacency given to the critic is the
    batch's adjacency, and the penalty of [train_gan] and of
    [train_combined_cgan] is the one computed at that adjacency, whatever
    coefficients were drawn for it. *)
Theorem adjacency_interpolation_is_identity :
  (forall alpha x, lerp alpha x x = x)
  /\ (forall alpha adj,
         same_shape alpha adj -> interpolate_adj alpha adj adj = adj)
  /\ (forall src real fake adj st,
         square_batch (length real) adj ->
         snd (fst (interpolates src real fake adj adj st)) = adj)
  /\ (forall E lambda_gp d node_coords generated_coords adj_matrices st,
         square_batch (length node_coords) adj_matrices ->
         fst (Pretrain.d_loss_of E lambda_gp d node_coords generated_coords
                adj_matrices st)
         = wasserstein_loss E
             (score (discriminator E Train d) node_coords adj_matrices)
             (score (discriminator E Train d) generated_coords adj_matrices)
           + lambda_gp
             * mean (map (fun g => (g - 1) ^ 2)
                       (coordinate_gradient_norms
                          (grad (discriminator E Train d)
                             (interpolate_samples
                                (vec (uniform (src E)) st (length node_coords))
                                node_coords generated_coords)
                             adj_matrices))))
  /\ (forall E lambda_gp d graph_layouts adj_matrices generated st,
         square_batch (length graph_layouts) adj_matrices ->
         fst (Combined.d_loss_of E lambda_gp d graph_layouts adj_matrices
                generated st)
         = wasserstein_loss E
             (score (discriminator E Train d) graph_layouts adj_matrices)
             (Combined.mean_dim0
                (map (fun generated_layouts =>
                        score (discriminator E Train d) generated_layouts
                          adj_matrices) generated))
           + lambda_gp
             * mean (map (fun g => (g - 1) ^ 2)
                       (coordinate_gradient_norms
                          (grad (discriminator E Train d)
                             (interpolate_samples
                                (vec (uniform (src E)) st (length graph_layouts))
                                graph_layouts (last generated []))
                             adj_matrices)))).
Proof.
  split; [exact lerp_same|].
  split; [exact interpolate_adj_same|].
  split; [|split].
  - intros src real fake adj st Hsq. now rewrite interpolates_adjacency.
  - intros E lambda_gp d node_coords generated_coords adj_matrices st Hsq.
    unfold Pretrain.d_loss_of.
    rewrite <- (penalty_at_call_site (src E) (discriminator E Train d)
                  node_coords generated_coords adj_matrices lambda_gp st Hsq).
    destruct (compute_gradient_penalty _ _ _ _ _ _ _ _) as [gp st1].
    reflexivity.
  - intros E lambda_gp d graph_layouts adj_matrices generated st Hsq.
    unfold Combined.d_loss_of.
    rewrite <- (penalty_at_call_site (src E) (discriminator E Train d)
                  graph_layouts (last generated []) adj_matrices lambda_gp st
                  Hsq).
    destruct (compute_gradient_penalty _ _ _ _ _ _ _ _) as [gp st1].
    reflexivity.
Qed.

Lemma toy_adj_square : square_batch 1 Fixtures.toy_adj.
Proof. split; [reflexivity|]. repeat constructor. Qed.

(** the toy batch: its adjacency reaches the critic unchanged *)
Lemma adjacency_interpolation_is_identity_witness :
  snd (fst (interpolates Fixtures.half_source Fixtures.toy_layouts
              [[[5; 6]; [7; 8]; [9; 9]]] Fixtures.toy_adj Fixtures.toy_adj
              0%nat))
  = Fixtures.toy_adj.
Proof.
  apply adjacency_interpolation_is_identity. exact toy_adj_square.
Defined.

End CallSiteFacts.

(* ================================================================== *)
(** * Part III: further properties of the code                         *)
(* ================================================================== *)

(** ** [calculate_f1]: ranges and symmetry *)

Module MetricExtra.
Import Tensor Metric.
Local Open Scope R_scope.

Lemma ratio_range t f :
  0 <= t -> 0 <= f -> 0 <= t / (t + f + eps) /\ t / (t + f + eps) <= 1.
Proof.
  intros Ht Hf. pose proof MetricFacts.eps_pos as He.
  assert (Hd : 0 < t + f + eps) by lra.
  split.
  - apply Rmult_le_pos; [exact Ht|]. left. now apply Rinv_0_lt_compat.
  - apply div_le_l; [exact Hd|]. lra.
Qed.

Lemma f1_range P Q :
  0 <= P <= 1 -> 0 <= Q <= 1 ->
  0 <= 2 * (P * Q) / (P + Q + eps) /\ 2 * (P * Q) / (P + Q + eps) <= 1.
Proof.
  intros [HP0 HP1] [HQ0 HQ1]. pose proof MetricFacts.eps_pos as He.
  assert (Hd : 0 < P + Q + eps) by lra.
  split.
  - apply Rmult_le_pos; [nra|]. left. now apply Rinv_0_lt_compat.
  - apply div_le_l; [exact Hd|]. nra.
Qed.

(** X1.  On binary tensors the three values that [calculate_f1] returns are
    ratios: precision, recall and F1 all lie between 0 and 1, and no
    denominator is zero whatever the counts, because each is at least
    [eps]. *)
Theorem calculate_f1_in_unit_interval preds labels :
  binary preds -> binary labels ->
  0 <= fst (fst (calculate_f1 preds labels)) <= 1
  /\ 0 <= snd (fst (calculate_f1 preds labels)) <= 1
  /\ 0 <= snd (calculate_f1 preds labels) <= 1.
Proof.
  intros Hp Hl. rewrite (MetricFacts.calculate_f1_counts preds labels Hp Hl).
  unfold closed_form. cbn [fst snd].
  pose proof (pos_INR (count_tp preds labels)) as Ht.
  pose proof (pos_INR (count_fp preds labels)) as Hfp.
  pose proof (pos_INR (count_fn preds labels)) as Hfn.
  pose proof (ratio_range _ _ Ht Hfp) as HP.
  pose proof (ratio_range _ _ Ht Hfn) as HR.
  split; [exact HP|]. split; [exact HR|].
  apply f1_range; assumption.
Qed.

Lemma calculate_f1_in_unit_interval_witness :
  0 <= snd (calculate_f1 [1; 0; 1; 1]%Z [1; 1; 0; 1]%Z) <= 1.
Proof.
  assert (Hp : binary [1; 0; 1; 1]%Z) by (repeat constructor; auto).
  assert (Hl : binary [1; 1; 0; 1]%Z) by (repeat constructor; auto).
  apply (calculate_f1_in_unit_interval _ _ Hp Hl).
Defined.

Lemma sum_mul_comm a b : sum (mul a b) = sum (mul b a).
Proof.
  unfold mul. revert b.
  induction a as [|x a IH]; intros [|y b]; try reflexivity.
  cbn [combine map sum fold_right fst snd].
  fold (sum (map (fun ab => (fst ab * snd ab)%Z) (combine a b))).
  fold (sum (map (fun ab => (fst ab * snd ab)%Z) (combine b a))).
  rewrite IH. lia.
Qed.

(** X2.  On tensors of 0s and 1s of the same length, exchanging
    predictions and labels exchanges precision and recall and leaves F1
    unchanged. *)
Theorem calculate_f1_swap preds labels :
  binary preds -> binary labels -> length preds = length labels ->
  calculate_f1 labels preds
  = (snd (fst (calculate_f1 preds labels)),
     fst (fst (calculate_f1 preds labels)),
     snd (calculate_f1 preds labels)).
Proof.
  intros _ _ _. unfold calculate_f1. cbn [fst snd].
  rewrite (sum_mul_comm labels preds).
  rewrite (sum_mul_comm labels (rsub 1 preds)).
  rewrite (sum_mul_comm (rsub 1 labels) preds).
  set (tp := to_float (sum (mul preds labels))).
  set (fp := to_float (sum (mul preds (rsub 1 labels)))).
  set (fn := to_float (sum (mul (rsub 1 preds) labels))).
  set (P := tp / (tp + fp + eps)). set (Q := tp / (tp + fn + eps)).
  f_equal. rewrite (Rmult_comm Q P), (Rplus_comm Q P). reflexivity.
Qed.

(** predictions [1; 0; 1; 1] against labels [1; 1; 0; 0]: the precision
    one way is the recall the other way *)
Lemma calculate_f1_swap_witness :
  fst (fst (calculate_f1 [1; 1; 0; 0]%Z [1; 0; 1; 1]%Z))
  = snd (fst (calculate_f1 [1; 0; 1; 1]%Z [1; 1; 0; 0]%Z))
  /\ snd (calculate_f1 [1; 1; 0; 0]%Z [1; 0; 1; 1]%Z)
     = snd (calculate_f1 [1; 0; 1; 1]%Z [1; 1; 0; 0]%Z).
Proof.
  assert (Hp : binary [1; 0; 1; 1]%Z) by (repeat constructor; auto).
  assert (Hl : binary [1; 1; 0; 0]%Z) by (repeat constructor; auto).
  rewrite (calculate_f1_swap [1; 0; 1; 1]%Z [1; 1; 0; 0]%Z Hp Hl eq_refl).
  split; reflexivity.
Defined.

Lemma ratio_pos t f : 0 < t -> 0 <= f -> 0 < t / (t + f + eps).
Proof.
  intros Ht Hf. pose proof MetricFacts.eps_pos as He.
  apply Rmult_lt_0_compat; [exact Ht|]. apply Rinv_0_lt_compat. lra.
Qed.

(** X3.  On tensors of 0s and 1s of the same length the F1 score of
    [calculate_f1] is 0 exactly when no position is a true positive: a
    single true positive makes precision, recall and F1 positive. *)
Theorem calculate_f1_zero_iff_no_true_positive preds labels :
  binary preds -> binary labels -> length preds = length labels ->
  (snd (calculate_f1 preds labels) = 0 <-> count_tp preds labels = 0%nat)
  /\ ((0 < count_tp preds labels)%nat ->
      0 < fst (fst (calculate_f1 preds labels))
      /\ 0 < snd (fst (calculate_f1 preds labels))
      /\ 0 < snd (calculate_f1 preds labels)).
Proof.
  intros Hp Hl _.
  rewrite (MetricFacts.calculate_f1_counts preds labels Hp Hl).
  unfold closed_form. cbn [fst snd]. pose proof MetricFacts.eps_pos as He.
  pose proof (pos_INR (count_fp preds labels)) as Hfp.
  pose proof (pos_INR (count_fn preds labels)) as Hfn.
  assert (Hpos : (0 < count_tp preds labels)%nat ->
                 0 < INR (count_tp preds labels)
                     / (INR (count_tp preds labels)
                        + INR (count_fp preds labels) + eps)
                 /\ 0 < INR (count_tp preds labels)
                        / (INR (count_tp preds labels)
                           + INR (count_fn preds labels) + eps)
                 /\ 0 < 2 * (INR (count_tp preds labels)
                             / (INR (count_tp preds labels)
                                + INR (count_fp preds labels) + eps)
                             * (INR (count_tp preds labels)
                                / (INR (count_tp preds labels)
                                   + INR (count_fn preds labels) + eps)))
                        / (INR (count_tp preds labels)
                           / (INR (count_tp preds labels)
                              + INR (count_fp preds labels) + eps)
                           + INR (count_tp preds labels)
                             / (INR (count_tp preds labels)
                                + INR (count_fn preds labels) + eps)
                           + eps)).
  { intros Htp. apply lt_0_INR in Htp.
    pose proof (ratio_pos _ _ Htp Hfp) as HP.
    pose proof (ratio_pos _ _ Htp Hfn) as HQ.
    split; [exact HP|]. split; [exact HQ|].
    apply Rmult_lt_0_compat; [nra|]. apply Rinv_0_lt_compat. lra. }
  split; [|exact Hpos]. split.
  - intros H0. destruct (Nat.eq_dec (count_tp preds labels) 0) as [Hz|Hnz];
      [exact Hz|]. exfalso.
    destruct Hpos as (_ & _ & Hf); [lia|]. lra.
  - intros H0. rewrite H0. cbn [INR].
    unfold Rdiv. rewrite !Rmult_0_l, Rmult_0_r, Rmult_0_l. reflexivity.
Qed.

Lemma calculate_f1_zero_iff_no_true_positive_witness :
  0 < snd (calculate_f1 [1; 0; 1]%Z [1; 1; 0]%Z).
Proof.
  assert (Hp : binary [1; 0; 1]%Z) by (repeat constructor; auto).
  assert (Hl : binary [1; 1; 0]%Z) by (repeat constructor; auto).
  destruct (calculate_f1_zero_iff_no_true_positive _ _ Hp Hl eq_refl)
    as [_ Hpos].
  apply Hpos. cbn. lia.
Defined.

End MetricExtra.

(** ** The gradient penalty: sign and zero *)

Module PenaltyExtra.
Import Layout Rand Penalty.
Local Open Scope R_scope.

Lemma sum_nonneg l : Forall (fun x => 0 <= x) l -> 0 <= sum l.
Proof.
  induction 1 as [|x l Hx _ IH]; [cbn; lra|].
  rewrite LayoutFacts.sum_cons. lra.
Qed.

Lemma sum_zero_iff l :
  Forall (fun x => 0 <= x) l -> (sum l = 0 <-> Forall (fun x => x = 0) l).
Proof.
  induction 1 as [|x l Hx Hl IH]; [split; [constructor | reflexivity]|].
  rewrite LayoutFacts.sum_cons. pose proof (sum_nonneg l Hl) as Hs. split.
  - intros H. constructor; [lra|]. apply IH. lra.
  - intros H. inversion H as [|? ? Hx0 Hl0]; subst.
    apply IH in Hl0. lra.
Qed.

Lemma squares_nonneg (norms : list R) :
  Forall (fun x => 0 <= x) (map (fun g => (g - 1) ^ 2) norms).
Proof.
  apply Forall_forall. intros x Hx. apply in_map_iff in Hx.
  destruct Hx as [g [<- _]]. apply pow2_ge_0.
Qed.

Lemma mean_squares_nonneg (norms : list R) :
  0 <= mean (map (fun g => (g - 1) ^ 2) norms).
Proof.
  unfold mean. pose proof (sum_nonneg _ (squares_nonneg norms)) as Hs.
  destruct norms as [|g norms].
  - cbn. lra.
  - apply Rmult_le_pos; [exact Hs|]. left. apply Rinv_0_lt_compat.
    apply lt_0_INR. cbn [length map]. lia.
Qed.

Lemma mean_squares_zero_iff (norms : list R) :
  norms <> [] ->
  (mean (map (fun g => (g - 1) ^ 2) norms) = 0
   <-> Forall (fun g => g = 1) norms).
Proof.
  intros Hne. unfold mean.
  assert (Hlen : 0 < INR (length (map (fun g => (g - 1) ^ 2) norms))).
  { apply lt_0_INR. rewrite length_map. destruct norms; [congruence|cbn; lia]. }
  pose proof (sum_zero_iff _ (squares_nonneg norms)) as Hz.
  split.
  - intros H.
    assert (Hs : sum (map (fun g => (g - 1) ^ 2) norms) = 0).
    { apply Rmult_integral in H. destruct H as [H|H]; [exact H|].
      apply Rinv_neq_0_compat in H; [easy | lra]. }
    apply Hz in Hs. rewrite Forall_map in Hs.
    eapply Forall_impl; [|exact Hs]. cbn. intros g Hg. nra.
  - intros H.
    assert (Hs : sum (map (fun g => (g - 1) ^ 2) norms) = 0).
    { apply Hz. rewrite Forall_map. eapply Forall_impl; [|exact H].
      cbn. intros g ->. lra. }
    rewrite Hs. unfold Rdiv. apply Rmult_0_l.
Qed.

(** X4.  With a positive weight and a batch of at least one sample, the
    penalty is never negative, and it is zero exactly when the gradient of
    the critic with respect to the interpolated coordinates has norm 1 for
    every sample. *)
Theorem gradient_penalty_sign src D real fake ra fa lambda_gp st :
  0 < lambda_gp ->
  coordinate_gradient_norms
    (grad D (fst (fst (interpolates src real fake ra fa st)))
            (snd (fst (interpolates src real fake ra fa st)))) <> [] ->
  0 <= fst (compute_gradient_penalty src D real fake ra fa lambda_gp st)
  /\ (fst (compute_gradient_penalty src D real fake ra fa lambda_gp st) = 0
      <-> Forall (fun g => g = 1)
            (coordinate_gradient_norms
               (grad D (fst (fst (interpolates src real fake ra fa st)))
                       (snd (fst (interpolates src real fake ra fa st)))))).
Proof.
  intros Hl Hne. rewrite PenaltyFacts.penalty_unfold.
  set (norms := coordinate_gradient_norms _) in *.
  pose proof (mean_squares_nonneg norms) as Hm.
  split; [apply Rmult_le_pos; lra|].
  rewrite <- (mean_squares_zero_iff norms Hne). split.
  - intros H. apply Rmult_integral in H. destruct H; lra.
  - intros ->. lra.
Qed.

(** the linear critic on one sample: the penalty is positive, since the
    norm of its coordinate gradient is 3 *)
Lemma gradient_penalty_sign_witness :
  0 <= fst (compute_gradient_penalty Fixtures.half_source
              Fixtures.linear_critic [[[0]]] [[[1]]] [[[1]]] [[[1]]] 1 0%nat).
Proof.
  apply (gradient_penalty_sign Fixtures.half_source Fixtures.linear_critic
           [[[0]]] [[[1]]] [[[1]]] [[[1]]] 1 0%nat).
  - lra.
  - discriminate.
Defined.

End PenaltyExtra.

(** ** [train_gan]: errors, checkpoints, frozen networks *)

Module PretrainExtra.
Import Tensor Layout Rand Penalty Nets Pretrain.
Local Open Scope R_scope.

(** the state after an epoch, field by field *)
Lemma train_gan_epoch_fields E dl lambda_gp lambda_rec patience epoch s s' :
  train_gan_epoch E dl lambda_gp lambda_rec patience epoch s = Py.Ok s' ->
  let b := batches_of E dl lambda_gp lambda_rec s in
  let t := b_totals b in
  let avg_g := total_g_loss t / INR (length dl) in
  let avg_d := total_d_loss t / INR (length dl) in
  let avg_rec := total_reconstruction_loss t / INR (length dl) in
  let acc :=
    if (0 <? total_real t + total_fake t)%nat then
      INR (correct_real t + correct_fake t)
      / INR (total_real t + total_fake t) * 100
    else 0 in
  dl <> []
  /\ networks s' = b_nets b
  /\ rng_state s' = b_rng b
  /\ best_g_loss s'
     = (if Py.lt_ext avg_g (best_g_loss s) then Py.Fin avg_g
        else best_g_loss s)
  /\ best_d_loss s'
     = (if Py.lt_ext avg_d (best_d_loss s) then Py.Fin avg_d
        else best_d_loss s)
  /\ save_path_g s'
     = (if Py.lt_ext avg_g (best_g_loss s) then Some (gen (b_nets b))
        else save_path_g s)
  /\ save_path_d s'
     = (if Py.lt_ext avg_d (best_d_loss s) then Some (disc (b_nets b))
        else save_path_d s)
  /\ log_path s'
     = Csv.append (log_path s)
         [Csv.Int (Z.of_nat epoch + 1); Csv.Float avg_g; Csv.Float avg_rec;
          Csv.Float avg_d; Csv.Float acc]
  /\ epochs_run s' = S (epochs_run s).
Proof.
  intros H. unfold train_gan_epoch in H. cbn zeta.
  destruct dl as [|b0 dl]; [discriminate|].
  set (n := length (b0 :: dl)) in *.
  assert (Hn : exists k, n = S k) by (exists (length dl); reflexivity).
  destruct Hn as [k Hk]. rewrite Hk in H. cbn [Py.div_int Py.bind] in H.
  rewrite <- Hk in H.
  split; [discriminate|].
  destruct (Py.lt_ext _ (best_g_loss s));
    destruct (Py.lt_ext _ (best_d_loss s));
    injection H as <-; repeat split; reflexivity.
Qed.

Lemma train_gan_loop_invariant E dl lambda_gp lambda_rec patience
  (P : state E -> Prop) :
  (forall epoch s s',
      P s ->
      train_gan_epoch E dl lambda_gp lambda_rec patience epoch s = Py.Ok s' ->
      P s') ->
  forall range s s',
    P s ->
    train_gan_loop E dl lambda_gp lambda_rec patience range s = Py.Ok s' ->
    P s'.
Proof.
  intros Hstep. induction range as [|epoch range IH]; intros s s' HP H;
    cbn [train_gan_loop] in H.
  - now injection H as <-.
  - destruct (stop_training_g s && stop_training_d s).
    + now injection H as <-.
    + destruct (train_gan_epoch E dl lambda_gp lambda_rec patience epoch s)
        as [s1|e] eqn:Hep; [|discriminate].
      cbn [Py.bind] in H. exact (IH s1 s' (Hstep _ _ _ HP Hep) H).
Qed.

(** X5.  [train_gan] divides the accumulated losses by the number of
    batches: on an empty loader it raises [ZeroDivisionError] in its first
    epoch, before the guarded accuracy computation is reached; asked for no
    epoch it returns the untouched initial state, whatever the loader. *)
Theorem train_gan_empty_loader E n0 dl epochs lambda_gp lambda_rec patience st0 :
  (dl = [] -> (1 <= epochs)%nat ->
   train_gan E n0 dl epochs lambda_gp lambda_rec patience st0
   = Py.Raise Py.ZeroDivisionError)
  /\ (epochs = 0%nat ->
      train_gan E n0 dl epochs lambda_gp lambda_rec patience st0
      = Py.Ok (initial E n0 st0)).
Proof.
  split.
  - intros -> He. destruct epochs as [|epochs]; [lia|]. reflexivity.
  - intros ->. reflexivity.
Qed.

Lemma ltb_true x y : x < y -> Py.ltb x y = true.
Proof. intros H. unfold Py.ltb. destruct (Rlt_dec x y); [reflexivity|lra]. Qed.

Lemma ltb_false x y : y <= x -> Py.ltb x y = false.
Proof. intros H. unfold Py.ltb. destruct (Rlt_dec x y); [lra|reflexivity]. Qed.

(** X6.  A frozen generator still takes part in the early-stopping
    bookkeeping.  Its accumulated loss stays 0, so the epoch logs the
    generator loss 0; when the best loss so far is above 0 this counts as an
    improvement: the best loss becomes 0, the counter is reset and the
    checkpoint is written again with the unchanged generator.  The flag
    stays raised in every case. *)
Theorem frozen_generator_logs_zero
  E dl lambda_gp lambda_rec patience epoch s s' :
  stop_training_g s = true ->
  train_gan_epoch E dl lambda_gp lambda_rec patience epoch s = Py.Ok s' ->
  (exists avg_rec avg_d acc,
      log_path s'
      = Csv.append (log_path s)
          [Csv.Int (Z.of_nat epoch + 1); Csv.Float 0; Csv.Float avg_rec;
           Csv.Float avg_d; Csv.Float acc])
  /\ gen (networks s') = gen (networks s)
  /\ stop_training_g s' = true
  /\ (Py.lt_ext 0 (best_g_loss s) = true ->
      best_g_loss s' = Py.Fin 0
      /\ g_epochs_without_improvement s' = 0%nat
      /\ save_path_g s' = Some (gen (networks s)))
  /\ (Py.lt_ext 0 (best_g_loss s) = false ->
      best_g_loss s' = best_g_loss s
      /\ g_epochs_without_improvement s'
         = S (g_epochs_without_improvement s)
      /\ save_path_g s' = save_path_g s).
Proof.
  intros Hstop H.
  destruct (train_gan_epoch_fields _ _ _ _ _ _ _ _ H)
    as (Hdl & Hnet & _ & Hbg & _ & Hsg & _ & Hlog & _).
  destruct (PretrainFacts.train_gan_epoch_unfold _ _ _ _ _ _ _ _ H)
    as (_ & _ & _ & Htg & _ & _ & _).
  destruct (PretrainFacts.batches_frozen_g E dl lambda_gp lambda_rec s Hstop)
    as (Hgen & _ & _ & Hzero).
  cbn zeta in *. rewrite Hzero in *.
  assert (H0 : 0 / INR (length dl) = 0) by (unfold Rdiv; apply Rmult_0_l).
  rewrite H0 in *.
  split; [eauto|]. split; [now rewrite Hnet|].
  assert (Hcount : g_epochs_without_improvement s'
                   = without_improvement (g_tracker s')) by reflexivity.
  assert (Hflag : stop_training_g s' = stop (g_tracker s')) by reflexivity.
  rewrite Hcount, Hflag, Htg, Hbg, Hsg. unfold early_stop_update.
  cbn [g_tracker best without_improvement stop].
  split; [|split]; [| intros Hlt; rewrite Hlt | intros Hlt; rewrite Hlt].
  - destruct (Py.lt_ext 0 (best_g_loss s)); cbn [stop]; [exact Hstop|].
    rewrite Hstop. now destruct (patience <=? _)%nat.
  - cbn [without_improvement]. now rewrite Hgen.
  - cbn [without_improvement]. auto.
Qed.

(** the frozen generator of the toy pipeline with best loss 5: the next
    epoch records the loss 0 as the new best *)
Lemma frozen_generator_logs_zero_witness :
  exists s',
    train_gan_epoch Fixtures.toy_env [Fixtures.toy_batch] 1 100 20 7
      FixturesExtra.frozen_generator_state = Py.Ok s'
    /\ best_g_loss s' = Py.Fin 0
    /\ save_path_g s' = Some tt.
Proof.
  assert (Hdl : [Fixtures.toy_batch] <> []) by discriminate.
  destruct (PretrainFacts.train_gan_epoch_returns Fixtures.toy_env
              [Fixtures.toy_batch] 1 100 20 7
              FixturesExtra.frozen_generator_state Hdl) as [s' Hs'].
  exists s'. split; [exact Hs'|].
  destruct (frozen_generator_logs_zero Fixtures.toy_env [Fixtures.toy_batch]
              1 100 20 7 FixturesExtra.frozen_generator_state s' eq_refl Hs')
    as (_ & _ & _ & Himp & _).
  assert (Hlt : Py.lt_ext 0 (best_g_loss FixturesExtra.frozen_generator_state)
                = true) by (apply ltb_true; lra).
  destruct (Himp Hlt) as (Hb & _ & Hsave). split; [exact Hb|exact Hsave].
Defined.

(** *** How early the loop can break *)





(** *** The best loss and the checkpoints *)





(** *** The counters of an epoch *)

Lemma count_true_le (m : list bool) : (count_true m <= length m)%nat.
Proof.
  induction m as [|b m IH]; [apply Nat.le_refl|].
  change (count_true (b :: m))
    with (((if b then 1 else 0) + count_true m)%nat).
  cbn [length]. destruct b; lia.
Qed.

Lemma train_gan_batch_counts E lambda_gp lambda_rec stop_g stop_d s b :
  let s' := train_gan_batch E lambda_gp lambda_rec stop_g stop_d s b in
  ((correct_real (b_totals s) <= total_real (b_totals s))%nat ->
   (correct_real (b_totals s') <= total_real (b_totals s'))%nat)
  /\ ((correct_fake (b_totals s) <= total_fake (b_totals s))%nat ->
      (correct_fake (b_totals s') <= total_fake (b_totals s'))%nat)
  /\ gen_steps (b_nets s')
     = (gen_steps (b_nets s) + if stop_g then 0 else 1)%nat
  /\ disc_steps (b_nets s')
     = (disc_steps (b_nets s) + if stop_d then 0 else 1)%nat.
Proof.
  destruct b as [[node_coords adj_matrices] labels].
  unfold train_gan_batch. cbn [randn_2].
  destruct stop_d; cbn [negb].
  - destruct stop_g; cbn [negb].
    + cbn [b_totals b_nets correct_real total_real correct_fake total_fake
           gen_steps disc_steps].
      repeat split; try lia; intros Hle;
        match goal with
        | |- (_ + count_true ?m <= _ + length ?m)%nat =>
            pose proof (count_true_le m); lia
        end.
    + destruct (g_loss_of _ _ _ _ _ _ _ _) as [g_loss rec_loss].
      destruct (optimizer_g _ _ _) as [g1 gopt1].
      cbn [b_totals b_nets correct_real total_real correct_fake total_fake
           gen_steps disc_steps].
      repeat split; try lia; intros Hle;
        match goal with
        | |- (_ + count_true ?m <= _ + length ?m)%nat =>
            pose proof (count_true_le m); lia
        end.
  - destruct (d_loss_of _ _ _ _ _ _ _) as [d_loss st2].
    destruct (optimizer_d _ _ _) as [d1 dopt1].
    destruct stop_g; cbn [negb].
    + cbn [b_totals b_nets correct_real total_real correct_fake total_fake
           gen_steps disc_steps].
      repeat split; try lia; intros Hle;
        match goal with
        | |- (_ + count_true ?m <= _ + length ?m)%nat =>
            pose proof (count_true_le m); lia
        end.
    + destruct (g_loss_of _ _ _ _ _ _ _ _) as [g_loss rec_loss].
      destruct (optimizer_g _ _ _) as [g1 gopt1].
      cbn [b_totals b_nets correct_real total_real correct_fake total_fake
           gen_steps disc_steps].
      repeat split; try lia; intros Hle;
        match goal with
        | |- (_ + count_true ?m <= _ + length ?m)%nat =>
            pose proof (count_true_le m); lia
        end.
Qed.

Lemma fold_counts E lambda_gp lambda_rec stop_g stop_d :
  forall dl b0,
    let b := fold_left (train_gan_batch E lambda_gp lambda_rec stop_g stop_d)
               dl b0 in
    ((correct_real (b_totals b0) <= total_real (b_totals b0))%nat ->
     (correct_real (b_totals b) <= total_real (b_totals b))%nat)
    /\ ((correct_fake (b_totals b0) <= total_fake (b_totals b0))%nat ->
        (correct_fake (b_totals b) <= total_fake (b_totals b))%nat)
    /\ gen_steps (b_nets b)
       = (gen_steps (b_nets b0)
          + if stop_g then 0 else length dl)%nat
    /\ disc_steps (b_nets b)
       = (disc_steps (b_nets b0)
          + if stop_d then 0 else length dl)%nat.
Proof.
  induction dl as [|b dl IH]; intros b0; cbn [fold_left length].
  - repeat split; auto; destruct stop_g, stop_d; lia.
  - destruct (IH (train_gan_batch E lambda_gp lambda_rec stop_g stop_d b0 b))
      as (H1 & H2 & H3 & H4).
    destruct (train_gan_batch_counts E lambda_gp lambda_rec stop_g stop_d b0 b)
      as (K1 & K2 & K3 & K4).
    cbn zeta in *. rewrite H3, H4, K3, K4.
    repeat split; auto; destruct stop_g, stop_d; lia.
Qed.

Lemma percentage_range (c t : nat) :
  (c <= t)%nat ->
  0 <= (if (0 <? t)%nat then INR c / INR t * 100 else 0) <= 100.
Proof.
  intros Hle. destruct (0 <? t)%nat eqn:Ht; [|lra].
  apply Nat.ltb_lt in Ht.
  assert (Hpos : 0 < INR t) by (apply lt_0_INR; exact Ht).
  assert (Hc : 0 <= INR c) by apply pos_INR.
  assert (Hct : INR c <= INR t) by (apply le_INR; exact Hle).
  assert (H0 : 0 <= INR c / INR t).
  { apply Rmult_le_pos; [exact Hc|]. left. now apply Rinv_0_lt_compat. }
  assert (H1 : INR c / INR t <= 1).
  { apply (Rmult_le_reg_r (INR t)); [exact Hpos|].
    unfold Rdiv. rewrite Rmult_assoc, Rinv_l; lra. }
  lra.
Qed.

Lemma batches_counts E dl lambda_gp lambda_rec (s : state E) :
  let b := batches_of E dl lambda_gp lambda_rec s in
  (correct_real (b_totals b) + correct_fake (b_totals b)
   <= total_real (b_totals b) + total_fake (b_totals b))%nat
  /\ gen_steps (b_nets b)
     = (gen_steps (networks s)
        + if stop_training_g s then 0 else length dl)%nat
  /\ disc_steps (b_nets b)
     = (disc_steps (networks s)
        + if stop_training_d s then 0 else length dl)%nat.
Proof.
  unfold batches_of. cbn zeta.
  match goal with
  | |- context [fold_left _ _ ?b0] =>
      destruct (fold_counts E lambda_gp lambda_rec (stop_training_g s)
                  (stop_training_d s) dl b0) as (H1 & H2 & H3 & H4)
  end.
  cbn zeta in *. cbn [b_totals b_nets correct_real total_real correct_fake
                      total_fake] in H1, H2, H3, H4.
  specialize (H1 (Nat.le_refl 0)). specialize (H2 (Nat.le_refl 0)).
  split; [lia|]. split; assumption.
Qed.

(** X9.  Every discriminator accuracy that [train_gan] logs is a
    percentage: it lies between 0 and 100, the value 0 covering the guarded
    case of an epoch without samples. *)
Theorem train_gan_logged_accuracy_range
  E n0 dl epochs lambda_gp lambda_rec patience st0 s :
  train_gan E n0 dl epochs lambda_gp lambda_rec patience st0 = Py.Ok s ->
  Forall (fun a => 0 <= a <= 100) (Csv.column 4 (log_path s)).
Proof.
  intros H.
  apply (train_gan_loop_invariant E dl lambda_gp lambda_rec patience
           (fun s => log_path s <> []
                     /\ Forall (fun a => 0 <= a <= 100)
                          (Csv.column 4 (log_path s))))
    with (range := seq 0 epochs) (s := initial E n0 st0) in H.
  - apply H.
  - intros epoch s1 s2 [Hne Hall] Hstep.
    destruct (train_gan_epoch_fields _ _ _ _ _ _ _ _ Hstep)
      as (_ & _ & _ & _ & _ & _ & _ & Hlog & _).
    cbn zeta in Hlog. rewrite Hlog.
    split; [apply PretrainFacts.append_nonempty|].
    rewrite PretrainFacts.column_append by exact Hne.
    apply Forall_app. split; [exact Hall|]. constructor; [|constructor].
    cbn [nth Csv.float_of].
    destruct (batches_counts E dl lambda_gp lambda_rec s1) as [Hle _].
    cbn zeta in Hle. exact (percentage_range _ _ Hle).
  - split; [discriminate|]. constructor.
Qed.

Lemma train_gan_logged_accuracy_range_witness :
  exists s,
    train_gan Fixtures.toy_env Fixtures.toy_gan_nets [Fixtures.toy_batch]
      3 1 100 20 0%nat = Py.Ok s
    /\ Forall (fun a => 0 <= a <= 100) (Csv.column 4 (log_path s)).
Proof.
  assert (Hdl : [Fixtures.toy_batch] <> []) by discriminate.
  destruct (PretrainFacts.train_gan_returns Fixtures.toy_env
              Fixtures.toy_gan_nets [Fixtures.toy_batch] 3 1 100 20 0%nat Hdl)
    as [s Hs].
  exists s. split; [exact Hs|].
  exact (train_gan_logged_accuracy_range Fixtures.toy_env
           Fixtures.toy_gan_nets [Fixtures.toy_batch] 3 1 100 20 0%nat s Hs).
Defined.

Lemma train_gan_epoch_flags E dl lambda_gp lambda_rec patience epoch s s' :
  train_gan_epoch E dl lambda_gp lambda_rec patience epoch s = Py.Ok s' ->
  (stop_training_g s = true -> stop_training_g s' = true)
  /\ (stop_training_d s = true -> stop_training_d s' = true).
Proof.
  intros H.
  destruct (PretrainFacts.train_gan_epoch_unfold _ _ _ _ _ _ _ _ H)
    as (avg_rec & acc & _ & Hg & Hd & _).
  cbn zeta in *. split; intros Hs.
  - change (stop (g_tracker s') = true). rewrite Hg.
    now apply PretrainFacts.update_keeps_stop.
  - change (stop (d_tracker s') = true). rewrite Hd.
    now apply PretrainFacts.update_keeps_stop.
Qed.

(** X10.  In [train_gan] each optimizer steps once per batch in the epochs
    in which its network is not frozen, and never otherwise: the number of
    steps is at most the number of epochs run times the number of batches,
    and it is exactly that for a network whose flag is still down at the
    end of the run. *)
Theorem train_gan_optimizer_steps
  E n0 dl epochs lambda_gp lambda_rec patience st0 s :
  train_gan E n0 dl epochs lambda_gp lambda_rec patience st0 = Py.Ok s ->
  (gen_steps (networks s)
   <= gen_steps n0 + epochs_run s * length dl)%nat
  /\ (stop_training_g s = false ->
      gen_steps (networks s)
      = (gen_steps n0 + epochs_run s * length dl)%nat)
  /\ (disc_steps (networks s)
      <= disc_steps n0 + epochs_run s * length dl)%nat
  /\ (stop_training_d s = false ->
      disc_steps (networks s)
      = (disc_steps n0 + epochs_run s * length dl)%nat).
Proof.
  intros H.
  apply (train_gan_loop_invariant E dl lambda_gp lambda_rec patience
           (fun s =>
              (gen_steps (networks s)
               <= gen_steps n0 + epochs_run s * length dl)%nat
              /\ (stop_training_g s = false ->
                  gen_steps (networks s)
                  = (gen_steps n0 + epochs_run s * length dl)%nat)
              /\ (disc_steps (networks s)
                  <= disc_steps n0 + epochs_run s * length dl)%nat
              /\ (stop_training_d s = false ->
                  disc_steps (networks s)
                  = (disc_steps n0 + epochs_run s * length dl)%nat)))
    with (range := seq 0 epochs) (s := initial E n0 st0) in H.
  - exact H.
  - intros epoch s1 s2 (G1 & G2 & D1 & D2) Hstep.
    destruct (train_gan_epoch_fields _ _ _ _ _ _ _ _ Hstep)
      as (_ & Hnet & _ & _ & _ & _ & _ & _ & Hrun).
    destruct (train_gan_epoch_flags _ _ _ _ _ _ _ _ Hstep) as [Fg Fd].
    destruct (batches_counts E dl lambda_gp lambda_rec s1) as (_ & Sg & Sd).
    cbn zeta in *. rewrite Hnet, Hrun, Sg, Sd. cbn [Nat.mul].
    repeat split.
    + destruct (stop_training_g s1); lia.
    + intros Hoff. destruct (stop_training_g s1);
        [specialize (Fg eq_refl); congruence|].
      specialize (G2 eq_refl). lia.
    + destruct (stop_training_d s1); lia.
    + intros Hoff. destruct (stop_training_d s1);
        [specialize (Fd eq_refl); congruence|].
      specialize (D2 eq_refl). lia.
  - cbn. repeat split; lia.
Qed.

Lemma train_gan_optimizer_steps_witness :
  exists s,
    train_gan Fixtures.toy_env Fixtures.toy_gan_nets [Fixtures.toy_batch]
      3 1 100 20 0%nat = Py.Ok s
    /\ (gen_steps (networks s)
        <= gen_steps Fixtures.toy_gan_nets + epochs_run s * 1)%nat.
Proof.
  assert (Hdl : [Fixtures.toy_batch] <> []) by discriminate.
  destruct (PretrainFacts.train_gan_returns Fixtures.toy_env
              Fixtures.toy_gan_nets [Fixtures.toy_batch] 3 1 100 20 0%nat Hdl)
    as [s Hs].
  exists s. split; [exact Hs|].
  exact (proj1 (train_gan_optimizer_steps Fixtures.toy_env
                  Fixtures.toy_gan_nets [Fixtures.toy_batch] 3 1 100 20 0%nat
                  s Hs)).
Defined.

End PretrainExtra.

(** ** [evaluate_model]: the ranges of what it returns *)

Module EvaluateExtra.
Import Tensor Layout Rand Penalty Nets Metric Evaluate.
Local Open Scope R_scope.

Lemma count_eq_range : forall a b : tensor,
  (0 <= count_eq a b <= Z.of_nat (length b))%Z.
Proof.
  unfold count_eq.
  induction a as [|x a IH]; intros [|y b]; cbn [combine map Tensor.sum fold_right length];
    try lia.
  specialize (IH b). unfold Tensor.sum in IH. cbn [fst snd].
  destruct (x =? y)%Z; lia.
Qed.

Lemma evaluate_batch_correct E g c K k b :
  (0 <= correct k <= Z.of_nat (total k))%Z ->
  (0 <= correct (evaluate_batch E g c K k b)
   <= Z.of_nat (total (evaluate_batch E g c K k b)))%Z.
Proof.
  intros Hk. destruct b as [[graph_layouts adj] labels].
  unfold evaluate_batch.
  destruct (predict_batch _ _ _ _ _ _ _) as [predicted st1].
  destruct (calculate_f1 predicted labels) as [[precision recall] f1].
  cbn [correct total].
  pose proof (count_eq_range predicted labels). lia.
Qed.

Lemma fold_correct E g c K :
  forall loader k,
    (0 <= correct k <= Z.of_nat (total k))%Z ->
    let k' := fold_left (evaluate_batch E g c K) loader k in
    (0 <= correct k' <= Z.of_nat (total k'))%Z.
Proof.
  induction loader as [|b loader IH]; intros k Hk; cbn [fold_left];
    [exact Hk|].
  apply IH. now apply evaluate_batch_correct.
Qed.

Lemma div_int_ok x n y :
  Py.div_int x n = Py.Ok y -> (0 < n)%nat /\ y = x / INR n.
Proof.
  destruct n as [|n]; cbn [Py.div_int]; [discriminate|].
  intros Hy. injection Hy as <-. split; [lia|reflexivity].
Qed.

Lemma percent_of_counts (c : Z) (t : nat) :
  (0 <= c <= Z.of_nat t)%Z -> (0 < t)%nat ->
  0 <= IZR (100 * c) / INR t <= 100.
Proof.
  intros [Hc0 Hct] Ht.
  assert (Hpos : 0 < INR t) by (apply lt_0_INR; exact Ht).
  rewrite mult_IZR.
  assert (H0 : 0 <= IZR c) by (apply IZR_le; exact Hc0).
  assert (H1 : IZR c <= INR t)
    by (rewrite INR_IZR_INZ; apply IZR_le; exact Hct).
  split.
  - apply Rmult_le_pos; [lra|]. left. now apply Rinv_0_lt_compat.
  - apply (Rmult_le_reg_r (INR t)); [exact Hpos|].
    unfold Rdiv. rewrite Rmult_assoc, Rinv_l; lra.
Qed.

(** X11.  On a loader whose batches have one label for each graph, the
    accuracy that [evaluate_model] returns is a percentage: it lies between
    0 and 100 for every generator, classifier and sample count. *)
Theorem evaluate_model_accuracy_range
  E g c loader num_z_samples st accuracy avg_f1 st1 :
  Forall (fun b : batch => length (snd b) = length (fst (fst b))) loader ->
  evaluate_model E g c loader num_z_samples st
  = Py.Ok (accuracy, avg_f1, st1) ->
  0 <= accuracy <= 100.
Proof.
  unfold evaluate_model. intros _ H.
  set (k := fold_left _ _ _) in H.
  destruct (Py.div_int (IZR (100 * correct k)) (total k)) as [a|e] eqn:Ha;
    [|discriminate]. cbn [Py.bind] in H.
  destruct (Py.div_int (total_f1 k) (length loader)) as [f|e] eqn:Hf;
    [|discriminate]. cbn [Py.bind] in H.
  injection H as <- _ _.
  destruct (div_int_ok _ _ _ Ha) as [Ht ->].
  apply percent_of_counts; [|exact Ht].
  apply (fold_correct E g c num_z_samples loader). cbn. lia.
Qed.

Lemma evaluate_model_accuracy_range_witness :
  exists accuracy avg_f1 st1,
    evaluate_model Fixtures.toy_env tt tt [Fixtures.toy_batch] 5 0%nat
    = Py.Ok (accuracy, avg_f1, st1)
    /\ 0 <= accuracy <= 100.
Proof.
  destruct (EvaluateFacts.evaluate_model_returns Fixtures.toy_env tt tt
              [Fixtures.toy_batch] 5 0%nat CombinedFacts.toy_loader_labelled)
    as (accuracy & avg_f1 & st1 & H).
  exists accuracy, avg_f1, st1. split; [exact H|].
  assert (Hl : Forall (fun b : batch => length (snd b) = length (fst (fst b)))
                 [Fixtures.toy_batch])
    by (constructor; [reflexivity|constructor]).
  exact (evaluate_model_accuracy_range Fixtures.toy_env tt tt
           [Fixtures.toy_batch] 5 0%nat accuracy avg_f1 st1 Hl H).
Defined.

Lemma argmax_two (row : list R) :
  length row = 2%nat -> argmax row = 0%Z \/ argmax row = 1%Z.
Proof.
  destruct row as [|x [|y [|w row]]]; try discriminate. intros _.
  unfold argmax. cbn [argmax_from]. destruct (Py.ltb x y); auto.
Qed.

Lemma predict_binary (o : logits) :
  Forall (fun r => length r = 2%nat) o -> binary (predict o).
Proof.
  intros H. unfold binary, predict. apply Forall_map.
  apply (Forall_impl _ argmax_two H).
Qed.

Lemma averaged_rows samples b :
  Forall (fun r => length r = 2%nat) (averaged_logits samples b 2).
Proof.
  unfold averaged_logits. apply Forall_map. apply Forall_forall.
  intros i _. now rewrite length_map, length_seq.
Qed.

Lemma predict_batch_binary E g c K graph_layouts adj st :
  generator_keeps_batch E Eval g -> classifier_two_logits E Eval c ->
  binary (fst (predict_batch E g c K graph_layouts adj st)).
Proof.
  intros Hg Hc.
  rewrite (EvaluateFacts.predict_batch_average E g c K graph_layouts adj st
             Hg Hc).
  apply predict_binary, averaged_rows.
Qed.

Lemma f1_in_unit_interval preds labels :
  binary preds -> binary labels ->
  0 <= snd (calculate_f1 preds labels) <= 1.
Proof.
  intros Hp Hl. rewrite (MetricFacts.calculate_f1_counts preds labels Hp Hl).
  unfold closed_form. cbn [snd].
  pose proof (pos_INR (count_tp preds labels)) as Ht.
  pose proof (pos_INR (count_fp preds labels)) as Hfp.
  pose proof (pos_INR (count_fn preds labels)) as Hfn.
  apply MetricExtra.f1_range; apply MetricExtra.ratio_range; assumption.
Qed.

Lemma fold_f1 E g c K :
  generator_keeps_batch E Eval g -> classifier_two_logits E Eval c ->
  forall loader k,
    Forall (fun b : batch => binary (snd b)) loader ->
    let k' := fold_left (evaluate_batch E g c K) loader k in
    total_f1 k <= total_f1 k' <= total_f1 k + INR (length loader).
Proof.
  intros Hg Hc.
  induction loader as [|b loader IH]; intros k Hb; cbn [fold_left length].
  - cbn. lra.
  - inversion Hb as [|b' l' Hb1 Hb2]; subst.
    specialize (IH (evaluate_batch E g c K k b) Hb2). cbn zeta in IH.
    assert (Hstep : total_f1 k <= total_f1 (evaluate_batch E g c K k b)
                    <= total_f1 k + 1).
    { destruct b as [[graph_layouts adj] labels]. unfold evaluate_batch.
      pose proof (predict_batch_binary E g c K graph_layouts adj
                    (rng_state k) Hg Hc) as Hp.
      destruct (predict_batch _ _ _ _ _ _ _) as [predicted st1].
      cbn [fst snd] in Hp, Hb1.
      pose proof (f1_in_unit_interval predicted labels Hp Hb1) as Hf.
      destruct (calculate_f1 predicted labels) as [[precision recall] f1].
      cbn [total_f1 snd] in *. lra. }
    rewrite S_INR. lra.
Qed.

(** X12.  With a generator that keeps the batch size, a classifier with two
    logits per graph and labels that are 0 or 1, the predictions of
    [evaluate_model] are 0 or 1 and the F1 score it returns, the mean of the
    per-batch scores, lies between 0 and 1. *)
Theorem evaluate_model_f1_range
  E g c loader num_z_samples st accuracy avg_f1 st1 :
  generator_keeps_batch E Eval g -> classifier_two_logits E Eval c ->
  Forall (fun b : batch => binary (snd b)) loader ->
  evaluate_model E g c loader num_z_samples st
  = Py.Ok (accuracy, avg_f1, st1) ->
  0 <= avg_f1 <= 1
  /\ forall graph_layouts adj st',
       binary (fst (predict_batch E g c num_z_samples graph_layouts adj st')).
Proof.
  intros Hg Hc Hb H.
  split; [|intros; now apply predict_batch_binary].
  unfold evaluate_model in H.
  pose proof (fold_f1 E g c num_z_samples Hg Hc loader
                {| correct := 0; total := 0; total_f1 := 0; rng_state := st |}
                Hb) as Hf.
  cbn zeta in Hf. cbn [total_f1] in Hf.
  set (k := fold_left _ _ _) in *.
  destruct (Py.div_int (IZR (100 * correct k)) (total k)) as [a|e] eqn:Ha;
    [|discriminate]. cbn [Py.bind] in H.
  destruct (Py.div_int (total_f1 k) (length loader)) as [f|e] eqn:Hd;
    [|discriminate]. cbn [Py.bind] in H.
  injection H as _ <- _.
  destruct (div_int_ok _ _ _ Hd) as [Hn ->].
  assert (Hpos : 0 < INR (length loader)) by (apply lt_0_INR; exact Hn).
  split.
  - apply Rmult_le_pos; [lra|]. left. now apply Rinv_0_lt_compat.
  - apply (Rmult_le_reg_r (INR (length loader))); [exact Hpos|].
    unfold Rdiv. rewrite Rmult_assoc, Rinv_l; lra.
Qed.

Lemma evaluate_model_f1_range_witness :
  exists accuracy avg_f1 st1,
    evaluate_model Fixtures.toy_env tt tt [Fixtures.toy_batch] 5 0%nat
    = Py.Ok (accuracy, avg_f1, st1)
    /\ 0 <= avg_f1 <= 1.
Proof.
  destruct (EvaluateFacts.evaluate_model_returns Fixtures.toy_env tt tt
              [Fixtures.toy_batch] 5 0%nat CombinedFacts.toy_loader_labelled)
    as (accuracy & avg_f1 & st1 & H).
  exists accuracy, avg_f1, st1. split; [exact H|].
  assert (Hb : Forall (fun b : batch => binary (snd b)) [Fixtures.toy_batch]).
  { constructor; [|constructor]. constructor; [right; reflexivity|constructor]. }
  exact (proj1 (evaluate_model_f1_range Fixtures.toy_env tt tt
                  [Fixtures.toy_batch] 5 0%nat accuracy avg_f1 st1
                  (EvaluateFacts.toy_generator_keeps_batch Eval)
                  (EvaluateFacts.toy_classifier_two_logits Eval) Hb H)).
Defined.

End EvaluateExtra.

(** ** [train_combined_cgan]: errors, checkpoint and counters *)

Module CombinedExtra.
Import Tensor Layout Rand Penalty Nets Combined.
Local Open Scope R_scope.

Ltac bind_ok H x Hx :=
  match type of H with
  | Py.bind ?m _ = Py.Ok _ =>
      destruct m as [x|] eqn:Hx; [cbn [Py.bind] in H | discriminate H]
  end.

(** the state after an epoch, with the row it logs *)
Lemma combined_epoch_fields
  E tl vl tel patience lambda_gp alpha K epoch s s1 :
  combined_epoch E tl vl tel patience lambda_gp alpha K epoch s = Py.Ok s1 ->
  exists b val val_f1 st1 test test_f1 st2 avg_g avg_d avg_c train train_f1,
    combined_batches E lambda_gp alpha K tl (start_of_epoch s) = Py.Ok b
    /\ evaluate E (b_nets b) vl (b_rng b) = Py.Ok (val, val_f1, st1)
    /\ evaluate E (b_nets b) tel st1 = Py.Ok (test, test_f1, st2)
    /\ networks s1 = step_schedulers E (b_nets b)
    /\ log_path s1
       = Csv.append (log_path s)
           [Csv.Int (Z.of_nat epoch + 1); Csv.Float avg_g; Csv.Float avg_d;
            Csv.Float avg_c; Csv.Float train; Csv.Float train_f1;
            Csv.Float val; Csv.Float val_f1; Csv.Float test;
            Csv.Float test_f1]
    /\ epochs_run s1 = S (epochs_run s)
    /\ (best_accuracy s < val ->
        save_path s1 = Some (checkpoint_of E (networks s1) epoch val test)
        /\ best_accuracy s1 = val
        /\ epochs_without_improvement s1 = 0%nat)
    /\ (~ best_accuracy s < val ->
        save_path s1 = save_path s
        /\ best_accuracy s1 = best_accuracy s
        /\ epochs_without_improvement s1 = S (epochs_without_improvement s)).
Proof.
  intros H. unfold combined_epoch in H.
  bind_ok H b Hb. bind_ok H train_accuracy Hta. bind_ok H avg_f1 Hf1.
  bind_ok H v Hv. destruct v as [[val val_f1] st1].
  bind_ok H w Hw. destruct w as [[test test_f1] st2].
  bind_ok H avg_g Hg. bind_ok H avg_d Hd. bind_ok H avg_c Hc.
  exists b, val, val_f1, st1, test, test_f1, st2, avg_g, avg_d, avg_c,
    train_accuracy, avg_f1.
  split; [reflexivity|]. split; [exact Hv|]. split; [exact Hw|].
  unfold Py.ltb in H.
  destruct (Rlt_dec (best_accuracy s) val) as [Hlt|Hge];
    injection H as <-; cbn [networks log_path epochs_run save_path
                              best_accuracy epochs_without_improvement];
    (split; [reflexivity|]); (split; [reflexivity|]);
    (split; [reflexivity|]); split; intros Hcase;
    try contradiction; repeat split.
Qed.

Lemma combined_loop_invariant E tl vl tel patience lambda_gp alpha K
  (P : state E -> Prop) :
  (forall s s1,
      P s ->
      combined_epoch E tl vl tel patience lambda_gp alpha K (epochs_run s) s
      = Py.Ok s1 ->
      P s1) ->
  forall n s s',
    P s ->
    combined_loop E tl vl tel patience lambda_gp alpha K
      (seq (epochs_run s) n) s = Py.Ok s' ->
    P s'.
Proof.
  intros Hstep. induction n as [|n IH]; intros s s' HP H;
    cbn [seq combined_loop] in H.
  - now injection H as <-.
  - bind_ok H s1 Hep.
    assert (Hrun : epochs_run s1 = S (epochs_run s)).
    { destruct (combined_epoch_fields _ _ _ _ _ _ _ _ _ _ _ Hep)
        as (? & ? & ? & ? & ? & ? & ? & ? & ? & ? & ? & ? & _ & _ & _ & _ & _
            & Hr & _). exact Hr. }
    specialize (Hstep s s1 HP Hep).
    destruct (patience <=? epochs_without_improvement s1)%nat.
    + now injection H as <-.
    + rewrite <- Hrun in H. exact (IH s1 s' Hstep H).
Qed.

(** X13.  [train_combined_cgan] evaluates the untrained model on the
    training loader before anything else: an empty training loader makes it
    raise [ZeroDivisionError] whatever the number of epochs.  With three
    non-empty loaders whose batches hold graphs, [num_z_samples = 0] makes
    the first training batch raise [RuntimeError], from [torch.stack] of no
    critic score. *)
Theorem train_combined_cgan_errors
  E n0 tl vl tel epochs patience lambda_gp alpha K st0 :
  (tl = [] ->
   train_combined_cgan E n0 tl vl tel epochs patience lambda_gp alpha K st0
   = Py.Raise Py.ZeroDivisionError)
  /\ (tl <> [] -> vl <> [] -> tel <> [] ->
      Forall holds_graphs tl -> Forall holds_graphs vl ->
      Forall holds_graphs tel ->
      K = 0%nat -> (1 <= epochs)%nat ->
      train_combined_cgan E n0 tl vl tel epochs patience lambda_gp alpha K st0
      = Py.Raise Py.RuntimeError).
Proof.
  split.
  - intros ->. reflexivity.
  - intros Ht Hv Hte Gt Gv Gte -> He.
    pose proof (EvaluateFacts.holds_graphs_labelled tl Ht Gt) as Lt.
    pose proof (EvaluateFacts.holds_graphs_labelled vl Hv Gv) as Lv.
    pose proof (EvaluateFacts.holds_graphs_labelled tel Hte Gte) as Lte.
    unfold train_combined_cgan.
    destruct (CombinedFacts.combined_initial_returns E n0 tl vl tel st0
                Lt Lv Lte) as [s0 ->]. cbn [Py.bind].
    destruct epochs as [|epochs]; [lia|]. cbn [seq combined_loop].
    unfold combined_epoch.
    destruct tl as [|b tl]; [congruence|].
    destruct b as [[graph_layouts adj] labels]. reflexivity.
Qed.

(** *** The checkpoint and the best accuracy *)

Lemma tl_snoc (A : Type) (l : list A) (x : A) :
  l <> [] -> tl (l ++ [x]) = tl l ++ [x].
Proof. destruct l; [congruence|reflexivity]. Qed.

Lemma checkpoint_tracks_best_initial E n0 tl vl tel st0 s0 :
  combined_initial E n0 tl vl tel st0 = Py.Ok s0 ->
  CombinedInvariant.checkpoint_tracks_best s0 /\ epochs_run s0 = 0%nat.
Proof.
  intros H. unfold combined_initial in H.
  bind_ok H a Ha. destruct a as [[ta tf] st1].
  bind_ok H v Hv. destruct v as [[va vf] st2].
  bind_ok H w Hw. destruct w as [[tea tef] st3].
  injection H as <-. split; [|reflexivity].
  unfold CombinedInvariant.checkpoint_tracks_best,
    CombinedInvariant.logged_val_accuracies.
  cbn. repeat split; try lra; try lia; try discriminate; auto.
Qed.

Lemma checkpoint_tracks_best_step
  E tl vl tel patience lambda_gp alpha K (s s1 : state E) :
  CombinedInvariant.checkpoint_tracks_best s ->
  combined_epoch E tl vl tel patience lambda_gp alpha K (epochs_run s) s
  = Py.Ok s1 ->
  CombinedInvariant.checkpoint_tracks_best s1.
Proof.
  unfold CombinedInvariant.checkpoint_tracks_best,
    CombinedInvariant.logged_val_accuracies.
  intros (Hne & Hlen & H0 & Hcnt & Hall & Hnone & Hsome) H.
  destruct (combined_epoch_fields _ _ _ _ _ _ _ _ _ _ _ H)
    as (b & val & val_f1 & st1 & test & test_f1 & st2 & avg_g & avg_d & avg_c
        & train & train_f1 & _ & _ & _ & _ & Hlog & Hrun & Himp & Hkeep).
  rewrite Hlog, Hrun.
  rewrite (PretrainFacts.column_append 6 (log_path s) _ Hne).
  cbn [nth Csv.float_of].
  assert (Hcol : Csv.column 6 (log_path s) <> [])
    by (intros Hnil; rewrite Hnil in Hlen; discriminate).
  rewrite (tl_snoc _ _ _ Hcol).
  assert (Hlt : length (List.tl (Csv.column 6 (log_path s))) = epochs_run s).
  { destruct (Csv.column 6 (log_path s)); [congruence|].
    cbn in *. lia. }
  split; [apply PretrainFacts.append_nonempty|].
  split; [rewrite length_app; cbn [length]; lia|].
  destruct (Rlt_dec (best_accuracy s) val) as [Hlt'|Hge].
  - destruct (Himp Hlt') as (Hsave & Hbest & Hc). rewrite Hbest, Hc, Hsave.
    split; [lra|]. split; [lia|]. split.
    { apply Forall_app. split; [|constructor; [lra|constructor]].
      apply (Forall_impl _ (fun v (Hv : v <= best_accuracy s) =>
                              Rle_trans _ _ _ Hv (Rlt_le _ _ Hlt')) Hall). }
    split; [discriminate|].
    intros ck Hck. injection Hck as <-. cbn.
    split; [reflexivity|]. split; [lra|]. split; [lia|].
    rewrite <- Hlt. rewrite app_nth2 by lia. now rewrite Nat.sub_diag.
  - destruct (Hkeep Hge) as (Hsave & Hbest & Hc). rewrite Hbest, Hc, Hsave.
    split; [exact H0|]. split; [lia|]. split.
    { apply Forall_app. split; [exact Hall|]. constructor; [lra|constructor]. }
    split; [exact Hnone|].
    intros ck Hck. destruct (Hsome ck Hck) as (K1 & K2 & K3 & K4).
    split; [exact K1|]. split; [exact K2|]. split; [lia|].
    rewrite app_nth1 by lia. exact K4.
Qed.

(** X14.  In [train_combined_cgan] the best accuracy starts at 0, not at the
    validation accuracy of the untrained model: it bounds every validation
    accuracy logged for a training epoch, no checkpoint exists as long as it
    is 0, and an existing checkpoint holds the best accuracy together with
    the 0-based number of the epoch that reached it, one less than the
    epoch number of that epoch's row in the log. *)
Theorem combined_checkpoint_tracks_best
  E n0 tl vl tel epochs patience lambda_gp alpha K st0 s :
  train_combined_cgan E n0 tl vl tel epochs patience lambda_gp alpha K st0
  = Py.Ok s ->
  length (CombinedInvariant.logged_val_accuracies s) = epochs_run s
  /\ 0 <= best_accuracy s
  /\ Forall (fun v => v <= best_accuracy s)
       (CombinedInvariant.logged_val_accuracies s)
  /\ (save_path s = None -> best_accuracy s = 0)
  /\ (forall ck,
         save_path s = Some ck ->
         saved_val_accuracy E ck = best_accuracy s
         /\ 0 < best_accuracy s
         /\ (saved_epoch E ck < epochs_run s)%nat
         /\ nth (saved_epoch E ck)
              (CombinedInvariant.logged_val_accuracies s) 0
            = best_accuracy s).
Proof.
  intros H. unfold train_combined_cgan in H. bind_ok H s0 H0.
  destruct (checkpoint_tracks_best_initial _ _ _ _ _ _ _ H0) as [Hinit Hrun].
  rewrite <- Hrun in H.
  pose proof (combined_loop_invariant E tl vl tel patience lambda_gp alpha K
                CombinedInvariant.checkpoint_tracks_best
                (checkpoint_tracks_best_step E tl vl tel patience lambda_gp
                   alpha K)
                epochs s0 s Hinit H) as (_ & Hlen & Hb & _ & Hall & Hn & Hs).
  split; [|auto].
  unfold CombinedInvariant.logged_val_accuracies.
  destruct (Csv.column 6 (log_path s)); [discriminate|]. cbn in *. lia.
Qed.

Lemma combined_checkpoint_tracks_best_witness :
  exists s,
    train_combined_cgan Fixtures.toy_env Fixtures.toy_nets
      [Fixtures.toy_batch] [Fixtures.toy_batch] [Fixtures.toy_batch]
      3 2 5 30 2 0%nat = Py.Ok s
    /\ 0 <= best_accuracy s
    /\ length (CombinedInvariant.logged_val_accuracies s) = epochs_run s.
Proof.
  assert (HK : (1 <= 2)%nat) by lia.
  destruct (CombinedFacts.train_combined_cgan_returns Fixtures.toy_env
              Fixtures.toy_nets [Fixtures.toy_batch] [Fixtures.toy_batch]
              [Fixtures.toy_batch] 3 2 5 30 2 0%nat HK
              CombinedFacts.toy_loader_labelled
              CombinedFacts.toy_loader_labelled
              CombinedFacts.toy_loader_labelled) as [s Hs].
  exists s. split; [exact Hs|].
  destruct (combined_checkpoint_tracks_best Fixtures.toy_env
              Fixtures.toy_nets [Fixtures.toy_batch] [Fixtures.toy_batch]
              [Fixtures.toy_batch] 3 2 5 30 2 0%nat s Hs)
    as (Hlen & Hb & _).
  split; [exact Hb|exact Hlen].
Defined.

(** *** How early the combined loop can stop *)

Lemma combined_loop_first_epoch E tl vl tel patience lambda_gp alpha K :
  forall n s s',
    consistent s ->
    combined_loop E tl vl tel patience lambda_gp alpha K
      (seq (epochs_run s) (S n)) s = Py.Ok s' ->
    (S (epochs_run s) <= epochs_run s')%nat.
Proof.
  intros n s s' Hc H. cbn [seq combined_loop] in H. bind_ok H s1 Hep.
  destruct (CombinedFacts.combined_consistent_epoch _ _ _ _ _ _ _ _ _ _ Hc Hep)
    as [Hc1 Hrun].
  destruct (patience <=? epochs_without_improvement s1)%nat.
  - injection H as <-. lia.
  - rewrite <- Hrun in H.
    destruct (CombinedFacts.combined_loop_consistent _ _ _ _ _ _ _ _ _ _ _
                Hc1 H) as (_ & Hle & _). lia.
Qed.

(** X15.  [train_combined_cgan] stops early only when the validation
    accuracy has not improved for [patience] epochs in a row, so it runs at
    least [min epochs (max patience 1)] epochs; unlike in [train_gan] the
    first epoch need not count as an improvement, since the best accuracy
    starts at 0. *)
Theorem train_combined_cgan_epochs_run_bounds
  E n0 tl vl tel epochs patience lambda_gp alpha K st0 s :
  train_combined_cgan E n0 tl vl tel epochs patience lambda_gp alpha K st0
  = Py.Ok s ->
  (Nat.min epochs (Nat.max patience 1) <= epochs_run s <= epochs)%nat
  /\ (epochs_without_improvement s <= epochs_run s)%nat
  /\ ((epochs_run s < epochs)%nat ->
      (patience <= epochs_without_improvement s)%nat).
Proof.
  intros H.
  destruct (CombinedFacts.train_combined_cgan_consistent _ _ _ _ _ _ _ _ _ _
              _ _ H) as (_ & Hle & Hend).
  unfold train_combined_cgan in H. bind_ok H s0 H0.
  destruct (checkpoint_tracks_best_initial _ _ _ _ _ _ _ H0) as [Hinit Hrun].
  destruct (CombinedFacts.combined_consistent_initial _ _ _ _ _ _ _ H0)
    as (Hc0 & _).
  rewrite <- Hrun in H.
  pose proof (combined_loop_invariant E tl vl tel patience lambda_gp alpha K
                CombinedInvariant.checkpoint_tracks_best
                (checkpoint_tracks_best_step E tl vl tel patience lambda_gp
                   alpha K)
                epochs s0 s Hinit H) as (_ & _ & _ & Hcnt & _).
  assert (Hfirst : (1 <= epochs -> 1 <= epochs_run s)%nat).
  { intros He. destruct epochs as [|n]; [lia|].
    pose proof (combined_loop_first_epoch _ _ _ _ _ _ _ _ _ _ _ Hc0 H). lia. }
  split; [|split; [exact Hcnt|]].
  - split; [|exact Hle]. destruct Hend as [Heq|Hp]; [lia|].
    destruct epochs as [|n]; [lia|]. specialize (Hfirst ltac:(lia)). lia.
  - intros Hlt. destruct Hend as [Heq|Hp]; [lia|exact Hp].
Qed.

Lemma train_combined_cgan_epochs_run_bounds_witness :
  exists s,
    train_combined_cgan Fixtures.toy_env Fixtures.toy_nets
      [Fixtures.toy_batch] [Fixtures.toy_batch] [Fixtures.toy_batch]
      1 0 5 30 2 0%nat = Py.Ok s
    /\ epochs_run s = 1%nat.
Proof.
  assert (HK : (1 <= 2)%nat) by lia.
  destruct (CombinedFacts.train_combined_cgan_returns Fixtures.toy_env
              Fixtures.toy_nets [Fixtures.toy_batch] [Fixtures.toy_batch]
              [Fixtures.toy_batch] 1 0 5 30 2 0%nat HK
              CombinedFacts.toy_loader_labelled
              CombinedFacts.toy_loader_labelled
              CombinedFacts.toy_loader_labelled) as [s Hs].
  exists s. split; [exact Hs|].
  destruct (train_combined_cgan_epochs_run_bounds Fixtures.toy_env
              Fixtures.toy_nets [Fixtures.toy_batch] [Fixtures.toy_batch]
              [Fixtures.toy_batch] 1 0 5 30 2 0%nat s Hs) as (Hb & _).
  cbn in Hb. lia.
Defined.

(** *** Optimizer steps *)

Lemma combined_batch_steps E lambda_gp alpha K s b s1 :
  combined_batch E lambda_gp alpha K s b = Py.Ok s1 ->
  gen_steps (b_nets s1) = S (gen_steps (b_nets s))
  /\ disc_steps (b_nets s1) = S (disc_steps (b_nets s))
  /\ clf_steps (b_nets s1) = S (clf_steps (b_nets s)).
Proof.
  destruct b as [[graph_layouts adj] labels]. unfold combined_batch.
  destruct K as [|K]; [discriminate|].
  destruct (draw_noises _ (b_rng s) _ _) as [zs_d st1].
  destruct (d_loss_of _ _ _ _ _ _ _) as [d_loss st2].
  destruct (optimizer_d _ _ _) as [d1 dopt1].
  destruct (draw_noises _ st2 _ _) as [zs_g st3].
  destruct (generator_losses _ _ _ _ _ _ _ _ _ _ _) as [[g_loss c_loss] outputs].
  destruct (optimizer_g _ _ _) as [g1 gopt1].
  destruct (optimizer_c _ _ _) as [c1 copt1].
  destruct (Metric.calculate_f1 _ _) as [[precision recall] f1].
  intros H. injection H as <-. cbn. auto.
Qed.

Lemma combined_batches_steps E lambda_gp alpha K :
  forall tl s b,
    combined_batches E lambda_gp alpha K tl s = Py.Ok b ->
    gen_steps (b_nets b) = (gen_steps (b_nets s) + length tl)%nat
    /\ disc_steps (b_nets b) = (disc_steps (b_nets s) + length tl)%nat
    /\ clf_steps (b_nets b) = (clf_steps (b_nets s) + length tl)%nat.
Proof.
  induction tl as [|b0 tl IH]; intros s b H; cbn [combined_batches length] in *.
  - injection H as <-. repeat split; lia.
  - bind_ok H s1 Hb.
    destruct (combined_batch_steps _ _ _ _ _ _ _ Hb) as (G & D & C).
    destruct (IH s1 b H) as (G' & D' & C'). repeat split; lia.
Qed.

(** X16.  In [train_combined_cgan] no network is ever frozen: each of the
    three optimizers has stepped exactly once per training batch of every
    epoch run. *)
Theorem train_combined_cgan_optimizer_steps
  E n0 tl vl tel epochs patience lambda_gp alpha K st0 s :
  train_combined_cgan E n0 tl vl tel epochs patience lambda_gp alpha K st0
  = Py.Ok s ->
  gen_steps (networks s) = (gen_steps n0 + epochs_run s * length tl)%nat
  /\ disc_steps (networks s) = (disc_steps n0 + epochs_run s * length tl)%nat
  /\ clf_steps (networks s) = (clf_steps n0 + epochs_run s * length tl)%nat.
Proof.
  intros H. unfold train_combined_cgan in H. bind_ok H s0 H0.
  assert (Hinit : networks s0 = n0 /\ epochs_run s0 = 0%nat).
  { unfold combined_initial in H0.
    bind_ok H0 a Ha. destruct a as [[ta tf] st1].
    bind_ok H0 v Hv. destruct v as [[va vf] st2].
    bind_ok H0 w Hw. destruct w as [[tea tef] st3].
    injection H0 as <-. split; reflexivity. }
  destruct Hinit as [Hn Hrun]. rewrite <- Hrun in H.
  apply (combined_loop_invariant E tl vl tel patience lambda_gp alpha K
           (fun s =>
              gen_steps (networks s)
              = (gen_steps n0 + epochs_run s * length tl)%nat
              /\ disc_steps (networks s)
                 = (disc_steps n0 + epochs_run s * length tl)%nat
              /\ clf_steps (networks s)
                 = (clf_steps n0 + epochs_run s * length tl)%nat))
    with (n := epochs) (s := s0).
  - intros s1 s2 (G & D & C) Hep.
    destruct (combined_epoch_fields _ _ _ _ _ _ _ _ _ _ _ Hep)
      as (b & val & val_f1 & st1 & test & test_f1 & st2 & avg_g & avg_d
          & avg_c & train & train_f1 & Hb & _ & _ & Hnet & _ & Hr & _).
    destruct (combined_batches_steps _ _ _ _ _ _ _ Hb) as (G' & D' & C').
    rewrite Hnet, Hr. cbn [step_schedulers gen_steps disc_steps clf_steps
                            start_of_epoch b_nets] in *.
    cbn [Nat.mul]. repeat split; lia.
  - rewrite Hn, Hrun. cbn. repeat split; lia.
  - exact H.
Qed.

Lemma train_combined_cgan_optimizer_steps_witness :
  exists s,
    train_combined_cgan Fixtures.toy_env Fixtures.toy_nets
      [Fixtures.toy_batch] [Fixtures.toy_batch] [Fixtures.toy_batch]
      3 2 5 30 2 0%nat = Py.Ok s
    /\ clf_steps (networks s) = epochs_run s.
Proof.
  assert (HK : (1 <= 2)%nat) by lia.
  destruct (CombinedFacts.train_combined_cgan_returns Fixtures.toy_env
              Fixtures.toy_nets [Fixtures.toy_batch] [Fixtures.toy_batch]
              [Fixtures.toy_batch] 3 2 5 30 2 0%nat HK
              CombinedFacts.toy_loader_labelled
              CombinedFacts.toy_loader_labelled
              CombinedFacts.toy_loader_labelled) as [s Hs].
  exists s. split; [exact Hs|].
  destruct (train_combined_cgan_optimizer_steps Fixtures.toy_env
              Fixtures.toy_nets [Fixtures.toy_batch] [Fixtures.toy_batch]
              [Fixtures.toy_batch] 3 2 5 30 2 0%nat s Hs) as (_ & _ & Hc).
  rewrite Hc. cbn. lia.
Defined.

End CombinedExtra.

(** ** The rows handed to the renderer *)

Module RenderExtra.
Import Tensor Layout Rand Penalty Nets.
Local Open Scope R_scope.

Lemma filter_all_true (A : Type) (f : A -> bool) (l : list A) :
  Forall (fun x => f x = true) l -> filter f l = l.
Proof.
  induction 1 as [|x l Hx _ IH]; [reflexivity|].
  cbn [filter]. now rewrite Hx, IH.
Qed.

Lemma filter_all_false (A : Type) (f : A -> bool) (l : list A) :
  Forall (fun x => f x = false) l -> filter f l = [].
Proof.
  induction 1 as [|x l Hx _ IH]; [reflexivity|].
  cbn [filter]. now rewrite Hx, IH.
Qed.

Lemma filter_nil_all_false (A : Type) (f : A -> bool) (l : list A) :
  filter f l = [] -> Forall (fun x => f x = false) l.
Proof.
  induction l as [|x l IH]; [constructor|]. cbn [filter].
  destruct (f x) eqn:Hx; [discriminate|]. intros H. constructor; auto.
Qed.

Lemma filter_true (A : Type) (f : A -> bool) (l : list A) :
  Forall (fun x => f x = true) (filter f l).
Proof.
  apply Forall_forall. intros x Hx. now apply filter_In in Hx.
Qed.

(** the first [length (filter f l)] entries of [l] are the entries that
    satisfy [f] exactly when those entries come first *)
Lemma firstn_filter_iff (A : Type) (f : A -> bool) (l : list A) :
  firstn (length (filter f l)) l = filter f l
  <-> exists front back,
        l = front ++ back
        /\ Forall (fun x => f x = true) front
        /\ Forall (fun x => f x = false) back.
Proof.
  split.
  - intros H. exists (firstn (length (filter f l)) l),
      (skipn (length (filter f l)) l).
    split; [symmetry; apply firstn_skipn|].
    split; [rewrite H; apply filter_true|].
    apply filter_nil_all_false.
    pose proof (firstn_skipn (length (filter f l)) l) as Hsplit.
    assert (Hlen : length (filter f l)
                   = (length (filter f (firstn (length (filter f l)) l))
                      + length (filter f (skipn (length (filter f l)) l)))%nat).
    { rewrite <- length_app, <- filter_app, Hsplit. reflexivity. }
    rewrite H in Hlen.
    rewrite (filter_all_true _ f (filter f l) (filter_true _ f l)) in Hlen.
    destruct (filter f (skipn (length (filter f l)) l)); [reflexivity|].
    cbn [length] in Hlen. lia.
  - intros (front & back & -> & Hf & Hb).
    rewrite filter_app, (filter_all_true _ f front Hf),
      (filter_all_false _ f back Hb), app_nil_r.
    rewrite firstn_app, Nat.sub_diag, firstn_all. cbn [firstn].
    now rewrite app_nil_r.
Qed.

Lemma nth_num_nodes_evaluate graph_layouts i :
  nth i (num_nodes_evaluate graph_layouts) 0%nat
  = count_nonzero_rows (nth i graph_layouts []).
Proof.
  unfold num_nodes_evaluate.
  rewrite (LayoutFacts.num_nodes_counts graph_layouts).
  change 0%nat with (count_nonzero_rows []). apply map_nth.
Qed.

(** X17.  [evaluate_model] renders, of each generated layout, the first
    rows, as many as the conditioning layout has rows of non-zero norm.
    These first rows are the positions of the conditioning layout's real
    nodes exactly when its zero rows all come last. *)
Theorem render_all_first_rows E gen_layouts graph_layouts adj_matrices :
  render_all E gen_layouts adj_matrices (num_nodes_evaluate graph_layouts)
  = map (fun il =>
           visualize_graph_layout E
             (firstn (count_nonzero_rows (nth (fst il) graph_layouts []))
                (snd il))
             (nth (fst il) adj_matrices []))
        (enumerate gen_layouts)
  /\ forall g : layout,
       (count_nonzero_rows g <= length g)%nat
       /\ (firstn (count_nonzero_rows g) g
           = filter (fun r => nonzero (norm r)) g
           <-> exists real padding,
                 g = real ++ padding
                 /\ Forall (fun r => nonzero (norm r) = true) real
                 /\ Forall (fun r => nonzero (norm r) = false) padding).
Proof.
  split.
  - unfold render_all. apply map_ext. intros il.
    now rewrite nth_num_nodes_evaluate.
  - intros g. split; [apply filter_length_le|].
    apply (firstn_filter_iff _ (fun r => nonzero (norm r)) g).
Qed.

End RenderExtra.

(** ** The shape of the two metrics files *)

Module LogExtra.
Import Tensor Layout Rand Penalty Nets.
Local Open Scope R_scope.

Lemma rows_append (n : nat) (f : Csv.file) (r : Csv.row) :
  Forall (fun r => length r = n) f -> length r = n ->
  Forall (fun r => length r = n) (Csv.append f r).
Proof.
  intros Hf Hr. unfold Csv.append. apply Forall_app. split; [exact Hf|].
  constructor; [exact Hr|constructor].
Qed.

(** X18.  Every row of metrics_gan.csv has the five cells of its header, and
    every row of metrics_combined_train.csv, the epoch-0 row with its three
    empty loss cells included, has the ten cells of its header. *)
Theorem csv_rows_have_header_width :
  (forall E n0 dl epochs lambda_gp lambda_rec patience st0 s,
      Pretrain.train_gan E n0 dl epochs lambda_gp lambda_rec patience st0
      = Py.Ok s ->
      hd_error (Pretrain.log_path s) = Some Csv.gan_header
      /\ Forall (fun r => length r = length Csv.gan_header)
           (Pretrain.log_path s))
  /\ (forall E n0 tl vl tel epochs patience lambda_gp alpha K st0 s,
         Combined.train_combined_cgan E n0 tl vl tel epochs patience
           lambda_gp alpha K st0 = Py.Ok s ->
         hd_error (Combined.log_path s) = Some Csv.combined_header
         /\ Forall (fun r => length r = length Csv.combined_header)
              (Combined.log_path s)).
Proof.
  split.
  - intros E n0 dl epochs lambda_gp lambda_rec patience st0 s H.
    apply (PretrainExtra.train_gan_loop_invariant E dl lambda_gp lambda_rec
             patience
             (fun s => hd_error (Pretrain.log_path s) = Some Csv.gan_header
                       /\ Forall (fun r => length r = length Csv.gan_header)
                            (Pretrain.log_path s)))
      with (range := seq 0 epochs) (s := Pretrain.initial E n0 st0).
    + intros epoch s1 s2 [Hh Hall] Hstep.
      destruct (PretrainExtra.train_gan_epoch_fields _ _ _ _ _ _ _ _ Hstep)
        as (_ & _ & _ & _ & _ & _ & _ & Hlog & _).
      cbn zeta in Hlog. rewrite Hlog. split.
      * destruct (Pretrain.log_path s1); [discriminate|exact Hh].
      * apply rows_append; [exact Hall|reflexivity].
    + split; [reflexivity|]. constructor; [reflexivity|constructor].
    + exact H.
  - intros E n0 tl vl tel epochs patience lambda_gp alpha K st0 s H.
    unfold Combined.train_combined_cgan in H.
    destruct (Combined.combined_initial E n0 tl vl tel st0) as [s0|] eqn:H0;
      [cbn [Py.bind] in H|discriminate].
    assert (Hrun : Combined.epochs_run s0 = 0%nat)
      by (destruct (CombinedFacts.combined_consistent_initial _ _ _ _ _ _ _ H0)
           as (_ & Hr & _); exact Hr).
    rewrite <- Hrun in H.
    apply (CombinedExtra.combined_loop_invariant E tl vl tel patience
             lambda_gp alpha K
             (fun s =>
                hd_error (Combined.log_path s) = Some Csv.combined_header
                /\ Forall (fun r => length r = length Csv.combined_header)
                     (Combined.log_path s)))
      with (n := epochs) (s := s0).
    + intros s1 s2 [Hh Hall] Hstep.
      destruct (CombinedExtra.combined_epoch_fields _ _ _ _ _ _ _ _ _ _ _ Hstep)
        as (b & val & val_f1 & st1 & test & test_f1 & st2 & avg_g & avg_d
            & avg_c & train & train_f1 & _ & _ & _ & _ & Hlog & _).
      rewrite Hlog. split.
      * destruct (Combined.log_path s1); [discriminate|exact Hh].
      * apply rows_append; [exact Hall|reflexivity].
    + unfold Combined.combined_initial in H0.
      destruct (Combined.evaluate E n0 tl st0) as [[[ta tf] st1]|];
        [cbn [Py.bind] in H0|discriminate].
      destruct (Combined.evaluate E n0 vl st1) as [[[va vf] st2]|];
        [cbn [Py.bind] in H0|discriminate].
      destruct (Combined.evaluate E n0 tel st2) as [[[tea tef] st3]|];
        [cbn [Py.bind] in H0|discriminate].
      injection H0 as <-. cbn [Combined.log_path]. split; [reflexivity|].
      apply rows_append; [|reflexivity].
      constructor; [reflexivity|constructor].
    + exact H.
Qed.

End LogExtra.
